(** * Vehicle registration dashboard: growth metrics and aggregation engine

    A shallow embedding of the computational core of the dashboard
    ([utils.py], [data_loader.py] and the group-by steps of [charts.py])
    and the properties of its specification.

    Conventions of the embedding.
    - The [registrations] column is an [int64] column: sums over it are
      computed with 64-bit two's-complement wrap-around ([wrap64]).
    - Every true division yields a binary64 float.  Floats are the
      [spec_float] values of the Standard Library at precision 53 and
      maximal exponent 1024, with round-to-nearest-even operations.
    - Timestamps are whole days counted from 1970-01-01; the calendar
      fields the code reads through [.dt] are computed from the day number.
    - A function that can raise returns a [result]. *)

From Stdlib Require Import ZArith List Bool Lia String Ascii.
From Stdlib Require Import Permutation Sorted.
From Stdlib Require Import SpecFloat DecimalString.
Import ListNotations.

Local Open Scope string_scope.
Local Open Scope Z_scope.

(** ** Errors *)

Inductive exn : Type :=
| KeyError (label : string)
| ValueError (msg : string)
| UnboundLocalError (name : string).

Inductive result (A : Type) : Type :=
| Ok (a : A)
| Err (e : exn).

Arguments Ok {A} a.
Arguments Err {A} e.

(** ** 64-bit integers *)

Definition two63 : Z := 2 ^ 63.
Definition two64 : Z := 2 ^ 64.

(** Two's-complement reduction into [-2^63, 2^63). *)
Definition wrap64 (z : Z) : Z := (z + two63) mod two64 - two63.

Definition add64 (a b : Z) : Z := wrap64 (a + b).
Definition sub64 (a b : Z) : Z := wrap64 (a - b).

(** [Series.sum()] of an int64 column: a running int64 accumulator. *)
Definition sum64 (l : list Z) : Z := fold_left add64 l 0.

(** ** Binary64 floats *)

Definition float64 : Type := spec_float.

Definition prec64 : Z := 53.
Definition emax64 : Z := 1024.

Definition fdiv : float64 -> float64 -> float64 := SFdiv prec64 emax64.
Definition fmul : float64 -> float64 -> float64 := SFmul prec64 emax64.
Definition fadd : float64 -> float64 -> float64 := SFadd prec64 emax64.
Definition fsub : float64 -> float64 -> float64 := SFsub prec64 emax64.

(** Conversion of an integer to the nearest float (ties to even). *)
Definition of_int (z : Z) : float64 := binary_normalize prec64 emax64 z 0 false.

Definition is_nan (x : float64) : bool :=
  match x with S754_nan => true | _ => false end.

(** Quotient of [n] by [d > 0] rounded to the nearest integer, ties to even. *)
Definition div_half_even (n d : Z) : Z :=
  let q := n / d in
  let r := n mod d in
  match Z.compare (2 * r) d with
  | Lt => q
  | Gt => q + 1
  | Eq => if Z.even q then q else q + 1
  end.

(** [numpy.rint]: the nearest integral float, ties to even, sign kept. *)
Definition rint (x : float64) : float64 :=
  match x with
  | S754_finite s m e =>
      if 0 <=? e then x
      else
        let n := div_half_even (Zpos m) (2 ^ (- e)) in
        if n =? 0 then S754_zero s
        else binary_normalize prec64 emax64 (if s then - n else n) 0 s
  | _ => x
  end.

(** [numpy.round(x, decimals)] for [decimals > 0]: scale, [rint], unscale. *)
Definition round_float (decimals : nat) (x : float64) : float64 :=
  let p := of_int (10 ^ Z.of_nat decimals) in
  fdiv (rint (fmul x p)) p.

(** ** Numbers: an int64 or a float64 scalar

    The totals the dashboard computes are numpy scalars; integer literals
    of the source are numbers of the first kind. *)

Inductive number : Type :=
| Int (z : Z)
| Float (f : float64).

Definition to_float (n : number) : float64 :=
  match n with
  | Int z => of_int z
  | Float f => f
  end.

(** Comparison; [None] when a NaN is involved. *)
Definition num_compare (a b : number) : option comparison :=
  match a, b with
  | Int x, Int y => Some (Z.compare x y)
  | _, _ => SFcompare (to_float a) (to_float b)
  end.

Definition num_eqb (a b : number) : bool :=
  match num_compare a b with Some Eq => true | _ => false end.

Definition num_geb (a b : number) : bool :=
  match num_compare a b with Some (Gt | Eq) => true | _ => false end.

Definition num_sub (a b : number) : number :=
  match a, b with
  | Int x, Int y => Int (sub64 x y)
  | _, _ => Float (fsub (to_float a) (to_float b))
  end.

(** True division [a / b]: always a float; a zero divisor gives an
    infinity or a NaN, as numpy scalars do. *)
Definition num_div (a b : number) : number :=
  Float (fdiv (to_float a) (to_float b)).

(** [a * b]: a float as soon as one operand is a float. *)
Definition num_mul (a b : number) : number :=
  match a, b with
  | Int x, Int y => Int (wrap64 (x * y))
  | _, _ => Float (fmul (to_float a) (to_float b))
  end.


(** [pd.isna] on a scalar number. *)
Definition isna (a : number) : bool :=
  match a with
  | Int _ => false
  | Float f => is_nan f
  end.

(** ** Fixed-point formatting of floats *)

Definition string_of_nat_Z (z : Z) : string :=
  NilZero.string_of_uint (N.to_uint (Z.to_N z)).

Fixpoint string_of_list (l : list ascii) : string :=
  match l with
  | [] => EmptyString
  | c :: t => String c (string_of_list t)
  end.

Fixpoint list_of_string' (s : string) : list ascii :=
  match s with
  | EmptyString => []
  | String c t => c :: list_of_string' t
  end.

(** Insert a comma before every group of three digits, counted from the
    right; the argument is the digit list reversed. *)
Fixpoint group3_rev (l : list ascii) (k : nat) : list ascii :=
  match l with
  | [] => []
  | c :: t =>
      match k with
      | O => ","%char :: c :: group3_rev t 2
      | S k' => c :: group3_rev t k'
      end
  end.

Definition with_commas (s : string) : string :=
  string_of_list (rev (group3_rev (rev (list_of_string' s)) 3)).

Fixpoint zeros_before (k : nat) (acc : string) : string :=
  match k with
  | O => acc
  | S k' => zeros_before k' (String "0"%char acc)
  end.

Definition pad_zeros (width : nat) (s : string) : string :=
  zeros_before (width - String.length s) s.

(** The exact value [m * 2^e] scaled by [10^digits] and rounded to the
    nearest integer, ties to even (Python rounds the exact binary value). *)
Definition scaled_round (digits : nat) (m : positive) (e : Z) : Z :=
  let n := Zpos m * 10 ^ Z.of_nat digits in
  if 0 <=? e then n * 2 ^ e else div_half_even n (2 ^ (- e)).

(** [format(x, ".{digits}f")], or [",.{digits}f"] when [commas] is set. *)
Definition format_fixed (commas : bool) (digits : nat) (x : float64) : string :=
  let body (n : Z) : string :=
    let p := 10 ^ Z.of_nat digits in
    let ip := string_of_nat_Z (n / p) in
    let ip := if commas then with_commas ip else ip in
    match digits with
    | O => ip
    | S _ => ip ++ "." ++ pad_zeros digits (string_of_nat_Z (n mod p))
    end in
  match x with
  | S754_nan => "nan"
  | S754_infinity s => if s then "-inf" else "inf"
  | S754_zero s => (if s then "-" else "") ++ body 0
  | S754_finite s m e => (if s then "-" else "") ++ body (scaled_round digits m e)
  end.

(** ** [utils.format_number] *)


(** ** The two growth calculators *)

(** [utils.calculate_percentage_change] *)
Definition calculate_percentage_change (current previous : number) : number :=
  if num_eqb previous (Int 0) then
    if num_eqb current (Int 0) then Int 0 else Int 100
  else num_mul (num_div (num_sub current previous) previous) (Int 100).

(** The local [calculate_growth] of [data_loader.get_growth_metrics] *)
Definition calculate_growth (current previous : number) : number :=
  if num_eqb previous (Int 0) then Int 0
  else num_mul (num_div (num_sub current previous) previous) (Int 100).

(** ** Timestamps

    A timestamp is a day number (days since 1970-01-01); [NaT], the
    maximum of an empty column, is [None]. *)

Definition Timestamp : Type := Z.

(** Calendar date of a day number (proleptic Gregorian calendar). *)
Definition civil_from_days (t : Timestamp) : Z * Z * Z :=
  let z := t + 719468 in
  let era := z / 146097 in
  let doe := z - era * 146097 in
  let yoe := (doe - doe / 1460 + doe / 36524 - doe / 146096) / 365 in
  let doy := doe - (365 * yoe + yoe / 4 - yoe / 100) in
  let mp := (5 * doy + 2) / 153 in
  let d := doy - (153 * mp + 2) / 5 + 1 in
  let m := if mp <? 10 then mp + 3 else mp - 9 in
  let y := yoe + era * 400 in
  ((if m <=? 2 then y + 1 else y), m, d).

(** Day number of a calendar date; used to write timestamps down. *)
Definition days_from_civil (y m d : Z) : Timestamp :=
  let y' := if m <=? 2 then y - 1 else y in
  let era := y' / 400 in
  let yoe := y' - era * 400 in
  let doy := (153 * (if 2 <? m then m - 3 else m + 9) + 2) / 5 + d - 1 in
  let doe := yoe * 365 + yoe / 4 - yoe / 100 + doy in
  era * 146097 + doe - 719468.

(** [.dt.year], [.dt.month] and [.dt.quarter] *)
Definition dt_year (t : Timestamp) : Z := fst (fst (civil_from_days t)).
Definition dt_month (t : Timestamp) : Z := snd (fst (civil_from_days t)).
Definition dt_quarter (t : Timestamp) : Z := (dt_month t - 1) / 3 + 1.

(** [.dt.to_period('M')]: months since 1970-01, and back to the timestamp
    of the first day of that month. *)
Definition to_period_M (t : Timestamp) : Z := (dt_year t - 1970) * 12 + (dt_month t - 1).
Definition period_to_timestamp (p : Z) : Timestamp :=
  days_from_civil (1970 + p / 12) (p mod 12 + 1) 1.

(** [x - n] on a value that may be missing ([NaT], NaN): a missing value
    stays missing. *)
Definition opt_sub (x : option Z) (n : Z) : option Z :=
  match x with
  | Some v => Some (v - n)
  | None => None
  end.

(** [t - timedelta(days=n)] *)
Definition minus_days (t : option Timestamp) (n : Z) : option Timestamp := opt_sub t n.

(** [date >= bound] and [date < bound]: false against [NaT]. *)
Definition ts_geb (d : Timestamp) (bound : option Timestamp) : bool :=
  match bound with
  | Some b => b <=? d
  | None => false
  end.

Definition ts_ltb (d : Timestamp) (bound : option Timestamp) : bool :=
  match bound with
  | Some b => d <? b
  | None => false
  end.

(** Maximum of a column of integers; [None] on the empty column. *)
Fixpoint max_of (l : list Z) : option Z :=
  match l with
  | [] => None
  | x :: t =>
      match max_of t with
      | None => Some x
      | Some m => Some (Z.max x m)
      end
  end.

(** ** The record store *)

(** A cell of a column: an integer, a string or a timestamp. *)
Inductive cell : Type :=
| CInt (z : Z)
| CStr (s : string)
| CDate (t : Timestamp).

Record RegistrationRecord : Type := mkRecord {
  date : Timestamp;
  vehicle_category : string;
  vehicle_class : string;
  manufacturer : string;
  state : string;
  rto : string;
  registrations : Z;
  quarter : cell;
  year : Z
}.

(** A data frame: the rows over the nine columns of the schema, and the
    columns added afterwards, in insertion order, one cell per row. *)
Record DataFrame : Type := mkFrame {
  records : list RegistrationRecord;
  derived : list (string * list cell)
}.

Definition set_quarter (r : RegistrationRecord) (c : cell) : RegistrationRecord :=
  mkRecord (date r) (vehicle_category r) (vehicle_class r) (manufacturer r)
           (state r) (rto r) (registrations r) c (year r).

Fixpoint assoc_set {V : Type} (k : string) (v : V) (l : list (string * V))
  : list (string * V) :=
  match l with
  | [] => [(k, v)]
  | (k', v') :: t =>
      if String.eqb k k' then (k, v) :: t else (k', v') :: assoc_set k v t
  end.

Fixpoint assoc_get {V : Type} (k : string) (l : list (string * V)) : option V :=
  match l with
  | [] => None
  | (k', v) :: t => if String.eqb k k' then Some v else assoc_get k t
  end.

Fixpoint zip_with {A B C : Type} (f : A -> B -> C) (l : list A) (l' : list B) : list C :=
  match l, l' with
  | a :: t, b :: t' => f a b :: zip_with f t t'
  | _, _ => []
  end.

(** [df[label] = column]: an existing column is overwritten in place, a
    new one is appended.  The sources assign [quarter], a column of the
    schema, and the new columns [month] and [year_quarter]. *)
Definition setitem (label : string) (column : list cell) (df : DataFrame) : DataFrame :=
  if String.eqb label "quarter"
  then mkFrame (zip_with set_quarter (records df) column) (derived df)
  else mkFrame (records df) (assoc_set label column (derived df)).

(** [df[label]]: the column as a list of cells, [None] for a [KeyError]. *)
Definition getitem (label : string) (df : DataFrame) : option (list cell) :=
  let col (f : RegistrationRecord -> cell) := Some (map f (records df)) in
  if String.eqb label "date" then col (fun r => CDate (date r))
  else if String.eqb label "vehicle_category" then col (fun r => CStr (vehicle_category r))
  else if String.eqb label "vehicle_class" then col (fun r => CStr (vehicle_class r))
  else if String.eqb label "manufacturer" then col (fun r => CStr (manufacturer r))
  else if String.eqb label "state" then col (fun r => CStr (state r))
  else if String.eqb label "rto" then col (fun r => CStr (rto r))
  else if String.eqb label "registrations" then col (fun r => CInt (registrations r))
  else if String.eqb label "quarter" then col quarter
  else if String.eqb label "year" then col (fun r => CInt (year r))
  else assoc_get label (derived df).

(** [Series.unique()]: the distinct values in order of first appearance. *)
Fixpoint unique (l : list string) : list string :=
  match l with
  | [] => []
  | x :: t => x :: filter (fun y => negb (String.eqb x y)) (unique t)
  end.

(** [df[mask]['registrations'].sum()] *)
Definition total_where (p : RegistrationRecord -> bool) (rows : list RegistrationRecord) : Z :=
  sum64 (map registrations (filter p rows)).

(** ** Ordering of group keys *)

Definition cell_compare (a b : cell) : comparison :=
  match a, b with
  | CInt x, CInt y => Z.compare x y
  | CInt _, _ => Lt
  | CStr _, CInt _ => Gt
  | CStr x, CStr y => String.compare x y
  | CStr _, CDate _ => Lt
  | CDate x, CDate y => Z.compare x y
  | CDate _, _ => Gt
  end.

(** A composite key (one cell per grouping column), compared
    lexicographically. *)
Fixpoint key_compare (a b : list cell) : comparison :=
  match a, b with
  | [], [] => Eq
  | [], _ :: _ => Lt
  | _ :: _, [] => Gt
  | x :: a', y :: b' =>
      match cell_compare x y with
      | Eq => key_compare a' b'
      | c => c
      end
  end.

(** ** Group-by

    [groupby(keys)[col].agg()] keeps one accumulator per distinct key and
    lists the groups in ascending key order (pandas sorts group keys). *)

Section GroupBy.
Context {K V A : Type}.
Variable cmp : K -> K -> comparison.
Variable step : A -> V -> A.
Variable init : A.

Fixpoint upsert (k : K) (v : V) (acc : list (K * A)) : list (K * A) :=
  match acc with
  | [] => [(k, step init v)]
  | (k', a) :: t =>
      match cmp k k' with
      | Eq => (k', step a v) :: t
      | Lt => (k, step init v) :: acc
      | Gt => (k', a) :: upsert k v t
      end
  end.

Definition group_fold (rows : list (K * V)) : list (K * A) :=
  fold_left (fun acc kv => upsert (fst kv) (snd kv) acc) rows [].
End GroupBy.

(** [groupby(...)['registrations'].sum()] on the int64 column. *)
Definition groupby_sum {K : Type} (cmp : K -> K -> comparison) (rows : list (K * Z))
  : list (K * Z) :=
  group_fold cmp add64 0 rows.

(** [groupby(...)['registrations'].mean()]: the values of a group are
    converted to float64 and added up by pandas' [group_mean], a
    compensated (Kahan) summation that keeps, per group, the running sum,
    the running compensation (reset to 0 when it is NaN) and the number
    of values; the mean is the sum over that number. *)
Definition kahan_step (a : float64 * float64 * Z) (v : Z) : float64 * float64 * Z :=
  let sumx := fst (fst a) in
  let compensation := snd (fst a) in
  let y := fsub (of_int v) compensation in
  let t := fadd sumx y in
  let c := fsub (fsub t sumx) y in
  (t, if is_nan c then S754_zero false else c, snd a + 1).

Definition groupby_mean {K : Type} (cmp : K -> K -> comparison) (rows : list (K * Z))
  : list (K * float64) :=
  map (fun g => (fst g, fdiv (fst (fst (snd g))) (of_int (snd (snd g)))))
      (group_fold cmp kahan_step (S754_zero false, S754_zero false, 0) rows).

(** [ndarray.sum()] of a contiguous float64 array: numpy's pairwise
    summation.  Fewer than 8 values are added one after the other; up to
    128 values are added into 8 accumulators, block of 8 by block of 8,
    the accumulators are added as a balanced tree and the values left
    over are added one after the other; a longer array is split, at a
    multiple of 8 not after its middle, into two parts that are summed
    the same way.  The result is added to the initial value 0 of the
    reduction. *)
Definition sum_tree8 (r : list float64) : float64 :=
  let at_ (i : nat) := nth i r (S754_zero false) in
  fadd (fadd (fadd (at_ 0%nat) (at_ 1%nat)) (fadd (at_ 2%nat) (at_ 3%nat)))
       (fadd (fadd (at_ 4%nat) (at_ 5%nat)) (fadd (at_ 6%nat) (at_ 7%nat))).

Fixpoint add_blocks (fuel : nat) (r a : list float64) : list float64 * list float64 :=
  match fuel with
  | O => (r, a)
  | S fuel' =>
      if (8 <=? List.length a)%nat
      then add_blocks fuel' (zip_with fadd r (firstn 8 a)) (skipn 8 a)
      else (r, a)
  end.

Definition block_sum (a : list float64) : float64 :=
  let ra := add_blocks (List.length a) (firstn 8 a) (skipn 8 a) in
  fold_left fadd (snd ra) (sum_tree8 (fst ra)).

Fixpoint pairwise_sum (fuel : nat) (a : list float64) : float64 :=
  let n := List.length a in
  if (n <? 8)%nat then fold_left fadd a (S754_zero false)
  else if (n <=? 128)%nat then block_sum a
  else
    match fuel with
    | O => block_sum a
    | S fuel' =>
        let n2 := (n / 2 - (n / 2) mod 8)%nat in
        fadd (pairwise_sum fuel' (firstn n2 a)) (pairwise_sum fuel' (skipn n2 a))
    end.

Definition array_sum (a : list float64) : float64 :=
  fadd (S754_zero false) (pairwise_sum (List.length a) a).

(** [Series.mean()] of a float column ([nanops.nanmean]): NaN entries
    count as 0 in the sum and are left out of the count; the mean of no
    entries is NaN. *)
Definition mean_float (l : list float64) : float64 :=
  let values := map (fun x => if is_nan x then S754_zero false else x) l in
  let count := Z.of_nat (List.length (filter (fun x => negb (is_nan x)) l)) in
  if 0 <? count then fdiv (array_sum values) (of_int count) else S754_nan.

(** ** Sorting by value, descending

    [sort_values(ascending=False)]: non-NaN values in descending order,
    NaN last.  Elements that compare equal keep their relative order here,
    as they do under the insertion sort numpy applies to short arrays;
    the default sort of numpy does not promise it on long ones, and the
    properties below that speak of order (sortedness, same elements) hold
    for every sort. *)

Definition precedes (a b : float64) : bool :=
  is_nan b || (negb (is_nan a) && SFleb b a).

Section SortDesc.
Context {A : Type}.
Variable val : A -> float64.

Fixpoint insert_desc (x : A) (l : list A) : list A :=
  match l with
  | [] => [x]
  | y :: t => if precedes (val x) (val y) then x :: l else y :: insert_desc x t
  end.

Definition sort_desc (l : list A) : list A := fold_right insert_desc [] l.
End SortDesc.

(** ** [data_loader.get_growth_metrics] *)

(** [str.lower()] *)
Definition lower_char (c : ascii) : ascii :=
  let n := nat_of_ascii c in
  if (65 <=? n)%nat && (n <=? 90)%nat then ascii_of_nat (n + 32) else c.

Fixpoint lower (s : string) : string :=
  match s with
  | EmptyString => EmptyString
  | String c t => String (lower_char c) (lower t)
  end.

Definition in_category (category : string) (r : RegistrationRecord) : bool :=
  String.eqb (vehicle_category r) category.

Definition get_growth_metrics (df : DataFrame) : list (string * number) :=
  let rows := records df in
  let current_date := max_of (map date rows) in
  let previous_year_date := minus_days current_date 365 in
  let previous_quarter_date := minus_days current_date 90 in
  let current_data :=
    filter (fun r => ts_geb (date r) previous_quarter_date) rows in
  let prev_year_start := minus_days previous_year_date 90 in
  let prev_year_data :=
    filter (fun r => ts_geb (date r) prev_year_start
                     && ts_ltb (date r) previous_year_date) rows in
  let prev_quarter_start := minus_days previous_quarter_date 90 in
  let prev_quarter_data :=
    filter (fun r => ts_geb (date r) prev_quarter_start
                     && ts_ltb (date r) previous_quarter_date) rows in
  let per_category :=
    flat_map
      (fun category =>
         let current_total := Int (total_where (in_category category) current_data) in
         let prev_year_total := Int (total_where (in_category category) prev_year_data) in
         let prev_quarter_total :=
           Int (total_where (in_category category) prev_quarter_data) in
         [(lower category ++ "_yoy_growth", calculate_growth current_total prev_year_total);
          (lower category ++ "_qoq_growth",
           calculate_growth current_total prev_quarter_total)])
      ["2W"; "3W"; "4W"] in
  let current_total := Int (sum64 (map registrations current_data)) in
  let prev_year_total := Int (sum64 (map registrations prev_year_data)) in
  let prev_quarter_total := Int (sum64 (map registrations prev_quarter_data)) in
  List.app per_category
    [("total_yoy_growth", calculate_growth current_total prev_year_total);
     ("total_qoq_growth", calculate_growth current_total prev_quarter_total)].

(** ** [utils.calculate_market_share] *)

Definition share_of (total : Z) (g : cell * Z) : cell * float64 :=
  (fst g, round_float 2 (fmul (fdiv (of_int (snd g)) (of_int total)) (of_int 100))).

(** The grouped sums, by the column the [group_by] argument selects. *)
Definition market_share_groups (df : DataFrame) (group_by : string)
  : result (list (cell * Z)) :=
  let grouped (label : string) :=
    match getitem label df with
    | Some keys => Ok (groupby_sum cell_compare (combine keys (map registrations (records df))))
    | None => Err (KeyError label)
    end in
  if String.eqb group_by "manufacturer" then grouped "manufacturer"
  else if String.eqb group_by "category" then grouped "vehicle_category"
  else grouped group_by.

Definition calculate_market_share (df : DataFrame) (group_by : string)
  : result (list (cell * float64)) :=
  let total_registrations := sum64 (map registrations (records df)) in
  match market_share_groups df group_by with
  | Err e => Err e
  | Ok market_share =>
      let market_share_pct := map (share_of total_registrations) market_share in
      Ok (sort_desc snd market_share_pct)
  end.

(** ** [utils.get_seasonal_patterns] *)

Definition month_names : list string :=
  ["Jan"; "Feb"; "Mar"; "Apr"; "May"; "Jun"; "Jul"; "Aug"; "Sep"; "Oct"; "Nov"; "Dec"].

Record SeasonalRow : Type := mkSeasonal {
  Month : string;
  Average_Registrations : float64;
  Seasonal_Index : float64
}.

Definition month_column (df : DataFrame) : list cell :=
  map (fun r => CInt (dt_month (date r))) (records df).

(** The function assigns the [month] column of the frame it is given and
    then builds a frame of three columns; the frame constructor raises
    when the columns differ in length.  The result is the frame as the
    call leaves it, and the value returned or the error raised. *)
Definition get_seasonal_patterns (df : DataFrame)
  : DataFrame * result (list SeasonalRow) :=
  let df := setitem "month" (month_column df) df in
  match getitem "month" df with
  | None => (df, Err (KeyError "month"))
  | Some months =>
      let monthly_avg :=
        groupby_mean cell_compare (combine months (map registrations (records df))) in
      let overall_avg := mean_float (map snd monthly_avg) in
      let seasonal_index :=
        map (fun g => round_float 1 (fmul (fdiv (snd g) overall_avg) (of_int 100)))
            monthly_avg in
      if (List.length monthly_avg =? List.length month_names)%nat
      then (df, Ok (zip_with (fun name vi => mkSeasonal name (fst vi) (snd vi))
                             month_names
                             (combine (map snd monthly_avg) seasonal_index)))
      else (df, Err (ValueError "All arrays must be of the same length"))
  end.

(** ** [utils.identify_growth_leaders] *)

Record GrowthLeader : Type := mkLeader {
  Type_ : string;
  Name : string;
  Current : Z;
  Previous : Z;
  Growth_Rate : number
}.

(** [column == value] against a possibly missing value (NaN is equal to
    nothing). *)
Definition eq_opt (x : Z) (o : option Z) : bool :=
  match o with
  | Some y => x =? y
  | None => false
  end.

(** One of the two loops: an entry for every distinct entity whose
    previous total is positive. *)
Definition leaders_of (kind : string) (field : RegistrationRecord -> string)
  (rows current_data previous_data : list RegistrationRecord) : list GrowthLeader :=
  flat_map
    (fun name =>
       let current_total :=
         total_where (fun r => String.eqb (field r) name) current_data in
       let previous_total :=
         total_where (fun r => String.eqb (field r) name) previous_data in
       if 0 <? previous_total
       then [mkLeader kind name current_total previous_total
               (calculate_percentage_change (Int current_total) (Int previous_total))]
       else [])
    (unique (map field rows)).

(** The two periods; [None] when [period] is neither ["YoY"] nor ["QoQ"]
    and the two frames are never bound. *)
Definition growth_windows (rows : list RegistrationRecord) (period : string)
  : option (list RegistrationRecord * list RegistrationRecord) :=
  let current_year := max_of (map (fun r => dt_year (date r)) rows) in
  if String.eqb period "YoY" then
    Some (filter (fun r => eq_opt (dt_year (date r)) current_year) rows,
          filter (fun r => eq_opt (dt_year (date r)) (opt_sub current_year 1)) rows)
  else if String.eqb period "QoQ" then
    let current_quarter := max_of (map (fun r => dt_quarter (date r)) rows) in
    Some (filter (fun r => eq_opt (dt_year (date r)) current_year
                           && eq_opt (dt_quarter (date r)) current_quarter) rows,
          filter (fun r => eq_opt (dt_year (date r)) current_year
                           && eq_opt (dt_quarter (date r)) (opt_sub current_quarter 1))
                 rows)
  else None.

Definition growth_rate_value (g : GrowthLeader) : float64 := to_float (Growth_Rate g).

Definition identify_growth_leaders (df : DataFrame) (period : string)
  : result (list GrowthLeader) :=
  let rows := records df in
  match growth_windows rows period with
  | None =>
      match rows with
      | [] => Err (KeyError "Growth_Rate")
      | _ :: _ => Err (UnboundLocalError "current_data")
      end
  | Some (current_data, previous_data) =>
      let growth_leaders :=
        (leaders_of "Manufacturer" manufacturer rows current_data previous_data
         ++ leaders_of "Category" vehicle_category rows current_data previous_data)%list in
      match growth_leaders with
      | [] => Err (KeyError "Growth_Rate")
      | _ :: _ => Ok (sort_desc growth_rate_value growth_leaders)
      end
  end.

(** ** The group-by steps of the charts *)

(** [create_trend_chart]: the monthly totals per category handed to the
    line chart, the month given as the timestamp of its first day. *)
Definition monthly_groups (df : DataFrame) : list (list cell * Z) :=
  groupby_sum key_compare
    (map (fun r => ([CInt (to_period_M (date r)); CStr (vehicle_category r)],
                    registrations r))
         (records df)).

Definition create_trend_chart (df : DataFrame) : list (list cell * Z) :=
  map (fun g =>
         (match fst g with
          | CInt p :: rest => CDate (period_to_timestamp p) :: rest
          | k => k
          end, snd g))
      (monthly_groups df).

(** [astype(str)] on an integer. *)
Definition str_of_Z (z : Z) : string :=
  if z <? 0 then "-" ++ string_of_nat_Z (- z) else string_of_nat_Z z.

Definition str_of_cell (c : cell) : string :=
  match c with
  | CInt z => str_of_Z z
  | CStr s => s
  | CDate t =>
      let '(y, m, d) := civil_from_days t in
      str_of_Z y ++ "-" ++ pad_zeros 2 (str_of_Z m) ++ "-" ++ pad_zeros 2 (str_of_Z d)
  end.

(** [create_quarterly_comparison]: assigns [quarter] and [year_quarter] on
    the frame it is given, then groups by quarter label and category. *)
Definition create_quarterly_comparison (df : DataFrame)
  : DataFrame * list (list cell * Z) :=
  let df := setitem "quarter"
              (map (fun r => CInt (dt_quarter (date r))) (records df)) df in
  let df := setitem "year_quarter"
              (map (fun r => CStr (str_of_Z (dt_year (date r)) ++ "-Q"
                                   ++ str_of_cell (quarter r)))
                   (records df)) df in
  let year_quarter :=
    match getitem "year_quarter" df with Some c => c | None => [] end in
  (df,
   groupby_sum key_compare
     (combine (zip_with (fun yq r => [yq; CStr (vehicle_category r)])
                        year_quarter (records df))
              (map registrations (records df)))).

(** The distinct keys of a column in ascending order. *)
Definition sorted_keys {K : Type} (cmp : K -> K -> comparison) (l : list K) : list K :=
  map fst (group_fold cmp (fun (_ : unit) (_ : unit) => tt) tt (map (fun k => (k, tt)) l)).

Fixpoint lookup_key (k : list cell) (l : list (list cell * Z)) : option Z :=
  match l with
  | [] => None
  | (k', v) :: t =>
      match key_compare k k' with
      | Eq => Some v
      | _ => lookup_key k t
      end
  end.

(** [create_heatmap_analysis]: assigns [month] on the frame it is given,
    groups by month and category and pivots the totals into one row per
    month present, named through [month_names], and one column per
    category present; a missing combination is left empty. *)
Definition create_heatmap_analysis (df : DataFrame)
  : DataFrame * list (string * list (string * option Z)) :=
  let df := setitem "month" (month_column df) df in
  let months := match getitem "month" df with Some c => c | None => [] end in
  let heatmap_data :=
    groupby_sum key_compare
      (combine (zip_with (fun mo r => [mo; CStr (vehicle_category r)]) months (records df))
               (map registrations (records df))) in
  let index := sorted_keys cell_compare months in
  let columns := sorted_keys String.compare (map vehicle_category (records df)) in
  (df,
   map (fun i =>
          (match i with
           | CInt m => nth (Z.to_nat (m - 1)) month_names ""
           | c => str_of_cell c
           end,
           map (fun c => (c, lookup_key [i; CStr c] heatmap_data)) columns))
       index).

(** ** Definitions that follow the wording of the specification *)






(** The three windows of the growth workflow, relative to the latest
    date [D]: the current window runs from 90 days before [D] up to [D],
    both included, which makes 91 day numbers; the previous quarter is
    the 90 days before the current window, and the previous year the 90
    days that end before the day 365 days before [D]. *)
Definition in_current_window (D d : Timestamp) : bool := (D - 90 <=? d) && (d <=? D).
Definition in_previous_quarter (D d : Timestamp) : bool := (D - 180 <=? d) && (d <? D - 90).
Definition in_previous_year (D d : Timestamp) : bool := (D - 455 <=? d) && (d <? D - 365).

(** The windows as the claim words them: the last 90 days ending at [D],
    which are the day numbers [D - 89] to [D], and the 90 days
    immediately before them. *)
Definition in_last_90_days (D d : Timestamp) : bool := (D - 90 <? d) && (d <=? D).
Definition in_preceding_90_days (D d : Timestamp) : bool :=
  (D - 180 <? d) && (d <=? D - 90).

(** Registrations summed over the rows of a window, of one category or,
    with [None], of all categories; 0 when no row qualifies. *)
Definition window_total (window : Timestamp -> bool) (category : option string)
  (rows : list RegistrationRecord) : Z :=
  sum64 (map registrations
           (filter (fun r => window (date r)
                             && match category with
                                | Some c => String.eqb (vehicle_category r) c
                                | None => true
                                end) rows)).

(** The growth percentage of two int64 totals: the difference, taken in
    int64, over the previous total, times 100, in float64; and the
    integer 0 when the previous total is 0. *)
Definition growth_rate (current previous : Z) : float64 :=
  fmul (fdiv (of_int (sub64 current previous)) (of_int previous)) (of_int 100).

Definition growth_percentage (current previous : Z) : number :=
  if previous =? 0 then Int 0 else Float (growth_rate current previous).

Definition growth_between (category : option string) (D : Timestamp)
  (comparison_window : Timestamp -> Timestamp -> bool) (rows : list RegistrationRecord)
  : number :=
  growth_percentage (window_total (in_current_window D) category rows)
                    (window_total (comparison_window D) category rows).

(** The two periods of the ranking, for the latest calendar year [Y] and
    the largest quarter number [Q] of the collection: year over year,
    the records of year [Y] against those of year [Y - 1]; quarter over
    quarter, the records of quarter [Q] of year [Y] against those of
    quarter [Q - 1] of the same year. *)
Definition in_current_period (period : string) (Y Q : Z) (t : Timestamp) : bool :=
  if String.eqb period "YoY" then dt_year t =? Y
  else (dt_year t =? Y) && (dt_quarter t =? Q).

Definition in_previous_period (period : string) (Y Q : Z) (t : Timestamp) : bool :=
  if String.eqb period "YoY" then dt_year t =? Y - 1
  else (dt_year t =? Y) && (dt_quarter t =? Q - 1).

(** Registrations of the entity [name] of the column [field] over the
    records of a period, and the entry of the ranking for that entity:
    its two totals and its growth percentage. *)
Definition entity_total (field : RegistrationRecord -> string) (name : string)
  (in_period : Timestamp -> bool) (rows : list RegistrationRecord) : Z :=
  sum64 (map registrations
           (filter (fun r => in_period (date r) && String.eqb (field r) name) rows)).

Definition ranking_entry (kind : string) (field : RegistrationRecord -> string)
  (period : string) (Y Q : Z) (rows : list RegistrationRecord) (name : string)
  : GrowthLeader :=
  let c := entity_total field name (in_current_period period Y Q) rows in
  let p := entity_total field name (in_previous_period period Y Q) rows in
  mkLeader kind name c p (Float (growth_rate c p)).

(** The entry the loops of the ranking build for the entity [name] of one
    kind from the two frames of records. *)
Definition leader_entry (kind : string) (field : RegistrationRecord -> string)
  (current_data previous_data : list RegistrationRecord) (name : string) : GrowthLeader :=
  let c := total_where (fun r => String.eqb (field r) name) current_data in
  let p := total_where (fun r => String.eqb (field r) name) previous_data in
  mkLeader kind name c p (calculate_percentage_change (Int c) (Int p)).

(** Descending order of floats as [sort_values] leaves them: each value
    is at most its predecessor; a NaN can only be followed by NaN. *)
Definition descending {A : Type} (val : A -> float64) (l : list A) : Prop :=
  Sorted (fun a b => precedes (val a) (val b) = true) l.

(** The smallest exponent of a binary64 mantissa. *)
Definition emin64 : Z := -1074.


(** A float without sign bit that is not NaN. *)
Definition unsigned_float (x : float64) : Prop :=
  match x with
  | S754_zero false | S754_infinity false | S754_finite false _ _ => True
  | _ => False
  end.


(** Each value is at most its predecessor, in the order of floats. *)
Definition non_increasing {A : Type} (val : A -> float64) (l : list A) : Prop :=
  Sorted (fun a b => SFleb (val b) (val a) = true) l.

(** The month numbers of the calendar. *)
Definition calendar_months : list Z := [1; 2; 3; 4; 5; 6; 7; 8; 9; 10; 11; 12].

(** The column a [group_by] argument of [calculate_market_share] selects. *)
Definition group_label (group_by : string) : string :=
  if String.eqb group_by "manufacturer" then "manufacturer"
  else if String.eqb group_by "category" then "vehicle_category"
  else group_by.

(** The values of the rows whose key is [k], in row order. *)
Definition values_of {K V : Type} (cmp : K -> K -> comparison) (k : K) (rows : list (K * V))
  : list V :=
  map snd (filter (fun kv => match cmp (fst kv) k with Eq => true | _ => false end) rows).

(** The grouping columns of the schema. *)
Definition grouping_labels : list string :=
  ["manufacturer"; "category"; "vehicle_category"; "vehicle_class"; "state"; "rto"].

(** The exact sum of a column. *)
Definition zsum (l : list Z) : Z := fold_right Z.add 0 l.

(** The accumulator of key [k] in a grouped result. *)
Fixpoint find_key {K A : Type} (cmp : K -> K -> comparison) (k : K) (acc : list (K * A))
  : option A :=
  match acc with
  | [] => None
  | (k', a) :: t =>
      match cmp k k' with
      | Eq => Some a
      | _ => find_key cmp k t
      end
  end.

(** Folding the values [vs] into the accumulator [o], if there is one. *)
Definition agg_from {V A : Type} (step : A -> V -> A) (init : A) (o : option A)
  (vs : list V) : option A :=
  match vs with
  | [] => o
  | _ :: _ => Some (fold_left step vs (match o with Some a => a | None => init end))
  end.

Definition keys_increasing {K A : Type} (cmp : K -> K -> comparison) (acc : list (K * A))
  : Prop :=
  StronglySorted (fun x y => cmp (fst x) (fst y) = Lt) acc.

(** A comparison function that is a total order. *)
Record total_order {K : Type} (cmp : K -> K -> comparison) : Prop := mkOrder {
  cmp_eq : forall a b, cmp a b = Eq <-> a = b;
  cmp_antisym : forall a b, cmp b a = CompOpp (cmp a b);
  cmp_lt_trans : forall a b c, cmp a b = Lt -> cmp b c = Lt -> cmp a c = Lt
}.

(** ** Sample collections *)

Definition sample (y m d : Z) (category maker : string) (n : Z) : RegistrationRecord :=
  mkRecord (days_from_civil y m d) category "MOTORCYCLE" maker "Delhi" "DL01" n
           (CStr (str_of_Z y ++ "-Q" ++ str_of_Z ((m - 1) / 3 + 1))) y.

Definition empty_frame : DataFrame := mkFrame [] [].

(** Two manufacturers with equal volume; ["Bajaj"] does not come first in
    key order but appears first. *)
Definition tied_frame : DataFrame :=
  mkFrame [sample 2024 1 1 "2W" "TVS" 10; sample 2024 1 1 "2W" "Bajaj" 10] [].

(** The same rows in the other order. *)
Definition tied_frame_swapped : DataFrame :=
  mkFrame [sample 2024 1 1 "2W" "Bajaj" 10; sample 2024 1 1 "2W" "TVS" 10] [].

(** A single month of data. *)
Definition january_frame : DataFrame :=
  mkFrame [sample 2024 1 1 "2W" "Honda" 40; sample 2024 1 1 "4W" "Kia" 60] [].

(** Two records 90 days apart. *)
Definition ninety_days_frame : DataFrame :=
  mkFrame [sample 2024 1 1 "2W" "Honda" 5; sample 2024 3 31 "2W" "Honda" 10] [].

(** A second quarter in one year, a first quarter in the next. *)
Definition q2_then_q1_frame : DataFrame :=
  mkFrame [sample 2023 4 1 "2W" "Honda" 5; sample 2024 1 1 "2W" "Honda" 10] [].

(** First quarters only. *)
Definition q1_only_frame : DataFrame :=
  mkFrame [sample 2023 1 1 "2W" "Honda" 5; sample 2024 2 1 "2W" "Honda" 10] [].

(** Two years of the same quarter, one entity new in the second year. *)
Definition two_year_frame : DataFrame :=
  mkFrame [sample 2023 3 1 "2W" "Honda" 100; sample 2024 3 1 "2W" "Honda" 150;
           sample 2024 3 1 "2W" "TVS" 70; sample 2023 3 1 "4W" "Kia" 200;
           sample 2024 3 1 "4W" "Kia" 100] [].

(** Every month of one year, with the same volume. *)
Definition uniform_year_frame : DataFrame :=
  mkFrame (map (fun m => sample 2024 m 1 "2W" "Honda" 7) [1; 2; 3; 4; 5; 6; 7; 8; 9; 10; 11; 12])
          [].

(** * The rest of the dashboard code *)

(** ** Calls that can also raise an [IndexError] *)

Inductive failure : Type :=
| IndexError (msg : string)
| Raised (e : exn).

Inductive outcome (A : Type) : Type :=
| Returned (a : A)
| Failed (f : failure).

Arguments Returned {A} a.
Arguments Failed {A} f.

Definition lift {A : Type} (r : result A) : outcome A :=
  match r with
  | Ok a => Returned a
  | Err e => Failed (Raised e)
  end.

Definition bind {A B : Type} (r : outcome A) (k : A -> outcome B) : outcome B :=
  match r with
  | Returned a => k a
  | Failed f => Failed f
  end.

Notation "x <- r ;; k" := (bind r (fun x => k))
  (at level 61, r at next level, right associativity).

(** ** Integer columns: sorting, extrema *)

Definition num_gtb (a b : number) : bool :=
  match num_compare a b with Some Gt => true | _ => false end.

(** Minimum of a column of integers; [None] on the empty column. *)
Fixpoint min_of (l : list Z) : option Z :=
  match l with
  | [] => None
  | x :: t =>
      match min_of t with
      | None => Some x
      | Some m => Some (Z.min x m)
      end
  end.

(** [sort_values] on a column that is totally ordered by [before].
    Elements that compare equal keep their relative order here; the
    default sort of numpy does not promise an order among them, and the
    properties below that speak of order hold for every sort. *)
Section SortBy.
Context {A : Type}.
Variable before : A -> A -> bool.

Fixpoint insert_by (x : A) (l : list A) : list A :=
  match l with
  | [] => [x]
  | y :: t => if before x y then x :: l else y :: insert_by x t
  end.

Definition sort_by (l : list A) : list A := fold_right insert_by [] l.
End SortBy.

(** Orders of the rows of an integer-valued series. *)
Definition int_descending {K : Type} (a b : K * Z) : bool := snd b <=? snd a.
Definition int_ascending {K : Type} (a b : K * Z) : bool := snd a <=? snd b.

(** [Series.idxmax()] on an integer series: the label of the first
    largest value; a [ValueError] on the empty series. *)
Fixpoint argmax_int {K : Type} (l : list (K * Z)) : option (K * Z) :=
  match l with
  | [] => None
  | (k, v) :: t =>
      match argmax_int t with
      | Some (k', v') => if v' <=? v then Some (k, v) else Some (k', v')
      | None => Some (k, v)
      end
  end.

Definition idxmax_int {K : Type} (l : list (K * Z)) : result K :=
  match argmax_int l with
  | Some (k, _) => Ok k
  | None => Err (ValueError "attempt to get argmax of an empty sequence")
  end.

(** [Series.idxmax()] on a float series: NaN entries are skipped; the
    label of the first largest remaining value. *)
Fixpoint argmax_float {K : Type} (l : list (K * float64)) : option (K * float64) :=
  match l with
  | [] => None
  | (k, v) :: t =>
      if is_nan v then argmax_float t
      else
        match argmax_float t with
        | Some (k', v') => if SFleb v' v then Some (k, v) else Some (k', v')
        | None => Some (k, v)
        end
  end.

Definition idxmax_float {K : Type} (l : list (K * float64)) : result K :=
  match argmax_float l with
  | Some (k, _) => Ok k
  | None => Err (ValueError "attempt to get argmax of an empty sequence")
  end.

(** [list[i]] in Python: a negative index counts from the end, an index
    outside the list raises. *)
Definition python_index {A : Type} (l : list A) (i : Z) : outcome A :=
  let n := Z.of_nat (List.length l) in
  let at_position (k : Z) :=
    match nth_error l (Z.to_nat k) with
    | Some x => Returned x
    | None => Failed (IndexError "list index out of range")
    end in
  if (0 <=? i) && (i <? n) then at_position i
  else if (- n <=? i) && (i <? 0) then at_position (n + i)
  else Failed (IndexError "list index out of range").

(** ** [utils.get_date_range_options] *)

Record DateRangeOptions : Type := mkDateRange {
  min_date : option Timestamp;
  max_date : option Timestamp;
  default_start : option Timestamp;
  default_end : option Timestamp
}.

Definition get_date_range_options (df : DataFrame) : DateRangeOptions :=
  let min_date := min_of (map date (records df)) in
  let max_date := max_of (map date (records df)) in
  mkDateRange min_date max_date (minus_days max_date 365) max_date.

(** ** [main]: the sidebar filter and the figures of the page *)

(** [Series.isin(values)] *)
Definition isin (x : string) (values : list string) : bool :=
  existsb (String.eqb x) values.

Fixpoint select_rows {A : Type} (mask : list bool) (l : list A) : list A :=
  match mask, l with
  | b :: m, x :: t => if b then x :: select_rows m t else select_rows m t
  | _, _ => []
  end.

(** [df[mask]]: the rows where the mask holds, in every column. *)
Definition getrows (mask : list bool) (df : DataFrame) : DataFrame :=
  mkFrame (select_rows mask (records df))
          (map (fun c => (fst c, select_rows mask (snd c))) (derived df)).

(** The frame the page works on: the date range, the selected categories
    and, unless none is selected, the selected manufacturers. *)
Definition filter_data (df : DataFrame) (start_date end_date : Timestamp)
  (selected_categories selected_manufacturers : list string) : DataFrame :=
  getrows
    (map (fun r =>
            (start_date <=? date r) && (date r <=? end_date)
            && isin (vehicle_category r) selected_categories
            && match selected_manufacturers with
               | [] => true
               | _ :: _ => isin (manufacturer r) selected_manufacturers
               end)
         (records df))
    df.

(** [growth_metrics[key]] *)
Definition metric (key : string) (metrics : list (string * number)) : result number :=
  match assoc_get key metrics with
  | Some v => Ok v
  | None => Err (KeyError key)
  end.

(** The built-in [max(a, b, c)]: a later argument replaces the current
    one only when it is strictly greater. *)
Definition max3 (a b c : number) : number :=
  let m := if num_gtb b a then b else a in
  if num_gtb c m then c else m.

Record KeyFigures : Type := mkFigures {
  total_registrations : Z;
  two_wheeler_total : Z;
  four_wheeler_total : Z;
  three_wheeler_total : Z;
  fastest_growing : number;
  fastest_category : string;
  top_manufacturer : string;
  top_manufacturer_share : float64;
  peak_month_name : string
}.

(** The figures [main] computes from the filtered frame for the metric
    cards and the insight box. *)
Definition key_figures (filtered_df : DataFrame) : outcome KeyFigures :=
  let rows := records filtered_df in
  let total_registrations := sum64 (map registrations rows) in
  let growth_metrics := get_growth_metrics filtered_df in
  let two_wheeler_total := total_where (in_category "2W") rows in
  let four_wheeler_total := total_where (in_category "4W") rows in
  let three_wheeler_total := total_where (in_category "3W") rows in
  g2 <- lift (metric "2w_yoy_growth" growth_metrics) ;;
  g3 <- lift (metric "3w_yoy_growth" growth_metrics) ;;
  g4 <- lift (metric "4w_yoy_growth" growth_metrics) ;;
  let fastest_growing := max3 g2 g3 g4 in
  let fastest_category :=
    if num_eqb fastest_growing g2 then "2W"
    else if num_eqb fastest_growing g3 then "3W" else "4W" in
  top_manufacturer <-
    lift (idxmax_int (groupby_sum String.compare
                        (map (fun r => (manufacturer r, registrations r)) rows))) ;;
  let top_manufacturer_share :=
    fmul (fdiv (of_int (total_where (fun r => String.eqb (manufacturer r) top_manufacturer)
                                    rows))
               (of_int total_registrations))
         (of_int 100) in
  let seasonal_analysis :=
    groupby_mean Z.compare (map (fun r => (dt_month (date r), registrations r)) rows) in
  peak_month <- lift (idxmax_float seasonal_analysis) ;;
  peak_month_name <- python_index month_names (peak_month - 1) ;;
  Returned (mkFigures total_registrations two_wheeler_total four_wheeler_total
                      three_wheeler_total fastest_growing fastest_category
                      top_manufacturer top_manufacturer_share peak_month_name).

(** ** [charts.create_manufacturer_chart] *)

(** The rows handed to the bar chart (the ten largest manufacturers) or
    to the pie chart (the eight largest); any other chart type leaves the
    figure unbound. *)
Definition create_manufacturer_chart (df : DataFrame) (chart_type : string)
  : result (list (string * Z)) :=
  let manufacturer_data :=
    groupby_sum String.compare
      (map (fun r => (manufacturer r, registrations r)) (records df)) in
  let manufacturer_data := firstn 10 (sort_by int_descending manufacturer_data) in
  if String.eqb chart_type "top_performers" then Ok manufacturer_data
  else if String.eqb chart_type "market_share" then Ok (firstn 8 manufacturer_data)
  else Err (UnboundLocalError "fig").

(** ** [charts.create_state_wise_analysis] *)

(** The rows of the horizontal bar chart: the totals per state in
    ascending order. *)
Definition create_state_wise_analysis (df : DataFrame) : list (string * Z) :=
  sort_by int_ascending
    (groupby_sum String.compare (map (fun r => (state r, registrations r)) (records df))).

(** ** [charts.create_growth_indicators] *)

Record GrowthBar : Type := mkBar {
  bar_category : string;
  bar_growth : number;
  bar_current : Z;
  bar_previous : Z;
  bar_color : string;
  bar_text : string
}.

(** One bar per category of the latest year: its growth against the year
    before, 0 when the category has no positive total there; green when
    the growth is at least 0, red otherwise.  An empty list of bars has no
    [growth] column to read. *)
Definition create_growth_indicators (df : DataFrame) : result (list GrowthBar) :=
  let rows := records df in
  let current_year := max_of (map (fun r => dt_year (date r)) rows) in
  let previous_year := opt_sub current_year 1 in
  let by_category (y : option Z) :=
    groupby_sum String.compare
      (map (fun r => (vehicle_category r, registrations r))
           (filter (fun r => eq_opt (dt_year (date r)) y) rows)) in
  let current_data := by_category current_year in
  let previous_data := by_category previous_year in
  let growth_data :=
    map (fun cur =>
           let category := fst cur in
           let growth :=
             match find_key String.compare category previous_data with
             | Some p =>
                 if 0 <? p
                 then num_mul (num_div (num_sub (Int (snd cur)) (Int p)) (Int p)) (Int 100)
                 else Int 0
             | None => Int 0
             end in
           let previous :=
             match find_key String.compare category previous_data with
             | Some p => p
             | None => 0
             end in
           (category, growth, snd cur, previous))
        current_data in
  match growth_data with
  | [] => Err (KeyError "growth")
  | _ :: _ =>
      Ok (map (fun g =>
                 let '(category, growth, current, previous) := g in
                 mkBar category growth current previous
                       (if num_geb growth (Int 0) then "#10B981" else "#EF4444")
                       (format_fixed false 1 (to_float growth) ++ "%"))
              growth_data)
  end.

(** ** [utils.export_insights_summary] *)

Definition newline : string := String (ascii_of_nat 10) "".

(** The three characters the source writes in front of every insight. *)
Definition bullet : string :=
  String (ascii_of_nat 195) (String (ascii_of_nat 162)
    (String (ascii_of_nat 226) (String (ascii_of_nat 130) (String (ascii_of_nat 172)
      (String (ascii_of_nat 194) (String (ascii_of_nat 162) "")))))).

Fixpoint repeat_string (s : string) (n : nat) : string :=
  match n with
  | O => ""
  | S n' => s ++ repeat_string s n'
  end.

(** The text written to the summary file. *)
Definition summary_text (insights : list string) (now : string) : string :=
  "Vehicle Registration Dashboard - Key Insights Summary" ++ newline
  ++ repeat_string "=" 60 ++ newline ++ newline
  ++ fold_right (fun insight rest => bullet ++ " " ++ insight ++ newline ++ rest) ""
                insights
  ++ newline ++ "Generated on: " ++ now ++ newline.

(** [series.index[0]] and [series.iloc[0]] *)
Definition first_entry {A : Type} (l : list A) : outcome A :=
  match l with
  | x :: _ => Returned x
  | [] => Failed (IndexError "index 0 is out of bounds for axis 0 with size 0")
  end.

Fixpoint enumerate_from {A : Type} (i : nat) (l : list A) : list (nat * A) :=
  match l with
  | [] => []
  | x :: t => (i, x) :: enumerate_from (S i) t
  end.

(** The call returns the insights and writes them to the summary file as
    its last step; [now] is the formatted time of the call.  The result
    is the frame as the call leaves it, the text of the file if it was
    written, and the insights or the failure. *)
Definition export_insights_summary (df : DataFrame) (now : string)
  : DataFrame * option string * outcome (list string) :=
  let stop {A : Type} (frame : DataFrame) (f : failure)
    : DataFrame * option string * outcome A := (frame, None, Failed f) in
  match lift (calculate_market_share df "manufacturer") with
  | Failed f => stop df f
  | Returned market_share =>
  match first_entry market_share with
  | Failed f => stop df f
  | Returned (top_manufacturer, top_share) =>
  let insight1 :=
    "Market Leadership: " ++ str_of_cell top_manufacturer ++ " leads with "
    ++ format_fixed false 1 top_share ++ "% market share" in
  match lift (identify_growth_leaders df "YoY") with
  | Failed f => stop df f
  | Returned growth_leaders =>
  match first_entry growth_leaders with
  | Failed f => stop df f
  | Returned fastest_growing =>
  let insight2 :=
    "Fastest Growing: " ++ Name fastest_growing ++ " (" ++ Type_ fastest_growing
    ++ ") with " ++ format_fixed false 1 (growth_rate_value fastest_growing)
    ++ "% YoY growth" in
  let '(df, seasonal) := get_seasonal_patterns df in
  match lift seasonal with
  | Failed f => stop df f
  | Returned seasonal_data =>
  match argmax_float (enumerate_from 0 (map Seasonal_Index seasonal_data)) with
  | None => stop df (Raised (KeyError "nan"))
  | Some (position, _) =>
  match nth_error seasonal_data position with
  | None => stop df (Raised (KeyError "nan"))
  | Some peak =>
  let insight3 := "Peak Season: " ++ Month peak ++ " shows highest registration activity" in
  match lift (calculate_market_share df "category") with
  | Failed f => stop df f
  | Returned category_share =>
  match first_entry category_share with
  | Failed f => stop df f
  | Returned (dominant_category, dominant_share) =>
  let insight4 :=
    "Dominant Category: " ++ str_of_cell dominant_category ++ " accounts for "
    ++ format_fixed false 1 dominant_share ++ "% of total registrations" in
  let insights := [insight1; insight2; insight3; insight4] in
  (df, Some (summary_text insights now), Returned insights)
  end end end end end end end end end.

(** ** Wording of the further properties *)

(** Registrations per value of one string column, in key order. *)
Definition totals_by (key : RegistrationRecord -> string)
  (rows : list RegistrationRecord) : list (string * Z) :=
  groupby_sum String.compare (map (fun r => (key r, registrations r)) rows).

(** The largest calendar year of the collection, and the rows of a year. *)
Definition latest_year (rows : list RegistrationRecord) : option Z :=
  max_of (map (fun r => dt_year (date r)) rows).

Definition rows_of_year (y : option Z) (rows : list RegistrationRecord)
  : list RegistrationRecord :=
  filter (fun r => eq_opt (dt_year (date r)) y) rows.

(** The registrations of the records of calendar month [m], and the mean
    pandas computes from such a column: the values are added up in
    float64 with a running compensation (Kahan summation, the
    compensation being reset to 0 when it is NaN) and the sum is divided
    by their number. *)
Definition month_values (m : Z) (rows : list RegistrationRecord) : list Z :=
  map registrations (filter (fun r => dt_month (date r) =? m) rows).

Fixpoint compensated_sum (vs : list Z) (sumx compensation : float64) : float64 :=
  match vs with
  | [] => sumx
  | v :: rest =>
      let y := fsub (of_int v) compensation in
      let t := fadd sumx y in
      let c := fsub (fsub t sumx) y in
      compensated_sum rest t (if is_nan c then S754_zero false else c)
  end.

Definition float_mean (vs : list Z) : float64 :=
  fdiv (compensated_sum vs (S754_zero false) (S754_zero false))
       (of_int (Z.of_nat (List.length vs))).

(** The name of calendar month [m], and the records of month [m] and
    category [c]. *)
Definition month_name (m : Z) : string := nth (Z.to_nat (m - 1)) month_names "".

Definition in_month_category (m : Z) (c : string) (r : RegistrationRecord) : bool :=
  (dt_month (date r) =? m) && String.eqb (vehicle_category r) c.

(** The first day of the month of a timestamp. *)
Definition month_start (t : Timestamp) : Timestamp :=
  days_from_civil (dt_year t) (dt_month t) 1.

(** The records of the month and the category of [r]. *)
Definition same_month_category (r x : RegistrationRecord) : bool :=
  (dt_year (date x) =? dt_year (date r)) && (dt_month (date x) =? dt_month (date r))
  && String.eqb (vehicle_category x) (vehicle_category r).

(** The label of the quarter of a record in the quarterly chart, and the
    records of the same label and category. *)
Definition quarter_label (r : RegistrationRecord) : string :=
  str_of_Z (dt_year (date r)) ++ "-Q" ++ str_of_Z (dt_quarter (date r)).

Definition same_quarter_category (r x : RegistrationRecord) : bool :=
  String.eqb (quarter_label x) (quarter_label r)
  && String.eqb (vehicle_category x) (vehicle_category r).

(** The calendar round trip on the first day of month [m] of the year
    [yoe] of a 400-year era, decided by computation. *)
Definition first_day_round_trip (yoe m : Z) : bool :=
  let doy := (153 * (if 2 <? m then m - 3 else m + 9) + 2) / 5 + 1 - 1 in
  let doe := yoe * 365 + yoe / 4 - yoe / 100 + doy in
  let yoe' := (doe - doe / 1460 + doe / 36524 - doe / 146096) / 365 in
  let doy' := doe - (365 * yoe' + yoe' / 4 - yoe' / 100) in
  let mp := (5 * doy' + 2) / 153 in
  let d := doy' - (153 * mp + 2) / 5 + 1 in
  let m' := if mp <? 10 then mp + 3 else mp - 9 in
  (0 <=? doe) && (doe <? 146097) && (yoe' =? yoe) && (m' =? m) && (d =? 1).

(** The place of a float in the order of floats: the sign class, then the
    exponent, then the mantissa (both negated below zero). *)
Definition float_rank (x : float64) : Z * Z * Z :=
  match x with
  | S754_infinity true => (-2, 0, 0)
  | S754_finite true m e => (-1, - e, - Zpos m)
  | S754_zero _ | S754_nan => (0, 0, 0)
  | S754_finite false m e => (1, e, Zpos m)
  | S754_infinity false => (2, 0, 0)
  end.

Definition rank_le (a b : Z * Z * Z) : Prop :=
  fst (fst a) < fst (fst b)
  \/ (fst (fst a) = fst (fst b)
      /\ (snd (fst a) < snd (fst b)
          \/ (snd (fst a) = snd (fst b) /\ snd a <= snd b))).

(** Two full calendar years. *)
Definition two_full_years_frame : DataFrame :=
  mkFrame (flat_map (fun y => map (fun m => sample y m 1 "2W" "Honda" (y - 2000 + m))
                                  calendar_months)
                    [2023; 2024])
          [].

(** A growth figure as [calculate_growth] produces it from two integer
    totals: the integer 0 or a float that is not NaN. *)
Definition growth_value (n : number) : Prop :=
  match n with
  | Int z => z = 0
  | Float f => is_nan f = false
  end.

(** * Properties *)

(** ** Wrap-around arithmetic *)

Lemma wrap64_add_l a b : wrap64 (wrap64 a + b) = wrap64 (a + b).
Proof.
  unfold wrap64. f_equal.
  replace ((a + two63) mod two64 - two63 + b + two63)
    with ((a + two63) mod two64 + b) by ring.
  rewrite Z.add_mod_idemp_l by (unfold two64; lia).
  f_equal. ring.
Qed.

Lemma wrap64_add_r a b : wrap64 (a + wrap64 b) = wrap64 (a + b).
Proof. rewrite (Z.add_comm a), wrap64_add_l. f_equal. ring. Qed.

Lemma wrap64_idem a : wrap64 (wrap64 a) = wrap64 a.
Proof.
  replace (wrap64 a) with (wrap64 a + 0) at 1 by ring.
  rewrite wrap64_add_l. f_equal. ring.
Qed.

Lemma wrap64_range a : - two63 <= wrap64 a < two63.
Proof.
  unfold wrap64.
  assert (0 <= (a + two63) mod two64 < two64)
    by (apply Z.mod_pos_bound; unfold two64; lia).
  unfold two63, two64 in *. lia.
Qed.

Lemma wrap64_small a : - two63 <= a < two63 -> wrap64 a = a.
Proof.
  intros H. unfold wrap64. rewrite Z.mod_small; [ring|].
  unfold two63, two64 in *. lia.
Qed.

Lemma add64_swap a x y : add64 (add64 a x) y = add64 (add64 a y) x.
Proof.
  unfold add64. rewrite !wrap64_add_l. f_equal. ring.
Qed.

Lemma fold_add64_wrap l : forall a,
  fold_left add64 l (wrap64 a) = wrap64 (a + zsum l).
Proof.
  induction l as [|x t IH]; intros a; simpl.
  - f_equal. ring.
  - unfold add64 at 2. rewrite wrap64_add_l, IH. f_equal. ring.
Qed.

Lemma sum64_wrap l : sum64 l = wrap64 (zsum l).
Proof.
  unfold sum64. change 0 with (wrap64 0) at 1.
  rewrite fold_add64_wrap. reflexivity.
Qed.

Lemma zsum_app l l' : zsum (l ++ l') = zsum l + zsum l'.
Proof. induction l; simpl; lia. Qed.

Lemma sum64_nil : sum64 [] = 0.
Proof. reflexivity. Qed.

Lemma sum64_range l : - two63 <= sum64 l < two63.
Proof. rewrite sum64_wrap. apply wrap64_range. Qed.

(** Without overflow the int64 sum is the exact sum. *)
Lemma sum64_exact (l : list Z) : - two63 <= zsum l < two63 -> sum64 l = zsum l.
Proof. intros H. rewrite sum64_wrap. apply wrap64_small, H. Qed.

(** ** The comparison functions are total orders *)

Lemma Z_compare_order : total_order Z.compare.
Proof.
  split.
  - intros a b. apply Z.compare_eq_iff.
  - intros a b. apply Z.compare_antisym.
  - intros a b c. rewrite !Z.compare_lt_iff. lia.
Qed.

Lemma ascii_compare_refl a : Ascii.compare a a = Eq.
Proof. unfold Ascii.compare. apply N.compare_refl. Qed.

Lemma ascii_compare_lt_trans a b c :
  Ascii.compare a b = Lt -> Ascii.compare b c = Lt -> Ascii.compare a c = Lt.
Proof. unfold Ascii.compare. rewrite !N.compare_lt_iff. lia. Qed.

Lemma string_compare_refl s : String.compare s s = Eq.
Proof.
  induction s as [|c s IH]; simpl; [reflexivity|].
  rewrite ascii_compare_refl. exact IH.
Qed.

Lemma string_compare_lt_trans : forall a b c,
  String.compare a b = Lt -> String.compare b c = Lt -> String.compare a c = Lt.
Proof.
  induction a as [|x a IH]; intros [|y b] [|z c]; simpl; try congruence.
  destruct (Ascii.compare x y) eqn:Exy; try discriminate;
    destruct (Ascii.compare y z) eqn:Eyz; try discriminate; intros H1 H2.
  - apply Ascii.compare_eq_iff in Exy, Eyz. subst.
    rewrite ascii_compare_refl. eauto.
  - apply Ascii.compare_eq_iff in Exy. subst. rewrite Eyz. reflexivity.
  - apply Ascii.compare_eq_iff in Eyz. subst. rewrite Exy. reflexivity.
  - rewrite (ascii_compare_lt_trans _ _ _ Exy Eyz). reflexivity.
Qed.

Lemma string_compare_order : total_order String.compare.
Proof.
  split.
  - intros a b. split.
    + apply String.compare_eq_iff.
    + intros ->. apply string_compare_refl.
  - intros a b. apply String.compare_antisym.
  - apply string_compare_lt_trans.
Qed.

Lemma cell_compare_order : total_order cell_compare.
Proof.
  destruct Z_compare_order as [Zeq Zanti Ztr].
  destruct string_compare_order as [Seq Santi Str].
  split.
  - intros [x|x|x] [y|y|y]; simpl; split; intros H; try discriminate;
      try (apply Zeq in H); try (apply Seq in H); try congruence;
      injection H as ->; try apply Zeq; try apply Seq; reflexivity.
  - intros [x|x|x] [y|y|y]; simpl; auto.
  - intros [x|x|x] [y|y|y] [z|z|z]; simpl; try congruence; eauto.
Qed.

Lemma key_compare_order : total_order key_compare.
Proof.
  destruct cell_compare_order as [Ceq Canti Ctr].
  split.
  - induction a as [|x a IH]; intros [|y b]; simpl; split; intros H;
      try discriminate; try reflexivity.
    + destruct (cell_compare x y) eqn:E; try discriminate.
      apply Ceq in E. apply IH in H. congruence.
    + injection H as -> ->.
      rewrite (proj2 (Ceq y y) eq_refl). apply IH. reflexivity.
  - induction a as [|x a IH]; intros [|y b]; simpl; auto.
    rewrite (Canti x y). destruct (cell_compare x y); simpl; auto.
  - induction a as [|x a IH]; intros [|y b] [|z c]; simpl; try congruence.
    destruct (cell_compare x y) eqn:Exy; try discriminate;
      destruct (cell_compare y z) eqn:Eyz; try discriminate; intros H1 H2.
    + apply Ceq in Exy, Eyz. subst. rewrite (proj2 (Ceq z z) eq_refl). eauto.
    + apply Ceq in Exy. subst. rewrite Eyz. reflexivity.
    + apply Ceq in Eyz. subst. rewrite Exy. reflexivity.
    + rewrite (Ctr _ _ _ Exy Eyz). reflexivity.
Qed.

(** ** Group-by: total mass *)

Section GroupMass.
Context {K : Type}.
Variable cmp : K -> K -> comparison.

Lemma upsert_sum_mass k v (acc : list (K * Z)) :
  wrap64 (zsum (map snd (upsert cmp add64 0 k v acc)))
  = wrap64 (zsum (map snd acc) + v).
Proof.
  induction acc as [|[k' a] t IH]; simpl.
  - unfold add64. rewrite wrap64_add_l. f_equal. ring.
  - destruct (cmp k k'); simpl.
    + unfold add64. rewrite wrap64_add_l. f_equal. ring.
    + unfold add64. rewrite wrap64_add_l. f_equal. ring.
    + rewrite <- wrap64_add_r, IH, wrap64_add_r. f_equal. ring.
Qed.

Lemma fold_upsert_mass (rows : list (K * Z)) : forall acc,
  wrap64 (zsum (map snd
     (fold_left (fun acc kv => upsert cmp add64 0 (fst kv) (snd kv) acc) rows acc)))
  = wrap64 (zsum (map snd acc) + zsum (map snd rows)).
Proof.
  induction rows as [|[k v] t IH]; intros acc; simpl.
  - f_equal. ring.
  - rewrite IH. rewrite <- wrap64_add_l, upsert_sum_mass, wrap64_add_l.
    f_equal. ring.
Qed.

Lemma groupby_sum_mass (rows : list (K * Z)) :
  sum64 (map snd (groupby_sum cmp rows)) = sum64 (map snd rows).
Proof.
  rewrite !sum64_wrap. unfold groupby_sum, group_fold.
  rewrite fold_upsert_mass. reflexivity.
Qed.
End GroupMass.

(** ** Group-by: independence of the row order, membership, sortedness *)

Section GroupOrder.
Context {K V A : Type}.
Variable cmp : K -> K -> comparison.
Hypothesis cmp_order : total_order cmp.
Variable step : A -> V -> A.
Variable init : A.

Let cmp_refl k : cmp k k = Eq.
Proof. apply (cmp_eq cmp cmp_order). reflexivity. Qed.

Let cmp_gt_lt a b : cmp a b = Gt -> cmp b a = Lt.
Proof. intros H. rewrite (cmp_antisym cmp cmp_order), H. reflexivity. Qed.

Let cmp_lt_gt a b : cmp a b = Lt -> cmp b a = Gt.
Proof. intros H. rewrite (cmp_antisym cmp cmp_order), H. reflexivity. Qed.

Let cmp_eq_eq a b : cmp a b = Eq -> a = b.
Proof. apply (cmp_eq cmp cmp_order). Qed.

Ltac order_rewrite :=
  simpl;
  repeat match goal with
         | |- context [cmp ?a ?a] => rewrite (cmp_refl a); simpl
         | H : cmp ?a ?b = _ |- context [cmp ?a ?b] => rewrite H; simpl
         | H : cmp ?a ?b = Lt |- context [cmp ?b ?a] =>
             rewrite (cmp_lt_gt _ _ H); simpl
         | H : cmp ?a ?b = Gt |- context [cmp ?b ?a] =>
             rewrite (cmp_gt_lt _ _ H); simpl
         end.

Ltac order_absurd :=
  repeat match goal with
         | H : cmp ?a ?b = Gt |- _ => apply cmp_gt_lt in H
         end;
  match goal with
  | H : cmp ?a ?a = Lt |- _ => rewrite cmp_refl in H; discriminate
  | H1 : cmp ?a ?b = Lt, H2 : cmp ?b ?a = Lt |- _ =>
      pose proof (cmp_lt_trans cmp cmp_order a b a H1 H2) as Habs;
      rewrite cmp_refl in Habs; discriminate
  | H1 : cmp ?a ?b = Lt, H2 : cmp ?b ?c = Lt, H3 : cmp ?c ?a = Lt |- _ =>
      pose proof (cmp_lt_trans cmp cmp_order a b c H1 H2) as Habs;
      pose proof (cmp_lt_trans cmp cmp_order a c a Habs H3) as Habs';
      rewrite cmp_refl in Habs'; discriminate
  end.

Ltac order_split a b :=
  let E := fresh "E" in
  destruct (cmp a b) eqn:E; [apply cmp_eq_eq in E; subst| |].

Hypothesis step_swap : forall a v1 v2, step (step a v1) v2 = step (step a v2) v1.

Lemma upsert_swap k1 v1 k2 v2 (acc : list (K * A)) :
  upsert cmp step init k1 v1 (upsert cmp step init k2 v2 acc)
  = upsert cmp step init k2 v2 (upsert cmp step init k1 v1 acc).
Proof.
  induction acc as [|[k a] t IH].
  - order_split k1 k2; order_rewrite;
      first [reflexivity | rewrite step_swap; reflexivity].
  - order_split k1 k2; order_split k2 k; try order_split k1 k;
      order_rewrite; rewrite ?IH;
      first [reflexivity | rewrite step_swap; reflexivity | order_absurd].
Qed.

Lemma fold_upsert_permutation (rows rows' : list (K * V)) :
  Permutation rows rows' ->
  forall acc,
    fold_left (fun acc kv => upsert cmp step init (fst kv) (snd kv) acc) rows acc
    = fold_left (fun acc kv => upsert cmp step init (fst kv) (snd kv) acc) rows' acc.
Proof.
  induction 1 as [|x l l' _ IH|x y l|l l' l'' _ IH1 _ IH2]; intros acc; simpl.
  - reflexivity.
  - apply IH.
  - rewrite upsert_swap. reflexivity.
  - rewrite IH1. apply IH2.
Qed.

Lemma group_fold_permutation (rows rows' : list (K * V)) :
  Permutation rows rows' ->
  group_fold cmp step init rows = group_fold cmp step init rows'.
Proof. intros H. unfold group_fold. apply fold_upsert_permutation, H. Qed.
End GroupOrder.

Section GroupContents.
Context {K V A : Type}.
Variable cmp : K -> K -> comparison.
Hypothesis cmp_order : total_order cmp.
Variable step : A -> V -> A.
Variable init : A.

Let cmp_refl k : cmp k k = Eq.
Proof. apply (cmp_eq cmp cmp_order). reflexivity. Qed.

Let cmp_gt_lt a b : cmp a b = Gt -> cmp b a = Lt.
Proof. intros H. rewrite (cmp_antisym cmp cmp_order), H. reflexivity. Qed.

Let cmp_lt_gt a b : cmp a b = Lt -> cmp b a = Gt.
Proof. intros H. rewrite (cmp_antisym cmp cmp_order), H. reflexivity. Qed.

Let cmp_eq_eq a b : cmp a b = Eq -> a = b.
Proof. apply (cmp_eq cmp cmp_order). Qed.

Lemma upsert_keys_Forall (P : K -> Prop) k v (acc : list (K * A)) :
  P k -> Forall (fun y => P (fst y)) acc ->
  Forall (fun y => P (fst y)) (upsert cmp step init k v acc).
Proof.
  intros Hk. induction 1 as [|[k' a] t Hh Ht IH]; simpl.
  - constructor; [exact Hk | constructor].
  - destruct (cmp k k'); repeat constructor; auto.
Qed.

Lemma upsert_increasing k v (acc : list (K * A)) :
  keys_increasing cmp acc -> keys_increasing cmp (upsert cmp step init k v acc).
Proof.
  unfold keys_increasing.
  induction 1 as [|[k' a] t Ht IH Hall]; simpl.
  - repeat constructor.
  - destruct (cmp k k') eqn:E.
    + constructor; [exact Ht | exact Hall].
    + constructor; [constructor; assumption|].
      constructor; [exact E|].
      eapply Forall_impl; [|exact Hall].
      intros y Hy. simpl in *. eapply (cmp_lt_trans cmp cmp_order); eauto.
    + constructor; [exact IH|].
      apply (upsert_keys_Forall (fun x => cmp k' x = Lt)); auto.
Qed.

Lemma fold_upsert_increasing (rows : list (K * V)) : forall acc,
  keys_increasing cmp acc ->
  keys_increasing cmp
    (fold_left (fun acc kv => upsert cmp step init (fst kv) (snd kv) acc) rows acc).
Proof.
  induction rows as [|kv t IH]; intros acc H; simpl; [exact H|].
  apply IH, upsert_increasing, H.
Qed.

Lemma group_fold_increasing (rows : list (K * V)) :
  keys_increasing cmp (group_fold cmp step init rows).
Proof. apply fold_upsert_increasing. constructor. Qed.

Lemma find_key_below k (acc : list (K * A)) :
  Forall (fun y => cmp k (fst y) = Lt) acc -> find_key cmp k acc = None.
Proof.
  induction 1 as [|[k' a] t Hh Ht IH]; simpl; [reflexivity|].
  simpl in Hh. rewrite Hh. exact IH.
Qed.

Lemma find_upsert k k' v (acc : list (K * A)) :
  keys_increasing cmp acc ->
  find_key cmp k (upsert cmp step init k' v acc)
  = match cmp k k' with
    | Eq => Some (step (match find_key cmp k' acc with
                        | Some a => a
                        | None => init
                        end) v)
    | _ => find_key cmp k acc
    end.
Proof.
  unfold keys_increasing.
  induction 1 as [|[k0 a] t Ht IH Hall]; simpl.
  - destruct (cmp k k'); reflexivity.
  - destruct (cmp k' k0) eqn:E0; simpl.
    + apply cmp_eq_eq in E0. subst k0.
      destruct (cmp k k') eqn:E; reflexivity.
    + destruct (cmp k k') eqn:E; try reflexivity.
      rewrite find_key_below; [reflexivity|].
      eapply Forall_impl; [|exact Hall].
      intros y Hy. simpl in *. eapply (cmp_lt_trans cmp cmp_order); eauto.
    + rewrite IH.
      destruct (cmp k k') eqn:E; destruct (cmp k k0) eqn:Ek; try reflexivity.
      apply cmp_eq_eq in E. subst k'. congruence.
Qed.

Lemma find_fold_upsert k (rows : list (K * V)) : forall acc,
  keys_increasing cmp acc ->
  find_key cmp k
    (fold_left (fun acc kv => upsert cmp step init (fst kv) (snd kv) acc) rows acc)
  = agg_from step init (find_key cmp k acc) (values_of cmp k rows).
Proof.
  induction rows as [|[k1 v1] t IH]; intros acc Hacc; simpl; [reflexivity|].
  rewrite IH by (apply upsert_increasing, Hacc).
  rewrite find_upsert by exact Hacc.
  unfold values_of. simpl.
  destruct (cmp k1 k) eqn:E.
  - apply cmp_eq_eq in E. subst k1. rewrite cmp_refl. simpl.
    destruct (map snd _); reflexivity.
  - rewrite (cmp_lt_gt _ _ E). reflexivity.
  - rewrite (cmp_gt_lt _ _ E). reflexivity.
Qed.

Lemma find_group_fold k (rows : list (K * V)) :
  find_key cmp k (group_fold cmp step init rows)
  = agg_from step init None (values_of cmp k rows).
Proof. unfold group_fold. rewrite find_fold_upsert by constructor. reflexivity. Qed.

Lemma In_find_key k a (acc : list (K * A)) :
  keys_increasing cmp acc ->
  (In (k, a) acc <-> find_key cmp k acc = Some a).
Proof.
  unfold keys_increasing.
  induction 1 as [|[k0 a0] t Ht IH Hall]; simpl.
  - split; [contradiction | discriminate].
  - split.
    + intros [H | H].
      * injection H as -> ->. rewrite cmp_refl. reflexivity.
      * rewrite Forall_forall in Hall. specialize (Hall _ H). simpl in Hall.
        rewrite (cmp_lt_gt _ _ Hall). apply IH, H.
    + destruct (cmp k k0) eqn:E; intros H.
      * apply cmp_eq_eq in E. injection H as ->. subst. left. reflexivity.
      * right. apply IH, H.
      * right. apply IH, H.
Qed.

Lemma keys_increasing_NoDup (acc : list (K * A)) :
  keys_increasing cmp acc -> NoDup (map fst acc).
Proof.
  unfold keys_increasing.
  induction 1 as [|[k0 a0] t Ht IH Hall]; simpl; constructor; [|exact IH].
  intros Hin. apply in_map_iff in Hin. destruct Hin as [y [Hy Hin]].
  rewrite Forall_forall in Hall. specialize (Hall _ Hin).
  simpl in *. rewrite Hy, cmp_refl in Hall. discriminate.
Qed.

Lemma values_of_nonempty k (rows : list (K * V)) :
  values_of cmp k rows <> [] <-> In k (map fst rows).
Proof.
  unfold values_of. induction rows as [|[k1 v1] t IH]; simpl.
  - split; [congruence | contradiction].
  - destruct (cmp k1 k) eqn:E; simpl.
    + apply cmp_eq_eq in E. split; [auto | congruence].
    + rewrite IH. split; [auto|]. intros [H | H]; [|exact H].
      subst. rewrite cmp_refl in E. discriminate.
    + rewrite IH. split; [auto|]. intros [H | H]; [|exact H].
      subst. rewrite cmp_refl in E. discriminate.
Qed.

(** The groups are the distinct keys; each carries the fold of its values. *)
Lemma group_fold_In k a (rows : list (K * V)) :
  In (k, a) (group_fold cmp step init rows)
  <-> In k (map fst rows) /\ a = fold_left step (values_of cmp k rows) init.
Proof.
  rewrite In_find_key by apply group_fold_increasing.
  rewrite find_group_fold, <- values_of_nonempty.
  destruct (values_of cmp k rows) as [|v vs]; simpl.
  - split; [discriminate | intros [H _]; congruence].
  - split.
    + intros H. injection H as <-. split; [discriminate | reflexivity].
    + intros [_ ->]. reflexivity.
Qed.
End GroupContents.

Lemma group_fold_keys {K V A : Type} (cmp : K -> K -> comparison)
  (O : total_order cmp) (step : A -> V -> A) (init : A) (rows : list (K * V)) :
  incl (map fst (group_fold cmp step init rows)) (map fst rows).
Proof.
  intros k Hk. apply in_map_iff in Hk. destruct Hk as [[k' a] [<- Hin]].
  apply (group_fold_In cmp O) in Hin. apply Hin.
Qed.

(** ** Sorting *)

Lemma SFcompare_flip a b c :
  SFcompare a b = Some c -> SFcompare b a = Some (CompOpp c).
Proof.
  destruct a as [sa|sa| |sa ma ea], b as [sb|sb| |sb mb eb]; simpl;
    try discriminate; intros H; injection H as <-;
    repeat match goal with s : bool |- _ => destruct s end; try reflexivity.
  all: rewrite (Z.compare_antisym ea eb);
    destruct (ea ?= eb); simpl; try reflexivity;
    pose proof (Pos.compare_cont_antisym ma mb Eq) as Hc; simpl in Hc;
    rewrite <- Hc; destruct (Pos.compare_cont Eq ma mb); reflexivity.
Qed.

Lemma SFcompare_defined a b :
  is_nan a = false -> is_nan b = false -> exists c, SFcompare a b = Some c.
Proof.
  destruct a, b; simpl; try discriminate; intros _ _; eauto.
Qed.

Lemma precedes_total a b : precedes a b = false -> precedes b a = true.
Proof.
  unfold precedes.
  destruct (is_nan b) eqn:Hb; [discriminate|].
  destruct (is_nan a) eqn:Ha; [reflexivity|]. simpl.
  destruct (SFcompare_defined b a Hb Ha) as [c Hc].
  unfold SFleb. rewrite Hc, (SFcompare_flip _ _ _ Hc).
  destruct c; simpl; congruence.
Qed.

Section SortFacts.
Context {A : Type}.
Variable val : A -> float64.

Lemma insert_desc_perm x (l : list A) : Permutation (insert_desc val x l) (x :: l).
Proof.
  induction l as [|y t IH]; simpl; [reflexivity|].
  destruct (precedes (val x) (val y)); [reflexivity|].
  rewrite IH. apply perm_swap.
Qed.

Lemma sort_desc_perm (l : list A) : Permutation (sort_desc val l) l.
Proof.
  induction l as [|x t IH]; simpl; [reflexivity|].
  rewrite insert_desc_perm. constructor. exact IH.
Qed.

Lemma insert_desc_sorted x (l : list A) :
  descending val l -> descending val (insert_desc val x l).
Proof.
  unfold descending.
  induction 1 as [|y t Ht IH Hhd]; simpl.
  - repeat constructor.
  - destruct (precedes (val x) (val y)) eqn:E.
    + constructor; [constructor; assumption|]. constructor. exact E.
    + constructor; [exact IH|].
      destruct t as [|z t']; simpl.
      * constructor. apply precedes_total, E.
      * destruct (precedes (val x) (val z));
          constructor; [apply precedes_total, E|].
        inversion Hhd; assumption.
Qed.

Lemma sort_desc_sorted (l : list A) : descending val (sort_desc val l).
Proof.
  induction l as [|x t IH]; simpl; [constructor|].
  apply insert_desc_sorted, IH.
Qed.
End SortFacts.

(** ** Binary64: rounding never invents a NaN, integers convert to finite floats *)

Lemma shr_1_m mrs : 0 <= shr_m mrs -> shr_m (shr_1 mrs) = shr_m mrs / 2.
Proof.
  destruct mrs as [m r s]. simpl. intros Hm.
  destruct m as [|p|p]; [reflexivity| |lia].
  destruct p as [p|p|]; cbn [shr_m].
  - apply Z.div_unique with 1; lia.
  - apply Z.div_unique with 0; lia.
  - reflexivity.
Qed.

Lemma pow2_xO (k : positive) : 2 ^ Zpos k~0 = 2 ^ Zpos k * 2 ^ Zpos k.
Proof.
  replace (Zpos k~0) with (Zpos k + Zpos k) by lia.
  apply Z.pow_add_r; lia.
Qed.

Lemma pow2_xI (k : positive) : 2 ^ Zpos k~1 = 2 * (2 ^ Zpos k * 2 ^ Zpos k).
Proof.
  replace (Zpos k~1) with (1 + (Zpos k + Zpos k)) by lia.
  rewrite Z.pow_add_r, Z.pow_add_r by lia. reflexivity.
Qed.

Lemma pow2_pos (n : Z) : 0 <= n -> 0 < 2 ^ n.
Proof. intros H. apply Z.pow_pos_nonneg; lia. Qed.

Lemma iter_shr_m (k : positive) : forall mrs,
  0 <= shr_m mrs -> shr_m (iter_pos shr_1 k mrs) = shr_m mrs / 2 ^ Zpos k.
Proof.
  induction k as [k IH|k IH|]; intros mrs Hm; cbn [iter_pos].
  - assert (Hp := pow2_pos (Zpos k) ltac:(lia)).
    assert (H1 : 0 <= shr_m (shr_1 mrs)) by (rewrite shr_1_m by lia; apply Z.div_pos; lia).
    assert (H2 : 0 <= shr_m (iter_pos shr_1 k (shr_1 mrs)))
      by (rewrite IH by lia; apply Z.div_pos; lia).
    rewrite IH, IH, shr_1_m by lia.
    rewrite !Z.div_div by lia. rewrite pow2_xI. reflexivity.
  - assert (Hp := pow2_pos (Zpos k) ltac:(lia)).
    assert (H2 : 0 <= shr_m (iter_pos shr_1 k mrs))
      by (rewrite IH by lia; apply Z.div_pos; lia).
    rewrite IH, IH by lia.
    rewrite !Z.div_div by lia. rewrite pow2_xO. reflexivity.
  - rewrite shr_1_m by lia. reflexivity.
Qed.

Lemma digits2_bounds (p : positive) :
  2 ^ (Zpos (digits2_pos p) - 1) <= Zpos p < 2 ^ Zpos (digits2_pos p).
Proof.
  induction p as [p IH|p IH|]; cbn [digits2_pos].
  - rewrite Pos2Z.inj_succ.
    replace (Z.succ (Zpos (digits2_pos p)) - 1) with (Z.succ (Zpos (digits2_pos p) - 1)) by lia.
    rewrite !Z.pow_succ_r by lia. lia.
  - rewrite Pos2Z.inj_succ.
    replace (Z.succ (Zpos (digits2_pos p)) - 1) with (Z.succ (Zpos (digits2_pos p) - 1)) by lia.
    rewrite !Z.pow_succ_r by lia. lia.
  - simpl. lia.
Qed.

Lemma digits2_le (p : positive) (k : Z) : Zpos p < 2 ^ k -> Zpos (digits2_pos p) <= k.
Proof.
  intros H. destruct (digits2_bounds p) as [Hlo _].
  destruct (Z.le_gt_cases (Zpos (digits2_pos p)) k) as [Hle | Hgt]; [exact Hle|].
  exfalso. assert (2 ^ k <= 2 ^ (Zpos (digits2_pos p) - 1)).
  { destruct (Z.lt_ge_cases k 0) as [Hk | Hk].
    - rewrite (Z.pow_neg_r 2 k Hk). apply Z.lt_le_incl, pow2_pos. lia.
    - apply Z.pow_le_mono_r; lia. }
  lia.
Qed.

Lemma shr_record_m m l : shr_m (shr_record_of_loc m l) = m.
Proof. destruct l as [|[]]; reflexivity. Qed.

(** One rounding shift keeps a positive mantissa positive and raises the
    exponent by at most the number of digits. *)
Lemma shr_fexp_pos (m e : Z) (l : location) :
  0 < m -> emin64 <= e ->
  0 < shr_m (fst (shr_fexp prec64 emax64 m e l)) <= m /\
  e <= snd (shr_fexp prec64 emax64 m e l) <= e + Zdigits2 m.
Proof.
  intros Hm He. unfold shr_fexp, shr.
  destruct m as [|p|p]; try lia. cbn [Zdigits2].
  assert (Hd := digits2_bounds p).
  set (d := Zpos (digits2_pos p)) in *.
  assert (Hn : fexp prec64 emax64 (d + e) - e = Z.max (d - 53) (emin64 - e)).
  { unfold fexp, emin, prec64, emax64, emin64. lia. }
  rewrite Hn.
  destruct (Z.max (d - 53) (emin64 - e)) as [|n|n] eqn:En; cbn [fst snd];
    rewrite ?shr_record_m; try (subst d; lia).
  rewrite iter_shr_m by (rewrite shr_record_m; lia). rewrite shr_record_m.
  assert (Hnd : Zpos n <= d - 1) by (unfold emin64 in *; lia).
  assert (H2 : 2 ^ Zpos n <= 2 ^ (d - 1)) by (apply Z.pow_le_mono_r; lia).
  assert (Hp := pow2_pos (Zpos n) ltac:(lia)).
  split; [split|lia].
  - apply Z.div_str_pos. lia.
  - apply Z.div_le_upper_bound; [lia|]. nia.
Qed.

Lemma shr_fexp_nonneg (m e : Z) (l : location) :
  0 <= m -> 0 <= shr_m (fst (shr_fexp prec64 emax64 m e l)).
Proof.
  intros Hm. unfold shr_fexp, shr.
  destruct (fexp prec64 emax64 (Zdigits2 m + e) - e) as [|n|n]; cbn [fst];
    rewrite ?shr_record_m; try lia.
  rewrite iter_shr_m by (rewrite shr_record_m; lia). rewrite shr_record_m.
  apply Z.div_pos; [lia | apply pow2_pos; lia].
Qed.

Lemma round_nearest_even_bounds m l : m <= round_nearest_even m l <= m + 1.
Proof.
  unfold round_nearest_even. destruct l as [|[]]; try lia.
  destruct (Z.even m); lia.
Qed.

Lemma binary_round_aux_not_nan s m e l :
  0 <= m -> is_nan (binary_round_aux prec64 emax64 s m e l) = false.
Proof.
  intros Hm. unfold binary_round_aux.
  pose proof (shr_fexp_nonneg m e l Hm) as H1.
  destruct (shr_fexp prec64 emax64 m e l) as [mrs' e'].
  cbn [fst] in H1.
  pose proof (round_nearest_even_bounds (shr_m mrs') (loc_of_shr_record mrs')) as Hr.
  pose proof (shr_fexp_nonneg (round_nearest_even (shr_m mrs') (loc_of_shr_record mrs'))
                e' loc_Exact ltac:(lia)) as H2.
  destruct (shr_fexp prec64 emax64 _ e' loc_Exact) as [mrs'' e''].
  cbn [fst] in H2.
  destruct (shr_m mrs'') as [|p|p]; [reflexivity| |lia].
  destruct (e'' <=? emax64 - prec64); reflexivity.
Qed.

Lemma binary_round_aux_finite s m e l :
  0 < m < 2 ^ 64 -> emin64 <= e <= 0 ->
  exists m' e', binary_round_aux prec64 emax64 s m e l = S754_finite s m' e'.
Proof.
  intros Hm He. unfold binary_round_aux.
  pose proof (shr_fexp_pos m e l ltac:(lia) ltac:(lia)) as [H1 H1e].
  assert (Hd1 : Zdigits2 m <= 64).
  { destruct m as [|p|p]; try lia. apply digits2_le. lia. }
  destruct (shr_fexp prec64 emax64 m e l) as [mrs' e'].
  cbn [fst snd] in H1, H1e.
  pose proof (round_nearest_even_bounds (shr_m mrs') (loc_of_shr_record mrs')) as Hr.
  set (m2 := round_nearest_even (shr_m mrs') (loc_of_shr_record mrs')) in *.
  pose proof (shr_fexp_pos m2 e' loc_Exact ltac:(lia) ltac:(lia)) as [H2 H2e].
  assert (Hd2 : Zdigits2 m2 <= 65).
  { destruct m2 as [|p|p]; try lia. apply digits2_le.
    change (2 ^ 65) with (2 * 2 ^ 64). lia. }
  destruct (shr_fexp prec64 emax64 m2 e' loc_Exact) as [mrs'' e''].
  cbn [fst snd] in H2, H2e.
  destruct (shr_m mrs'') as [|p|p]; try lia.
  replace (e'' <=? emax64 - prec64) with true.
  - eauto.
  - symmetry. apply Z.leb_le. unfold emax64, prec64, emin64 in *. lia.
Qed.

Lemma pos_iter_xO (k p : positive) : Zpos (Pos.iter xO p k) = Zpos p * 2 ^ Zpos k.
Proof.
  rewrite <- Z.shiftl_mul_pow2 by lia. cbn [Z.shiftl].
  apply (Pos.iter_swap_gen _ _ Zpos xO (Z.mul 2)). reflexivity.
Qed.

Lemma binary_round_not_nan s p e : is_nan (binary_round prec64 emax64 s p e) = false.
Proof.
  unfold binary_round.
  destruct (shl_align p e _) as [mz ez].
  apply binary_round_aux_not_nan. lia.
Qed.

Lemma binary_normalize_not_nan m e sz :
  is_nan (binary_normalize prec64 emax64 m e sz) = false.
Proof.
  destruct m; cbn [binary_normalize]; [reflexivity| |]; apply binary_round_not_nan.
Qed.

Lemma of_int_not_nan z : is_nan (of_int z) = false.
Proof. apply binary_normalize_not_nan. Qed.

Lemma binary_round_finite s p :
  Zpos p < 2 ^ 64 -> exists m e, binary_round prec64 emax64 s p 0 = S754_finite s m e.
Proof.
  intros Hp. unfold binary_round, shl_align.
  assert (Hd := digits2_bounds p).
  assert (Hd64 := digits2_le p 64 Hp).
  set (d := Zpos (digits2_pos p)) in *.
  assert (Hf : fexp prec64 emax64 (d + 0) = d - 53).
  { unfold fexp, emin, prec64, emax64. subst d. lia. }
  rewrite Hf, Z.sub_0_r.
  destruct (d - 53) as [|k|k] eqn:Ek.
  - apply binary_round_aux_finite; unfold emin64; lia.
  - apply binary_round_aux_finite; unfold emin64; lia.
  - apply binary_round_aux_finite; [|unfold emin64; subst d; lia].
    rewrite pos_iter_xO. split; [apply Z.mul_pos_pos; [lia | apply pow2_pos; lia]|].
    assert (Hk : Zpos k = 53 - d) by lia.
    assert (2 ^ d * 2 ^ Zpos k = 2 ^ 53).
    { rewrite <- Z.pow_add_r by (subst d; lia). f_equal. lia. }
    assert (Hpk := pow2_pos (Zpos k) ltac:(lia)).
    assert (Zpos p * 2 ^ Zpos k < 2 ^ 53) by nia.
    change (2 ^ 64) with (2048 * 2 ^ 53). lia.
Qed.

Lemma of_int_finite z :
  z <> 0 -> - two64 < z < two64 -> exists s m e, of_int z = S754_finite s m e.
Proof.
  intros Hz Hr. unfold of_int, two64 in *.
  destruct z as [|p|p]; [congruence| |]; cbn [binary_normalize].
  - destruct (binary_round_finite false p) as [m [e H]]; [lia|]. eauto.
  - destruct (binary_round_finite true p) as [m [e H]]; [lia|]. eauto.
Qed.

Lemma fdiv_not_nan x y :
  is_nan x = false -> (exists s m e, y = S754_finite s m e) -> is_nan (fdiv x y) = false.
Proof.
  intros Hx [sy [my [ey ->]]]. unfold fdiv.
  destruct x as [sx|sx| |sx mx ex]; try discriminate; try reflexivity.
  cbn [SFdiv]. unfold SFdiv_core_binary.
  set (m' := match _ - _ - _ with Z0 => Zpos mx | Zpos _ => Z.shiftl (Zpos mx) _ | Zneg _ => 0 end).
  assert (Hm' : 0 <= m').
  { subst m'. destruct (_ - _ - _); try lia. apply Z.shiftl_nonneg. lia. }
  destruct (Z.div_eucl m' (Zpos my)) as [q r] eqn:E.
  assert (Hq : q = m' / Zpos my) by (unfold Z.div; rewrite E; reflexivity).
  apply binary_round_aux_not_nan. rewrite Hq. apply Z.div_pos; lia.
Qed.

Lemma fmul_not_nan x y :
  is_nan x = false -> (exists s m e, y = S754_finite s m e) -> is_nan (fmul x y) = false.
Proof.
  intros Hx [sy [my [ey ->]]]. unfold fmul.
  destruct x as [sx|sx| |sx mx ex]; try discriminate; try reflexivity.
  cbn [SFmul]. apply binary_round_aux_not_nan. lia.
Qed.

Lemma rint_not_nan x : is_nan x = false -> is_nan (rint x) = false.
Proof.
  destruct x as [sx|sx| |sx mx ex]; try discriminate; try reflexivity.
  intros _. cbn [rint]. destruct (0 <=? ex); [reflexivity|].
  destruct (_ =? 0); [reflexivity|]. apply binary_normalize_not_nan.
Qed.

Lemma round_float_2_not_nan x : is_nan x = false -> is_nan (round_float 2 x) = false.
Proof.
  intros Hx. unfold round_float.
  assert (Hp : exists s m e, of_int (10 ^ Z.of_nat 2) = S754_finite s m e).
  { apply of_int_finite; unfold two64; cbn; lia. }
  apply fdiv_not_nan; [|exact Hp].
  apply rint_not_nan, fmul_not_nan; [exact Hx | exact Hp].
Qed.

Lemma percentage_change_not_nan (c p : Z) :
  0 < p < two63 ->
  is_nan (to_float (calculate_percentage_change (Int c) (Int p))) = false.
Proof.
  intros Hp. unfold calculate_percentage_change.
  replace (num_eqb (Int p) (Int 0)) with false.
  2: { unfold num_eqb. cbn [num_compare]. destruct p; try lia; reflexivity. }
  cbn [num_sub num_div num_mul to_float].
  apply fmul_not_nan.
  - apply fdiv_not_nan; [apply of_int_not_nan|].
    apply of_int_finite; unfold two63, two64 in *; lia.
  - apply of_int_finite; unfold two64; lia.
Qed.

Lemma binary_round_aux_sign m e l :
  0 <= m ->
  unsigned_float (binary_round_aux prec64 emax64 false m e l) /\
  binary_round_aux prec64 emax64 true m e l
  = SFopp (binary_round_aux prec64 emax64 false m e l).
Proof.
  intros Hm. unfold binary_round_aux.
  pose proof (shr_fexp_nonneg m e l Hm) as H1.
  destruct (shr_fexp prec64 emax64 m e l) as [mrs' e'].
  cbn [fst] in H1.
  pose proof (round_nearest_even_bounds (shr_m mrs') (loc_of_shr_record mrs')) as Hr.
  pose proof (shr_fexp_nonneg (round_nearest_even (shr_m mrs') (loc_of_shr_record mrs'))
                e' loc_Exact ltac:(lia)) as H2.
  destruct (shr_fexp prec64 emax64 _ e' loc_Exact) as [mrs'' e''].
  cbn [fst] in H2.
  destruct (shr_m mrs'') as [|p|p]; [split; [exact I | reflexivity] | | lia].
  destruct (e'' <=? emax64 - prec64); split; try exact I; reflexivity.
Qed.

Lemma of_int_opp (z : Z) :
  0 < z -> unsigned_float (of_int z) /\ of_int (- z) = SFopp (of_int z).
Proof.
  intros Hz. destruct z as [|p|p]; try lia.
  unfold of_int. cbn [Z.opp binary_normalize]. unfold binary_round.
  destruct (shl_align p 0 _) as [mz ez].
  apply binary_round_aux_sign. lia.
Qed.

Lemma fdiv_opp (x : float64) (my : positive) (ey : Z) :
  unsigned_float x ->
  unsigned_float (fdiv x (S754_finite false my ey)) /\
  fdiv (SFopp x) (S754_finite false my ey) = SFopp (fdiv x (S754_finite false my ey)).
Proof.
  unfold fdiv.
  destruct x as [[]|[]| |[] mx ex]; try contradiction; intros _;
    try (split; [exact I | reflexivity]).
  cbn [SFopp SFdiv negb xorb]. unfold SFdiv_core_binary.
  set (m' := match _ - _ - _ with Z0 => Zpos mx | Zpos _ => Z.shiftl (Zpos mx) _ | Zneg _ => 0 end).
  assert (Hm' : 0 <= m').
  { subst m'. destruct (_ - _ - _); try lia. apply Z.shiftl_nonneg. lia. }
  destruct (Z.div_eucl m' (Zpos my)) as [q r] eqn:E.
  assert (Hq : q = m' / Zpos my) by (unfold Z.div; rewrite E; reflexivity).
  apply binary_round_aux_sign. rewrite Hq. apply Z.div_pos; lia.
Qed.


Lemma positive_unit (unit : Z) :
  0 < unit < two63 -> exists m e, of_int unit = S754_finite false m e.
Proof.
  intros H. destruct (of_int_finite unit) as [s [m [e Hf]]];
    [lia | unfold two63, two64 in *; lia|].
  destruct (of_int_opp unit) as [Hu _]; [lia|].
  rewrite Hf in Hu. destruct s; [contradiction|]. eauto.
Qed.




Lemma descending_non_increasing {A : Type} (val : A -> float64) (l : list A) :
  Forall (fun x => is_nan (val x) = false) l ->
  descending val l -> non_increasing val l.
Proof.
  unfold descending, non_increasing.
  intros Hall Hs. induction Hs as [|a t Ht IH Hhd]; [constructor|].
  inversion Hall as [|? ? Ha Hall']; subst.
  constructor; [apply IH, Hall'|].
  destruct Hhd as [|b t' Hab]; constructor.
  inversion Hall' as [|? ? Hb _]; subst.
  unfold precedes in Hab. rewrite Hb, Ha in Hab. exact Hab.
Qed.

(** ** Columns and filters *)

Lemma max_of_spec (l : list Z) :
  l <> [] ->
  exists m, max_of l = Some m /\ In m l /\ (forall x, In x l -> x <= m).
Proof.
  induction l as [|x t IH]; [congruence|]. intros _. simpl.
  destruct t as [|y t'].
  - exists x. simpl. repeat split; auto. intros z [<- | []]. lia.
  - destruct IH as [m [Hm [Hin Hle]]]; [discriminate|].
    rewrite Hm. exists (Z.max x m). split; [reflexivity|]. split.
    + destruct (Z.max_spec x m) as [[_ ->] | [_ ->]]; [right; exact Hin | left; reflexivity].
    + intros z [<- | Hz]; [lia|]. specialize (Hle z Hz). lia.
Qed.

Lemma filter_filter {A : Type} (f g : A -> bool) (l : list A) :
  filter f (filter g l) = filter (fun x => g x && f x) l.
Proof.
  induction l as [|x t IH]; simpl; [reflexivity|].
  destruct (g x); simpl; [destruct (f x)|]; rewrite IH; reflexivity.
Qed.

Lemma filter_none {A : Type} (f : A -> bool) (l : list A) :
  (forall x, In x l -> f x = false) -> filter f l = [].
Proof.
  induction l as [|x t IH]; simpl; intros H; [reflexivity|].
  rewrite (H x) by auto. apply IH. auto.
Qed.

Lemma combine_map {A B C : Type} (f : A -> B) (g : A -> C) (l : list A) :
  combine (map f l) (map g l) = map (fun x => (f x, g x)) l.
Proof. induction l; simpl; congruence. Qed.

Lemma unique_In (x : string) (l : list string) : In x (unique l) <-> In x l.
Proof.
  induction l as [|y t IH]; simpl; [reflexivity|].
  rewrite filter_In, IH. split.
  - intros [H | [H _]]; auto.
  - intros [H | H]; [left; exact H|].
    destruct (String.eqb y x) eqn:E.
    + left. apply String.eqb_eq, E.
    + right. split; [exact H | reflexivity].
Qed.

Lemma flat_map_all_nil {A B : Type} (f : A -> list B) (l : list A) :
  (forall x, In x l -> f x = []) -> flat_map f l = [].
Proof.
  induction l as [|x t IH]; simpl; intros H; [reflexivity|].
  rewrite (H x) by auto. apply IH. auto.
Qed.

Lemma category_total_window (window : Timestamp -> bool) (p : RegistrationRecord -> bool)
  (c : string) (rows : list RegistrationRecord) :
  (forall r, In r rows -> p r = window (date r)) ->
  total_where (in_category c) (filter p rows) = window_total window (Some c) rows.
Proof.
  intros H. unfold total_where, window_total. rewrite filter_filter.
  do 2 f_equal. apply filter_ext_in. intros r Hr. rewrite (H r Hr). reflexivity.
Qed.

Lemma grand_total_window (window : Timestamp -> bool) (p : RegistrationRecord -> bool)
  (rows : list RegistrationRecord) :
  (forall r, In r rows -> p r = window (date r)) ->
  sum64 (map registrations (filter p rows)) = window_total window None rows.
Proof.
  intros H. unfold window_total. do 2 f_equal.
  apply filter_ext_in. intros r Hr. rewrite (H r Hr), andb_true_r. reflexivity.
Qed.

Lemma leaders_of_In kind field rows cur prev g :
  In g (leaders_of kind field rows cur prev)
  <-> In (Name g) (map field rows) /\ 0 < Previous g
      /\ g = leader_entry kind field cur prev (Name g).
Proof.
  unfold leaders_of. rewrite in_flat_map. split.
  - intros [name [Hname Hg]]. apply (proj1 (unique_In _ _)) in Hname.
    destruct (0 <? total_where _ prev) eqn:E; [|contradiction].
    destruct Hg as [<- | []]. simpl. apply Z.ltb_lt in E.
    split; [exact Hname|]. split; [exact E | reflexivity].
  - intros [Hname [Hpos Hg]]. exists (Name g). split; [apply (proj2 (unique_In _ _)), Hname|].
    assert (E : (0 <? total_where (fun r => String.eqb (field r) (Name g)) prev) = true).
    { apply Z.ltb_lt. rewrite Hg in Hpos. exact Hpos. }
    rewrite E. left. symmetry. exact Hg.
Qed.

(** ** Calendar fields and assigned columns *)

Lemma dt_month_range (t : Timestamp) : 1 <= dt_month t <= 12.
Proof.
  unfold dt_month, civil_from_days. cbn [fst snd].
  set (z := t + 719468).
  set (doe := z - z / 146097 * 146097).
  set (yoe := (doe - doe / 1460 + doe / 36524 - doe / 146096) / 365).
  set (doy := doe - (365 * yoe + yoe / 4 - yoe / 100)).
  set (mp := (5 * doy + 2) / 153).
  assert (Hdoe : 0 <= doe <= 146096) by (subst doe; Z.div_mod_to_equations; lia).
  assert (Hdoy : 0 <= doy <= 365).
  { subst doy yoe. clearbody doe. Z.div_mod_to_equations. lia. }
  assert (Hmp : 0 <= mp <= 11) by (subst mp; clearbody doy; Z.div_mod_to_equations; lia).
  clearbody mp. destruct (Z.ltb_spec mp 10); lia.
Qed.

Lemma assoc_get_set {V : Type} (k : string) (v : V) (l : list (string * V)) :
  assoc_get k (assoc_set k v l) = Some v.
Proof.
  induction l as [|[k' v'] t IH]; simpl.
  - rewrite String.eqb_refl. reflexivity.
  - destruct (String.eqb k k') eqn:E; simpl.
    + rewrite String.eqb_refl. reflexivity.
    + rewrite E. exact IH.
Qed.

Lemma zip_with_map {A B C : Type} (f : A -> B -> C) (g : A -> B) (l : list A) :
  zip_with f l (map g l) = map (fun x => f x (g x)) l.
Proof. induction l; simpl; congruence. Qed.

Lemma seasonal_patterns_frame (df : DataFrame) :
  fst (get_seasonal_patterns df) = setitem "month" (month_column df) df.
Proof.
  unfold get_seasonal_patterns.
  destruct (getitem "month" _); [|reflexivity].
  destruct (_ =? _)%nat; reflexivity.
Qed.

Lemma getitem_month_assigned (df : DataFrame) (column : list cell) :
  getitem "month" (setitem "month" column df) = Some column.
Proof. unfold setitem, getitem. cbn. apply assoc_get_set. Qed.

Lemma quarterly_comparison_quarter (df : DataFrame) :
  getitem "quarter" (fst (create_quarterly_comparison df))
  = Some (map (fun r => CInt (dt_quarter (date r))) (records df)).
Proof.
  unfold create_quarterly_comparison, setitem, getitem. cbn.
  rewrite zip_with_map, map_map. reflexivity.
Qed.

Lemma in_calendar_months (x : Z) : 1 <= x <= 12 -> In x calendar_months.
Proof.
  intros H. unfold calendar_months. simpl.
  assert (x = 1 \/ x = 2 \/ x = 3 \/ x = 4 \/ x = 5 \/ x = 6 \/ x = 7 \/ x = 8
          \/ x = 9 \/ x = 10 \/ x = 11 \/ x = 12) by lia.
  intuition auto.
Qed.

Lemma seasonal_patterns_missing_month (df : DataFrame) (m : Z) :
  In m calendar_months ->
  (forall r, In r (records df) -> dt_month (date r) <> m) ->
  snd (get_seasonal_patterns df) = Err (ValueError "All arrays must be of the same length").
Proof.
  intros Hm Hmiss. unfold get_seasonal_patterns.
  rewrite getitem_month_assigned.
  match goal with
  | |- context [(List.length ?avg =? List.length month_names)%nat] =>
      set (monthly_avg := avg)
  end.
  assert (Hlen : (List.length monthly_avg <= 11)%nat).
  { unfold monthly_avg, groupby_mean. rewrite length_map.
    replace (records (setitem "month" (month_column df) df)) with (records df)
      by reflexivity.
    unfold month_column. rewrite combine_map.
    set (rows := map (fun r => (CInt (dt_month (date r)), registrations r)) (records df)).
    set (acc := group_fold cell_compare _ _ rows).
    rewrite <- (length_map fst acc).
    assert (Hrem : List.length (map CInt (remove Z.eq_dec m calendar_months)) = 11%nat).
    { rewrite length_map. unfold calendar_months in *. simpl in Hm.
      repeat (destruct Hm as [<- | Hm]; [reflexivity|]). contradiction. }
    rewrite <- Hrem. apply NoDup_incl_length.
    - apply (keys_increasing_NoDup cell_compare cell_compare_order).
      apply (group_fold_increasing cell_compare cell_compare_order).
    - intros k Hk.
      apply (group_fold_keys cell_compare cell_compare_order) in Hk.
      unfold rows in Hk. rewrite map_map in Hk. cbn [fst] in Hk.
      apply in_map_iff in Hk. destruct Hk as [r [<- Hr]].
      apply in_map, in_in_remove; [apply Hmiss, Hr|].
      apply in_calendar_months, dt_month_range. }
  destruct (Nat.eqb_spec (List.length monthly_avg) (List.length month_names)) as [E | E];
    [|reflexivity].
  exfalso. cbn [month_names List.length] in E. lia.
Qed.

(** ** C1: the two growth calculators at a zero previous value *)

(** C1, as stated, fails: at [current = 100], [previous = 0] the
    calculator of [utils] answers 100 and the one of [data_loader] 0. *)
Lemma zero_previous_policies_differ :
  num_eqb (Int 0) (Int 0) = true /\
  calculate_percentage_change (Int 100) (Int 0) = Int 100 /\
  calculate_growth (Int 100) (Int 0) = Int 0 /\
  calculate_percentage_change (Int 100) (Int 0) <> calculate_growth (Int 100) (Int 0).
Proof. repeat split; try reflexivity. discriminate. Qed.

(** C1 (amended): when [previous == 0], [calculate_growth] returns 0
    unconditionally, [calculate_percentage_change] returns 0 when
    [current == 0] and 100 otherwise, and the two agree exactly when
    [current == 0]. *)
Theorem zero_previous_policy (current previous : number) :
  num_eqb previous (Int 0) = true ->
  calculate_growth current previous = Int 0 /\
  calculate_percentage_change current previous
  = (if num_eqb current (Int 0) then Int 0 else Int 100) /\
  (calculate_percentage_change current previous = calculate_growth current previous
   <-> num_eqb current (Int 0) = true).
Proof.
  intros H. unfold calculate_growth, calculate_percentage_change. rewrite H.
  repeat split.
  - destruct (num_eqb current (Int 0)); [reflexivity | discriminate].
  - intros ->. reflexivity.
Qed.

Lemma zero_previous_policy_witness :
  num_eqb (Float (S754_zero true)) (Int 0) = true /\
  calculate_growth (Int 100) (Float (S754_zero true)) = Int 0 /\
  calculate_percentage_change (Int 100) (Float (S754_zero true))
  = (if num_eqb (Int 100) (Int 0) then Int 0 else Int 100) /\
  (calculate_percentage_change (Int 100) (Float (S754_zero true))
   = calculate_growth (Int 100) (Float (S754_zero true))
   <-> num_eqb (Int 100) (Int 0) = true).
Proof.
  split; [reflexivity|].
  apply (zero_previous_policy (Int 100) (Float (S754_zero true))). reflexivity.
Defined.

(** ** C2: the windows of [get_growth_metrics] *)

Lemma calculate_growth_percentage (c p : Z) :
  calculate_growth (Int c) (Int p) = growth_percentage c p.
Proof.
  unfold calculate_growth, growth_percentage, growth_rate, num_eqb.
  cbn [num_compare num_sub num_div num_mul to_float].
  destruct (Z.eqb_spec p 0) as [-> | Hne]; [reflexivity|].
  destruct (Z.compare_spec p 0); [contradiction | reflexivity | reflexivity].
Qed.

(** C2, as stated, fails: the current window is not the last 90 days
    ending at the latest date.  With one record on the latest date [D]
    and one 90 days earlier, the earlier record, which is not among the
    90 days [D - 89] to [D] but among the 90 days before them, is counted
    in the current window, which holds 91 day numbers; the previous
    quarter is then empty and the quarter-over-quarter figure is 0, where
    the windows of the claim give a growth of 100 percent. *)
Lemma current_window_holds_91_days :
  let D := days_from_civil 2024 3 31 in
  let rows := records ninety_days_frame in
  max_of (map date rows) = Some D /\
  map date rows = [D - 90; D] /\
  in_last_90_days D (D - 90) = false /\
  in_preceding_90_days D (D - 90) = true /\
  in_current_window D (D - 90) = true /\
  List.length (filter (in_current_window D) (map (fun k => D - Z.of_nat k) (seq 0 200)))
  = 91%nat /\
  List.length (filter (in_last_90_days D) (map (fun k => D - Z.of_nat k) (seq 0 200)))
  = 90%nat /\
  metric "2w_qoq_growth" (get_growth_metrics ninety_days_frame) = Ok (Int 0) /\
  growth_percentage (window_total (in_last_90_days D) (Some "2W") rows)
                    (window_total (in_preceding_90_days D) (Some "2W") rows)
  = Float (of_int 100) /\
  metric "2w_qoq_growth" (get_growth_metrics ninety_days_frame)
  <> Ok (growth_percentage (window_total (in_last_90_days D) (Some "2W") rows)
                           (window_total (in_preceding_90_days D) (Some "2W") rows)).
Proof. cbv zeta. repeat split; try (vm_compute; reflexivity). vm_compute. discriminate. Qed.

(** C2 (amended): on a non-empty collection whose latest date is [D],
    the eight metrics are the growth percentages of each of 2W, 3W, 4W
    and of the grand total between the current window, the 91 days from
    [D - 90] to [D], and, for the year-over-year figures, the 90 days
    from [D - 455] to [D - 366], for the quarter-over-quarter figures,
    the 90 days from [D - 180] to [D - 91].  A growth percentage is the
    difference of the two int64 totals over the previous total, times
    100, in float64, and the integer 0 when the previous total is 0; a
    category without rows in a window contributes the total 0. *)
Theorem growth_metrics_windows (df : DataFrame) :
  records df <> [] ->
  exists D,
    max_of (map date (records df)) = Some D /\
    In D (map date (records df)) /\
    (forall r, In r (records df) -> date r <= D) /\
    get_growth_metrics df
    = [("2w_yoy_growth", growth_between (Some "2W") D in_previous_year (records df));
       ("2w_qoq_growth", growth_between (Some "2W") D in_previous_quarter (records df));
       ("3w_yoy_growth", growth_between (Some "3W") D in_previous_year (records df));
       ("3w_qoq_growth", growth_between (Some "3W") D in_previous_quarter (records df));
       ("4w_yoy_growth", growth_between (Some "4W") D in_previous_year (records df));
       ("4w_qoq_growth", growth_between (Some "4W") D in_previous_quarter (records df));
       ("total_yoy_growth", growth_between None D in_previous_year (records df));
       ("total_qoq_growth", growth_between None D in_previous_quarter (records df))] /\
    (forall category comparison_window,
        growth_between category D comparison_window (records df)
        = let current := window_total (in_current_window D) category (records df) in
          let previous := window_total (comparison_window D) category (records df) in
          if previous =? 0 then Int 0
          else Float (fmul (fdiv (of_int (sub64 current previous)) (of_int previous))
                           (of_int 100))) /\
    (forall d, (in_current_window D d = true <-> D - 90 <= d <= D) /\
               (in_previous_quarter D d = true <-> D - 180 <= d <= D - 91) /\
               (in_previous_year D d = true <-> D - 455 <= d <= D - 366)) /\
    (forall window c,
        (forall r, In r (records df) -> window (date r) = true -> vehicle_category r <> c) ->
        window_total window (Some c) (records df) = 0).
Proof.
  intros Hne.
  destruct (max_of_spec (map date (records df))) as [D [Hmax [Hin Hle]]].
  { destruct (records df); [congruence | discriminate]. }
  exists D. split; [exact Hmax|]. split; [exact Hin|].
  assert (Hdate : forall r, In r (records df) -> date r <= D).
  { intros r Hr. apply Hle, in_map, Hr. }
  split; [exact Hdate|]. split; [|split; [|split]].
  - unfold get_growth_metrics, growth_between. rewrite Hmax.
    cbn [minus_days opt_sub].
    replace (D - 365 - 90) with (D - 455) by ring.
    replace (D - 90 - 90) with (D - 180) by ring.
    assert (Hcur : forall r, In r (records df) ->
              ts_geb (date r) (Some (D - 90)) = in_current_window D (date r)).
    { intros r Hr. unfold in_current_window. cbn [ts_geb].
      rewrite (proj2 (Z.leb_le (date r) D) (Hdate r Hr)), andb_true_r. reflexivity. }
    assert (Hyear : forall r, In r (records df) ->
              ts_geb (date r) (Some (D - 455)) && ts_ltb (date r) (Some (D - 365))
              = in_previous_year D (date r)) by reflexivity.
    assert (Hquarter : forall r, In r (records df) ->
              ts_geb (date r) (Some (D - 180)) && ts_ltb (date r) (Some (D - 90))
              = in_previous_quarter D (date r)) by reflexivity.
    cbn [flat_map List.app].
    rewrite !(category_total_window (in_current_window D) _ _ _ Hcur).
    rewrite !(category_total_window (in_previous_year D) _ _ _ Hyear).
    rewrite !(category_total_window (in_previous_quarter D) _ _ _ Hquarter).
    rewrite (grand_total_window (in_current_window D) _ _ Hcur).
    rewrite (grand_total_window (in_previous_year D) _ _ Hyear).
    rewrite (grand_total_window (in_previous_quarter D) _ _ Hquarter).
    rewrite !calculate_growth_percentage.
    reflexivity.
  - intros category comparison_window. reflexivity.
  - intros d. unfold in_current_window, in_previous_quarter, in_previous_year.
    rewrite !andb_true_iff, !Z.leb_le, !Z.ltb_lt. lia.
  - intros window c H. unfold window_total.
    rewrite filter_none; [reflexivity|]. intros r Hr.
    destruct (window (date r)) eqn:Ew; [|reflexivity]. simpl.
    destruct (String.eqb (vehicle_category r) c) eqn:E; [|reflexivity].
    apply String.eqb_eq in E. exfalso. exact (H r Hr Ew E).
Qed.

(** On the two-year collection the latest date is 2024-03-01; the
    records of 2023-03-01, 366 days earlier, fall in the previous-year
    window and the figures are +120 percent for 2W and -50 percent for
    4W. *)
Lemma growth_metrics_windows_witness :
  records two_year_frame <> [] /\
  map (fun kv => (fst kv, format_fixed false 1 (to_float (snd kv))))
      (get_growth_metrics two_year_frame)
  = [("2w_yoy_growth", "120.0"); ("2w_qoq_growth", "0.0");
     ("3w_yoy_growth", "0.0"); ("3w_qoq_growth", "0.0");
     ("4w_yoy_growth", "-50.0"); ("4w_qoq_growth", "0.0");
     ("total_yoy_growth", "6.7"); ("total_qoq_growth", "0.0")] /\
  exists D,
    max_of (map date (records two_year_frame)) = Some D /\
    In D (map date (records two_year_frame)) /\
    (forall r, In r (records two_year_frame) -> date r <= D) /\
    get_growth_metrics two_year_frame
    = [("2w_yoy_growth", growth_between (Some "2W") D in_previous_year (records two_year_frame));
       ("2w_qoq_growth", growth_between (Some "2W") D in_previous_quarter (records two_year_frame));
       ("3w_yoy_growth", growth_between (Some "3W") D in_previous_year (records two_year_frame));
       ("3w_qoq_growth", growth_between (Some "3W") D in_previous_quarter (records two_year_frame));
       ("4w_yoy_growth", growth_between (Some "4W") D in_previous_year (records two_year_frame));
       ("4w_qoq_growth", growth_between (Some "4W") D in_previous_quarter (records two_year_frame));
       ("total_yoy_growth", growth_between None D in_previous_year (records two_year_frame));
       ("total_qoq_growth", growth_between None D in_previous_quarter (records two_year_frame))] /\
    (forall category comparison_window,
        growth_between category D comparison_window (records two_year_frame)
        = let current :=
            window_total (in_current_window D) category (records two_year_frame) in
          let previous :=
            window_total (comparison_window D) category (records two_year_frame) in
          if previous =? 0 then Int 0
          else Float (fmul (fdiv (of_int (sub64 current previous)) (of_int previous))
                           (of_int 100))) /\
    (forall d, (in_current_window D d = true <-> D - 90 <= d <= D) /\
               (in_previous_quarter D d = true <-> D - 180 <= d <= D - 91) /\
               (in_previous_year D d = true <-> D - 455 <= d <= D - 366)) /\
    (forall window c,
        (forall r, In r (records two_year_frame) ->
                   window (date r) = true -> vehicle_category r <> c) ->
        window_total window (Some c) (records two_year_frame) = 0).
Proof.
  split; [discriminate|]. split; [vm_compute; reflexivity|].
  apply (growth_metrics_windows two_year_frame). discriminate.
Defined.

(** ** C3: the analysis calls and the shared frame *)

Lemma heatmap_analysis_frame (df : DataFrame) :
  fst (create_heatmap_analysis df) = setitem "month" (month_column df) df.
Proof. reflexivity. Qed.

(** C3: each of the three calls leaves the caller's frame changed.  On
    every collection [get_seasonal_patterns] and [create_heatmap_analysis]
    leave a [month] column on the frame, and
    [create_quarterly_comparison] leaves the quarter numbers in the
    [quarter] column; on a two-row collection that had no [month] column
    and held quarter labels, the frame after each call differs from the
    frame before. *)
Theorem analysis_calls_change_the_frame :
  (forall df, getitem "month" (fst (get_seasonal_patterns df)) = Some (month_column df)) /\
  (forall df, getitem "month" (fst (create_heatmap_analysis df)) = Some (month_column df)) /\
  (forall df, getitem "quarter" (fst (create_quarterly_comparison df))
              = Some (map (fun r => CInt (dt_quarter (date r))) (records df))) /\
  getitem "month" january_frame = None /\
  getitem "month" (fst (get_seasonal_patterns january_frame)) = Some [CInt 1; CInt 1] /\
  fst (get_seasonal_patterns january_frame) <> january_frame /\
  getitem "quarter" january_frame = Some [CStr "2024-Q1"; CStr "2024-Q1"] /\
  getitem "quarter" (fst (create_quarterly_comparison january_frame))
  = Some [CInt 1; CInt 1] /\
  getitem "year_quarter" (fst (create_quarterly_comparison january_frame))
  = Some [CStr "2024-Q1"; CStr "2024-Q1"] /\
  fst (create_quarterly_comparison january_frame) <> january_frame /\
  getitem "month" (fst (create_heatmap_analysis january_frame)) = Some [CInt 1; CInt 1] /\
  fst (create_heatmap_analysis january_frame) <> january_frame.
Proof.
  split; [intros df; rewrite seasonal_patterns_frame; apply getitem_month_assigned|].
  split; [intros df; rewrite heatmap_analysis_frame; apply getitem_month_assigned|].
  split; [exact quarterly_comparison_quarter|].
  repeat split; try (vm_compute; reflexivity); intros H.
  - apply (f_equal (getitem "month")) in H. vm_compute in H. discriminate H.
  - apply (f_equal (getitem "quarter")) in H. vm_compute in H. discriminate H.
  - apply (f_equal (getitem "month")) in H. vm_compute in H. discriminate H.
Qed.

(** ** C5: seasonal patterns under partial month coverage *)

(** C5: whenever some calendar month has no record in the collection,
    the call raises, because the twelve month names and the shorter
    per-month columns differ in length, where the claim expects entries
    for the months present and none for the others.  So it is on a
    collection that covers January only, which the heatmap, naming the
    months through the index of the groups, accepts. *)
Theorem seasonal_patterns_partial_coverage :
  (forall df m,
      In m calendar_months ->
      (forall r, In r (records df) -> dt_month (date r) <> m) ->
      snd (get_seasonal_patterns df)
      = Err (ValueError "All arrays must be of the same length")) /\
  snd (get_seasonal_patterns january_frame)
  = Err (ValueError "All arrays must be of the same length") /\
  snd (create_heatmap_analysis january_frame)
  = [("Jan", [("2W", Some 40); ("4W", Some 60)])].
Proof.
  split; [exact seasonal_patterns_missing_month|]. split; vm_compute; reflexivity.
Qed.

Lemma seasonal_patterns_partial_coverage_witness :
  In 2 calendar_months /\
  (forall r, In r (records january_frame) -> dt_month (date r) <> 2) /\
  snd (get_seasonal_patterns january_frame)
  = Err (ValueError "All arrays must be of the same length").
Proof.
  assert (H : forall r, In r (records january_frame) -> dt_month (date r) <> 2).
  { intros r Hr. cbn [records january_frame] in Hr.
    destruct Hr as [<- | [<- | []]]; vm_compute; discriminate. }
  split; [right; left; reflexivity|]. split; [exact H|].
  apply (proj1 seasonal_patterns_partial_coverage january_frame 2);
    [right; left; reflexivity | exact H].
Defined.

(** With all twelve months present and the same volume in each, every
    month gets the index 100.0. *)
Lemma seasonal_patterns_uniform_year :
  match snd (get_seasonal_patterns uniform_year_frame) with
  | Ok rows =>
      map (fun r => (Month r, format_fixed false 1 (Seasonal_Index r))) rows
      = map (fun name => (name, "100.0")) month_names
  | Err _ => False
  end.
Proof. vm_compute. reflexivity. Qed.

(** ** C8: the empty collection *)

(** C8, as stated, fails on the empty collection: the growth metrics are
    not an empty result. *)
Lemma empty_collection_not_all_empty :
  ~ (calculate_market_share empty_frame "manufacturer" = Ok [] /\
     snd (get_seasonal_patterns empty_frame) = Ok [] /\
     get_growth_metrics empty_frame = []).
Proof. intros [_ [_ H]]. vm_compute in H. discriminate H. Qed.

(** On the empty collection [get_seasonal_patterns] raises: no month is
    covered. *)
Lemma seasonal_patterns_empty_collection (extra : list (string * list cell)) :
  snd (get_seasonal_patterns (mkFrame [] extra))
  = Err (ValueError "All arrays must be of the same length").
Proof.
  apply (seasonal_patterns_missing_month _ 1); [left; reflexivity|].
  intros r [].
Qed.

(** C8 (amended): on a collection without records, whatever columns it
    carries, [calculate_market_share] returns an empty result for every
    grouping key that names a column, and [get_growth_metrics] returns,
    without raising, the eight growth figures, all 0, which is what the
    zero-previous policy of [calculate_growth] gives for 0 against 0. *)
Theorem empty_collection_results (extra : list (string * list cell)) (group_by : string) :
  (calculate_market_share (mkFrame [] extra) group_by = Ok [] \/
   (getitem (group_label group_by) (mkFrame [] extra) = None /\
    calculate_market_share (mkFrame [] extra) group_by
    = Err (KeyError (group_label group_by)))) /\
  Forall (fun g => calculate_market_share (mkFrame [] extra) g = Ok []) grouping_labels /\
  get_growth_metrics (mkFrame [] extra)
  = [("2w_yoy_growth", Int 0); ("2w_qoq_growth", Int 0);
     ("3w_yoy_growth", Int 0); ("3w_qoq_growth", Int 0);
     ("4w_yoy_growth", Int 0); ("4w_qoq_growth", Int 0);
     ("total_yoy_growth", Int 0); ("total_qoq_growth", Int 0)] /\
  calculate_growth (Int 0) (Int 0) = Int 0.
Proof.
  split; [|split; [|split; reflexivity]].
  - unfold calculate_market_share, market_share_groups, group_label.
    destruct (String.eqb group_by "manufacturer"); [left; reflexivity|].
    destruct (String.eqb group_by "category"); [left; reflexivity|].
    destruct (getitem group_by (mkFrame [] extra)) as [keys|] eqn:E.
    + left. cbn [records map]. destruct keys; reflexivity.
    + right. split; reflexivity.
  - repeat constructor.
Qed.

(** ** C9: aggregation preserves the total and ignores the row order *)

Lemma getitem_grouping_label (g : string) :
  In g grouping_labels ->
  exists f : RegistrationRecord -> cell,
    forall df, getitem (group_label g) df = Some (map f (records df)).
Proof.
  unfold grouping_labels. simpl.
  intros [<- | [<- | [<- | [<- | [<- | [<- | []]]]]]]; eexists; intros df; reflexivity.
Qed.

Lemma market_share_groups_label (df : DataFrame) (g : string) :
  market_share_groups df g
  = match getitem (group_label g) df with
    | Some keys =>
        Ok (groupby_sum cell_compare (combine keys (map registrations (records df))))
    | None => Err (KeyError (group_label g))
    end.
Proof.
  unfold market_share_groups, group_label.
  destruct (String.eqb g "manufacturer"); [reflexivity|].
  destruct (String.eqb g "category"); reflexivity.
Qed.

(** C9: grouping by any grouping column of the schema, and the monthly
    grouping of the trend chart, yield group sums whose int64 total is the
    int64 total of the [registrations] column, and yield the same result
    for every permutation of the rows. *)
Theorem aggregation_mass_and_row_order (df df' : DataFrame) :
  Permutation (records df) (records df') ->
  Forall (fun g =>
            exists groups,
              market_share_groups df g = Ok groups /\
              sum64 (map snd groups) = sum64 (map registrations (records df)) /\
              market_share_groups df' g = Ok groups)
         grouping_labels /\
  sum64 (map snd (monthly_groups df)) = sum64 (map registrations (records df)) /\
  monthly_groups df' = monthly_groups df /\
  create_trend_chart df' = create_trend_chart df.
Proof.
  intros Hperm.
  assert (Hmonthly : monthly_groups df' = monthly_groups df).
  { unfold monthly_groups, groupby_sum.
    apply (group_fold_permutation key_compare key_compare_order).
    - apply add64_swap.
    - apply Permutation_map. symmetry. exact Hperm. }
  split; [|split; [|split]].
  - apply Forall_forall. intros g Hg.
    destruct (getitem_grouping_label g Hg) as [f Hf].
    rewrite !market_share_groups_label, !Hf, !combine_map.
    eexists. split; [reflexivity|]. split.
    + rewrite groupby_sum_mass, map_map. reflexivity.
    + f_equal. unfold groupby_sum.
      apply (group_fold_permutation cell_compare cell_compare_order).
      * apply add64_swap.
      * apply Permutation_map. symmetry. exact Hperm.
  - unfold monthly_groups. rewrite groupby_sum_mass, map_map. reflexivity.
  - exact Hmonthly.
  - unfold create_trend_chart. rewrite Hmonthly. reflexivity.
Qed.

Lemma aggregation_mass_and_row_order_witness :
  Permutation (records tied_frame) (records tied_frame_swapped) /\
  Forall (fun g =>
            exists groups,
              market_share_groups tied_frame g = Ok groups /\
              sum64 (map snd groups) = sum64 (map registrations (records tied_frame)) /\
              market_share_groups tied_frame_swapped g = Ok groups)
         grouping_labels /\
  sum64 (map snd (monthly_groups tied_frame))
  = sum64 (map registrations (records tied_frame)) /\
  monthly_groups tied_frame_swapped = monthly_groups tied_frame /\
  create_trend_chart tied_frame_swapped = create_trend_chart tied_frame.
Proof.
  split; [apply perm_swap|].
  apply (aggregation_mass_and_row_order tied_frame tied_frame_swapped).
  apply perm_swap.
Defined.

(** ** C10: the quarter-over-quarter window of [identify_growth_leaders] *)

(** C10, as stated, fails: the latest records of this collection fall in
    the first quarter of 2024, yet the largest quarter number over the
    whole collection is 2, so the previous window is the first quarter of
    2024, it is not empty, and the call returns a ranking. *)
Lemma qoq_first_quarter_may_succeed :
  max_of (map date (records q2_then_q1_frame)) = Some (days_from_civil 2024 1 1) /\
  dt_quarter (days_from_civil 2024 1 1) = 1 /\
  (exists cur prev,
      growth_windows (records q2_then_q1_frame) "QoQ" = Some (cur, prev) /\ prev <> []) /\
  (exists ranking,
      identify_growth_leaders q2_then_q1_frame "QoQ" = Ok ranking /\
      map Name ranking = ["Honda"; "2W"]).
Proof.
  split; [vm_compute; reflexivity|]. split; [vm_compute; reflexivity|]. split.
  - eexists. eexists. split; [vm_compute; reflexivity | discriminate].
  - eexists. split; vm_compute; reflexivity.
Qed.

Lemma leaders_of_no_previous kind field rows cur :
  leaders_of kind field rows cur [] = [].
Proof. unfold leaders_of. apply flat_map_all_nil. intros name _. reflexivity. Qed.

(** C10 (amended): with [period = "QoQ"] the previous window consists of
    the records of the maximum calendar year whose quarter number is the
    largest quarter number of the whole collection minus one, never of a
    record of the preceding year; consequently, when the records of the
    latest year all fall in the first quarter and the largest quarter
    number over the whole collection is not 2, the previous window is
    empty, no entity has a strictly positive previous total, and the call
    fails with a [KeyError] on [Growth_Rate] instead of returning an empty
    ranking. *)
Theorem qoq_previous_window_same_year (df : DataFrame) :
  let rows := records df in
  let current_year := max_of (map (fun r => dt_year (date r)) rows) in
  let current_quarter := max_of (map (fun r => dt_quarter (date r)) rows) in
  exists cur prev,
    growth_windows rows "QoQ" = Some (cur, prev) /\
    (forall r, In r prev <->
               In r rows /\ Some (dt_year (date r)) = current_year
               /\ Some (dt_quarter (date r) + 1) = current_quarter) /\
    ((forall r, In r rows -> Some (dt_year (date r)) = current_year ->
                dt_quarter (date r) = 1) ->
     current_quarter <> Some 2 ->
     prev = [] /\
     leaders_of "Manufacturer" manufacturer rows cur prev = [] /\
     leaders_of "Category" vehicle_category rows cur prev = [] /\
     identify_growth_leaders df "QoQ" = Err (KeyError "Growth_Rate")).
Proof.
  intros rows current_year current_quarter.
  assert (Heq : forall x o, eq_opt x o = true <-> Some x = o).
  { intros x [y|]; simpl; [rewrite Z.eqb_eq|]; split; congruence. }
  set (cur := filter (fun r => eq_opt (dt_year (date r)) current_year
                               && eq_opt (dt_quarter (date r)) current_quarter) rows).
  set (prev := filter (fun r => eq_opt (dt_year (date r)) current_year
                                && eq_opt (dt_quarter (date r)) (opt_sub current_quarter 1))
                      rows).
  assert (Hwin : growth_windows rows "QoQ" = Some (cur, prev)) by reflexivity.
  assert (Hprev_spec : forall r,
    In r prev <-> In r rows /\ Some (dt_year (date r)) = current_year
                  /\ Some (dt_quarter (date r) + 1) = current_quarter).
  { intros r. unfold prev. rewrite filter_In, andb_true_iff, !Heq.
    destruct current_quarter as [q|]; simpl; [|intuition congruence].
    split; intros [H1 [H2 H3]]; repeat split; auto.
    - injection H3 as H3. f_equal. lia.
    - injection H3 as H3. f_equal. lia. }
  exists cur, prev. split; [exact Hwin|]. split; [exact Hprev_spec|].
  intros Hq1 Hq2.
  assert (Hprev : prev = []).
  { destruct prev as [|r t] eqn:E; [reflexivity|]. exfalso.
    destruct (proj1 (Hprev_spec r) (or_introl eq_refl)) as [Hr [Hy Hq]].
    specialize (Hq1 r Hr Hy). apply Hq2. rewrite <- Hq, Hq1. reflexivity. }
  split; [exact Hprev|].
  rewrite Hprev.
  split; [apply leaders_of_no_previous|]. split; [apply leaders_of_no_previous|].
  unfold identify_growth_leaders. fold rows. rewrite Hwin, Hprev.
  rewrite !leaders_of_no_previous. reflexivity.
Qed.

Lemma qoq_previous_window_same_year_witness :
  identify_growth_leaders q1_only_frame "QoQ" = Err (KeyError "Growth_Rate").
Proof.
  destruct (qoq_previous_window_same_year q1_only_frame) as [cur [prev [_ [_ H]]]].
  apply H.
  - intros r Hr _. cbn [records q1_only_frame] in Hr.
    destruct Hr as [<- | [<- | []]]; vm_compute; reflexivity.
  - vm_compute. discriminate.
Defined.

(** ** C7: the growth-leader ranking *)

Lemma unique_NoDup (l : list string) : NoDup (unique l).
Proof.
  induction l as [|x t IH]; simpl; constructor.
  - rewrite filter_In. intros [_ H]. rewrite String.eqb_refl in H. discriminate.
  - apply NoDup_filter, IH.
Qed.

Lemma leaders_of_NoDup kind field rows cur prev :
  NoDup (map Name (leaders_of kind field rows cur prev)).
Proof.
  unfold leaders_of.
  generalize (unique_NoDup (map field rows)).
  induction (unique (map field rows)) as [|name t IH]; intros Hnd; simpl; [constructor|].
  inversion Hnd as [|? ? Hnot Hnd']; subst.
  rewrite map_app. specialize (IH Hnd').
  destruct (0 <? _); simpl; [|exact IH].
  constructor; [|exact IH].
  intros Hin. apply in_map_iff in Hin. destruct Hin as [g [Hg Hin]].
  apply in_flat_map in Hin. destruct Hin as [name' [Hname' Hin]].
  destruct (0 <? _); [|contradiction].
  destruct Hin as [<- | []]. simpl in Hg. subst name'. contradiction.
Qed.

Lemma leaders_of_kind kind field rows cur prev g :
  In g (leaders_of kind field rows cur prev) -> Type_ g = kind.
Proof.
  intros H. apply leaders_of_In in H. destruct H as [_ [_ ->]]. reflexivity.
Qed.

Lemma leaders_NoDup rows cur prev :
  NoDup (leaders_of "Manufacturer" manufacturer rows cur prev
         ++ leaders_of "Category" vehicle_category rows cur prev).
Proof.
  apply NoDup_app.
  - eapply NoDup_map_inv, leaders_of_NoDup.
  - eapply NoDup_map_inv, leaders_of_NoDup.
  - intros g H1 H2. apply leaders_of_kind in H1, H2. congruence.
Qed.

Lemma percentage_change_growth_rate (c p : Z) :
  0 < p -> calculate_percentage_change (Int c) (Int p) = Float (growth_rate c p).
Proof.
  intros Hp. unfold calculate_percentage_change, growth_rate, num_eqb.
  cbn [num_compare num_sub num_div num_mul to_float].
  destruct (Z.compare_spec p 0); try lia; reflexivity.
Qed.

(** The windows of [growth_windows] are the two periods: the totals of an
    entity over them are its totals over the records of the current and
    of the previous period. *)
Lemma growth_windows_periods (rows current_data previous_data : list RegistrationRecord)
  (period : string) :
  rows <> [] ->
  growth_windows rows period = Some (current_data, previous_data) ->
  (period = "YoY" \/ period = "QoQ") /\
  exists Y Q,
    max_of (map (fun r => dt_year (date r)) rows) = Some Y /\
    max_of (map (fun r => dt_quarter (date r)) rows) = Some Q /\
    forall field name,
      total_where (fun r => String.eqb (field r) name) current_data
      = entity_total field name (in_current_period period Y Q) rows /\
      total_where (fun r => String.eqb (field r) name) previous_data
      = entity_total field name (in_previous_period period Y Q) rows.
Proof.
  intros Hne Hw.
  destruct (max_of_spec (map (fun r => dt_year (date r)) rows)) as [Y [HY _]].
  { destruct rows; [congruence | discriminate]. }
  destruct (max_of_spec (map (fun r => dt_quarter (date r)) rows)) as [Q [HQ _]].
  { destruct rows; [congruence | discriminate]. }
  unfold growth_windows in Hw. rewrite HY, HQ in Hw. cbn [opt_sub eq_opt] in Hw.
  assert (Htotal : forall (p : RegistrationRecord -> bool) (w : Timestamp -> bool) field name,
             (forall r, p r = w (date r)) ->
             total_where (fun r => String.eqb (field r) name) (filter p rows)
             = entity_total field name w rows).
  { intros p w field name Hp. unfold total_where, entity_total.
    rewrite filter_filter. do 2 f_equal. apply filter_ext. intros r.
    rewrite Hp. reflexivity. }
  destruct (String.eqb period "YoY") eqn:Ey.
  - injection Hw as <- <-. split; [left; apply String.eqb_eq, Ey|].
    exists Y, Q. split; [exact HY|]. split; [exact HQ|].
    intros field name. unfold in_current_period, in_previous_period. rewrite Ey.
    split; apply Htotal; intros r; reflexivity.
  - destruct (String.eqb period "QoQ") eqn:Eq; [|discriminate Hw].
    injection Hw as <- <-. split; [right; apply String.eqb_eq, Eq|].
    exists Y, Q. split; [exact HY|]. split; [exact HQ|].
    intros field name. unfold in_current_period, in_previous_period. rewrite Ey.
    split; apply Htotal; intros r; reflexivity.
Qed.

(** C7: a ranking returned by [identify_growth_leaders] consists exactly
    of the entries of the manufacturers and of the categories of the
    collection whose total over the previous period (the year before the
    latest year, or the quarter before the largest quarter in the latest
    year) is strictly positive, so an entity whose previous total is 0
    has no entry whatever its current total.  An entry carries the two
    totals and the growth percentage, the difference of the totals over
    the previous total, times 100; no entry occurs twice, every growth
    percentage is a defined float, and each is at most the one before
    it. *)
Theorem growth_leaders_ranking (df : DataFrame) (period : string)
  (ranking : list GrowthLeader) :
  identify_growth_leaders df period = Ok ranking ->
  (period = "YoY" \/ period = "QoQ") /\
  exists Y Q,
    max_of (map (fun r => dt_year (date r)) (records df)) = Some Y /\
    max_of (map (fun r => dt_quarter (date r)) (records df)) = Some Q /\
    (forall g,
        In g ranking <->
        0 < Previous g /\
        ((In (Name g) (map manufacturer (records df)) /\
          g = ranking_entry "Manufacturer" manufacturer period Y Q (records df) (Name g)) \/
         (In (Name g) (map vehicle_category (records df)) /\
          g = ranking_entry "Category" vehicle_category period Y Q (records df) (Name g)))) /\
    (forall g, In g ranking ->
        Growth_Rate g
        = Float (fmul (fdiv (of_int (sub64 (Current g) (Previous g))) (of_int (Previous g)))
                      (of_int 100))) /\
    (forall name,
        entity_total manufacturer name (in_previous_period period Y Q) (records df) <= 0 ->
        forall g, In g ranking -> Type_ g = "Manufacturer" -> Name g <> name) /\
    (forall name,
        entity_total vehicle_category name (in_previous_period period Y Q) (records df) <= 0 ->
        forall g, In g ranking -> Type_ g = "Category" -> Name g <> name) /\
    NoDup ranking /\
    Forall (fun g => is_nan (to_float (Growth_Rate g)) = false) ranking /\
    non_increasing (fun g => to_float (Growth_Rate g)) ranking.
Proof.
  unfold identify_growth_leaders.
  destruct (growth_windows (records df) period) as [[cur prev]|] eqn:Hwin.
  2: { destruct (records df); discriminate. }
  destruct (_ ++ _)%list as [|g0 rest] eqn:Hall; [discriminate|].
  intros Hok.
  assert (Hr : ranking = sort_desc growth_rate_value (g0 :: rest)) by congruence.
  subst ranking. clear Hok. rewrite <- Hall.
  assert (Hne : records df <> []).
  { intros Hnil. rewrite Hnil in Hall. discriminate Hall. }
  destruct (growth_windows_periods (records df) cur prev period Hne Hwin)
    as [Hperiod [Y [Q [HY [HQ Htot]]]]].
  split; [exact Hperiod|]. exists Y, Q. split; [exact HY|]. split; [exact HQ|].
  set (leaders := (leaders_of "Manufacturer" manufacturer (records df) cur prev
                   ++ leaders_of "Category" vehicle_category (records df) cur prev)%list).
  assert (Hentry : forall kind field name,
             0 < total_where (fun r => String.eqb (field r) name) prev ->
             leader_entry kind field cur prev name
             = ranking_entry kind field period Y Q (records df) name).
  { intros kind field name Hpos. unfold leader_entry, ranking_entry.
    destruct (Htot field name) as [Hc Hp].
    rewrite percentage_change_growth_rate by exact Hpos.
    rewrite Hc, Hp. reflexivity. }
  assert (Hof : forall kind field g,
             In g (leaders_of kind field (records df) cur prev) <->
             0 < Previous g /\ In (Name g) (map field (records df)) /\
             g = ranking_entry kind field period Y Q (records df) (Name g)).
  { intros kind field g. rewrite leaders_of_In. split.
    - intros [Hn [Hp Hg]]. split; [exact Hp|]. split; [exact Hn|].
      rewrite Hg at 1. apply Hentry. rewrite Hg in Hp. exact Hp.
    - intros [Hp [Hn Hg]]. split; [exact Hn|]. split; [exact Hp|].
      rewrite Hg at 1. symmetry. apply Hentry.
      rewrite Hg in Hp. cbn [Previous ranking_entry] in Hp.
      rewrite (proj2 (Htot field (Name g))). exact Hp. }
  assert (Hin : forall g,
             In g (sort_desc growth_rate_value leaders) <->
             0 < Previous g /\
             ((In (Name g) (map manufacturer (records df)) /\
               g = ranking_entry "Manufacturer" manufacturer period Y Q (records df) (Name g))
              \/ (In (Name g) (map vehicle_category (records df)) /\
                  g = ranking_entry "Category" vehicle_category period Y Q (records df)
                        (Name g)))).
  { intros g. split.
    - intros H. apply (Permutation_in g (sort_desc_perm _ _)) in H.
      apply in_app_or in H. destruct H as [H | H]; apply Hof in H; tauto.
    - intros [Hp [[Hn Hg] | [Hn Hg]]];
        apply (Permutation_in g (Permutation_sym (sort_desc_perm _ _)));
        apply in_or_app; [left | right]; apply Hof; auto. }
  assert (Hrate : forall g, In g (sort_desc growth_rate_value leaders) ->
             Growth_Rate g
             = Float (fmul (fdiv (of_int (sub64 (Current g) (Previous g)))
                                 (of_int (Previous g)))
                           (of_int 100))).
  { intros g Hg. apply Hin in Hg. destruct Hg as [_ [[_ Hg] | [_ Hg]]];
      rewrite Hg; reflexivity. }
  assert (Hdef : Forall (fun g => is_nan (to_float (Growth_Rate g)) = false)
                   (sort_desc growth_rate_value leaders)).
  { apply Forall_forall. intros g Hg. rewrite (Hrate g Hg). cbn [to_float].
    apply Hin in Hg. destruct Hg as [Hp Hg].
    assert (Hrange : - two63 <= Previous g < two63).
    { destruct Hg as [[_ Hg] | [_ Hg]]; rewrite Hg; cbn [Previous ranking_entry];
        apply sum64_range. }
    apply fmul_not_nan.
    - apply fdiv_not_nan; [apply of_int_not_nan|].
      apply of_int_finite; unfold two63, two64 in *; lia.
    - apply of_int_finite; unfold two64; lia. }
  split; [exact Hin|]. split; [exact Hrate|].
  split; [|split; [|split; [|split; [exact Hdef|]]]].
  - intros name Hzero g Hg Hkind Hname. apply Hin in Hg.
    destruct Hg as [Hp [[_ Hg] | [_ Hg]]].
    + rewrite Hg in Hp. cbn [Previous ranking_entry] in Hp. rewrite Hname in Hp. lia.
    + rewrite Hg in Hkind. discriminate Hkind.
  - intros name Hzero g Hg Hkind Hname. apply Hin in Hg.
    destruct Hg as [Hp [[_ Hg] | [_ Hg]]].
    + rewrite Hg in Hkind. discriminate Hkind.
    + rewrite Hg in Hp. cbn [Previous ranking_entry] in Hp. rewrite Hname in Hp. lia.
  - apply (Permutation_NoDup (Permutation_sym (sort_desc_perm _ _))), leaders_NoDup.
  - apply (descending_non_increasing growth_rate_value); [exact Hdef|].
    apply sort_desc_sorted.
Qed.

(** On the two-year collection the ranking is 2W (+120 percent, TVS
    being new), Honda (+50 percent) and then Kia and 4W (both -50
    percent); TVS, whose previous total is 0 and whose current total is
    70, is absent. *)
Lemma growth_leaders_ranking_witness :
  exists ranking,
    identify_growth_leaders two_year_frame "YoY" = Ok ranking /\
    (let shown := map (fun g => (Type_ g, Name g, Current g, Previous g,
                                 format_fixed false 1 (to_float (Growth_Rate g))))
                      ranking in
     firstn 2 shown
     = [("Category", "2W", 220, 100, "120.0"); ("Manufacturer", "Honda", 150, 100, "50.0")] /\
     List.length shown = 4%nat /\
     In ("Manufacturer", "Kia", 100, 200, "-50.0") shown /\
     In ("Category", "4W", 100, 200, "-50.0") shown /\
     ~ In "TVS" (map Name ranking)) /\
    entity_total manufacturer "TVS" (in_current_period "YoY" 2024 1)
                 (records two_year_frame) = 70 /\
    entity_total manufacturer "TVS" (in_previous_period "YoY" 2024 1)
                 (records two_year_frame) = 0 /\
    ("YoY" = "YoY" \/ "YoY" = "QoQ") /\
    exists Y Q,
      max_of (map (fun r => dt_year (date r)) (records two_year_frame)) = Some Y /\
      max_of (map (fun r => dt_quarter (date r)) (records two_year_frame)) = Some Q /\
      (forall g,
          In g ranking <->
          0 < Previous g /\
          ((In (Name g) (map manufacturer (records two_year_frame)) /\
            g = ranking_entry "Manufacturer" manufacturer "YoY" Y Q
                  (records two_year_frame) (Name g)) \/
           (In (Name g) (map vehicle_category (records two_year_frame)) /\
            g = ranking_entry "Category" vehicle_category "YoY" Y Q
                  (records two_year_frame) (Name g)))) /\
      (forall g, In g ranking ->
          Growth_Rate g
          = Float (fmul (fdiv (of_int (sub64 (Current g) (Previous g)))
                              (of_int (Previous g)))
                        (of_int 100))) /\
      (forall name,
          entity_total manufacturer name (in_previous_period "YoY" Y Q)
                       (records two_year_frame) <= 0 ->
          forall g, In g ranking -> Type_ g = "Manufacturer" -> Name g <> name) /\
      (forall name,
          entity_total vehicle_category name (in_previous_period "YoY" Y Q)
                       (records two_year_frame) <= 0 ->
          forall g, In g ranking -> Type_ g = "Category" -> Name g <> name) /\
      NoDup ranking /\
      Forall (fun g => is_nan (to_float (Growth_Rate g)) = false) ranking /\
      non_increasing (fun g => to_float (Growth_Rate g)) ranking.
Proof.
  eexists. split; [vm_compute; reflexivity|].
  split.
  { cbv zeta. split; [vm_compute; reflexivity|]. split; [vm_compute; reflexivity|].
    split; [vm_compute; tauto|]. split; [vm_compute; tauto|].
    vm_compute. intros H. repeat (destruct H as [H | H]; [discriminate H|]). exact H. }
  split; [vm_compute; reflexivity|]. split; [vm_compute; reflexivity|].
  apply (growth_leaders_ranking two_year_frame "YoY"). vm_compute. reflexivity.
Defined.

(** On that collection the ranking is Honda (+50%), 2W (+120%, TVS being
    new) and Kia and 4W (-50%); TVS, whose previous total is 0, is absent. *)
Lemma growth_leaders_two_years :
  match identify_growth_leaders two_year_frame "YoY" with
  | Ok ranking =>
      map (fun g => (Name g, Previous g, format_fixed false 1 (growth_rate_value g))) ranking
      = [("2W", 100, "120.0"); ("Honda", 100, "50.0");
         ("Kia", 200, "-50.0"); ("4W", 200, "-50.0")]
  | Err _ => False
  end.
Proof. vm_compute. reflexivity. Qed.

(** ** C4: market share *)

(** C4, as stated, fails on ties.  The two collections hold the same two
    rows, with equal volume, in the two possible orders, so the order of
    first appearance differs; the result is the same for both, so for one
    of them it is not the order of first appearance.  As evaluated here,
    Bajaj is listed before TVS, which appears first in [tied_frame]. *)
Lemma market_share_ties_not_by_first_appearance :
  unique (map manufacturer (records tied_frame)) = ["TVS"; "Bajaj"] /\
  unique (map manufacturer (records tied_frame_swapped)) = ["Bajaj"; "TVS"] /\
  calculate_market_share tied_frame "manufacturer"
  = calculate_market_share tied_frame_swapped "manufacturer" /\
  exists v,
    calculate_market_share tied_frame "manufacturer"
    = Ok [(CStr "Bajaj", v); (CStr "TVS", v)] /\
    format_fixed false 2 v = "50.00".
Proof.
  split; [reflexivity|]. split; [reflexivity|]. split; [vm_compute; reflexivity|].
  eexists. split; vm_compute; reflexivity.
Qed.

Lemma share_not_nan (total : Z) (g : cell * Z) :
  total <> 0 -> - two63 <= total < two63 -> is_nan (snd (share_of total g)) = false.
Proof.
  intros Hz Hr. unfold share_of. cbn [snd].
  apply round_float_2_not_nan, fmul_not_nan.
  - apply fdiv_not_nan; [apply of_int_not_nan|].
    apply of_int_finite; unfold two63, two64 in *; lia.
  - apply of_int_finite; unfold two64; lia.
Qed.

(** C4 (amended): the result of [calculate_market_share] has one entry
    for each distinct entity of the grouping column, whose value is the
    entity's summed registrations divided by the grand total, times 100,
    rounded to 2 decimals, and the entries are in descending order of that
    percentage: when the grand total is not 0 every percentage is a
    defined float and each is at most the one before it, otherwise the
    undefined percentages come last.  Entries with equal percentages are
    not ordered by first appearance. *)
Theorem market_share_ranking (df : DataFrame) (group_by : string)
  (shares : list (cell * float64)) :
  calculate_market_share df group_by = Ok shares ->
  exists keys,
    getitem (group_label group_by) df = Some keys /\
    let rows := combine keys (map registrations (records df)) in
    let total := sum64 (map registrations (records df)) in
    (forall k v,
        In (k, v) shares <->
        In k (map fst rows) /\
        v = round_float 2
              (fmul (fdiv (of_int (sum64 (values_of cell_compare k rows))) (of_int total))
                    (of_int 100))) /\
    NoDup (map fst shares) /\
    descending snd shares /\
    (total <> 0 ->
     Forall (fun s => is_nan (snd s) = false) shares /\ non_increasing snd shares).
Proof.
  unfold calculate_market_share. rewrite market_share_groups_label.
  destruct (getitem (group_label group_by) df) as [keys|]; [|discriminate].
  intros Hok. exists keys. split; [reflexivity|].
  set (rows := combine keys (map registrations (records df))) in *.
  set (total := sum64 (map registrations (records df))) in *.
  assert (Hs : shares = sort_desc snd (map (share_of total) (groupby_sum cell_compare rows)))
    by congruence.
  clear Hok. cbn zeta. split; [|split; [|split]].
  - intros k v. rewrite Hs. split.
    + intros H. apply (Permutation_in _ (sort_desc_perm _ _)) in H.
      apply in_map_iff in H. destruct H as [[k' s] [Heq Hin]].
      unfold share_of in Heq. cbn [fst snd] in Heq. injection Heq as -> <-.
      apply (group_fold_In cell_compare cell_compare_order) in Hin.
      destruct Hin as [Hk ->]. split; [exact Hk | reflexivity].
    + intros [Hk ->].
      apply (Permutation_in _ (Permutation_sym (sort_desc_perm _ _))).
      apply in_map_iff. exists (k, sum64 (values_of cell_compare k rows)).
      split; [reflexivity|].
      apply (group_fold_In cell_compare cell_compare_order). split; [exact Hk | reflexivity].
  - rewrite Hs.
    apply (Permutation_NoDup (Permutation_map fst (Permutation_sym (sort_desc_perm _ _)))).
    rewrite map_map. cbn [share_of fst].
    apply (keys_increasing_NoDup cell_compare cell_compare_order).
    apply (group_fold_increasing cell_compare cell_compare_order).
  - rewrite Hs. apply sort_desc_sorted.
  - intros Htotal.
    assert (Hdef : Forall (fun s => is_nan (snd s) = false) shares).
    { rewrite Hs. apply Forall_forall. intros x Hx.
      apply (Permutation_in _ (sort_desc_perm _ _)) in Hx.
      apply in_map_iff in Hx. destruct Hx as [g [<- _]].
      apply share_not_nan; [exact Htotal | apply sum64_range]. }
    split; [exact Hdef|].
    apply descending_non_increasing; [exact Hdef|]. rewrite Hs. apply sort_desc_sorted.
Qed.

Lemma market_share_ranking_witness :
  exists shares,
    calculate_market_share two_year_frame "category" = Ok shares /\
    exists keys,
      getitem (group_label "category") two_year_frame = Some keys /\
      let rows := combine keys (map registrations (records two_year_frame)) in
      let total := sum64 (map registrations (records two_year_frame)) in
      (forall k v,
          In (k, v) shares <->
          In k (map fst rows) /\
          v = round_float 2
                (fmul (fdiv (of_int (sum64 (values_of cell_compare k rows))) (of_int total))
                      (of_int 100))) /\
      NoDup (map fst shares) /\
      descending snd shares /\
      (total <> 0 ->
       Forall (fun s => is_nan (snd s) = false) shares /\ non_increasing snd shares).
Proof.
  eexists. split; [vm_compute; reflexivity|].
  apply (market_share_ranking two_year_frame "category"). vm_compute. reflexivity.
Defined.

(** On that collection 2W holds 320 of 620 registrations and 4W 300. *)
Lemma market_share_two_years :
  match calculate_market_share two_year_frame "category" with
  | Ok shares =>
      map (fun s => (fst s, format_fixed false 2 (snd s))) shares
      = [(CStr "2W", "51.61"); (CStr "4W", "48.39")]
  | Err _ => False
  end.
Proof. vm_compute. reflexivity. Qed.

(** ** C6: the formatting layer *)








(** * Further properties *)

(** ** Sorting by a total comparison *)

Section SortByFacts.
Context {A : Type}.
Variable before : A -> A -> bool.
Hypothesis before_total : forall a b, before a b = false -> before b a = true.

Lemma insert_by_perm x (l : list A) : Permutation (insert_by before x l) (x :: l).
Proof.
  induction l as [|y t IH]; simpl; [reflexivity|].
  destruct (before x y); [reflexivity|].
  rewrite IH. apply perm_swap.
Qed.

Lemma sort_by_perm (l : list A) : Permutation (sort_by before l) l.
Proof.
  induction l as [|x t IH]; simpl; [reflexivity|].
  rewrite insert_by_perm. constructor. exact IH.
Qed.

Lemma insert_by_sorted x (l : list A) :
  Sorted (fun a b => before a b = true) l ->
  Sorted (fun a b => before a b = true) (insert_by before x l).
Proof.
  induction 1 as [|y t Ht IH Hhd]; simpl.
  - repeat constructor.
  - destruct (before x y) eqn:E.
    + constructor; [constructor; assumption|]. constructor. exact E.
    + constructor; [exact IH|].
      destruct t as [|z t']; simpl.
      * constructor. apply before_total, E.
      * destruct (before x z); constructor; [apply before_total, E|].
        inversion Hhd; assumption.
Qed.

Lemma sort_by_sorted (l : list A) : Sorted (fun a b => before a b = true) (sort_by before l).
Proof.
  induction l as [|x t IH]; simpl; [constructor|].
  apply insert_by_sorted, IH.
Qed.

Hypothesis before_trans : forall a b c,
  before a b = true -> before b c = true -> before a c = true.

Lemma sort_by_strongly_sorted (l : list A) :
  StronglySorted (fun a b => before a b = true) (sort_by before l).
Proof.
  apply Sorted_StronglySorted; [|apply sort_by_sorted].
  intros a b c. apply before_trans.
Qed.
End SortByFacts.

Lemma firstn_In {A : Type} (n : nat) (l : list A) (y : A) : In y (firstn n l) -> In y l.
Proof.
  intros H. rewrite <- (firstn_skipn n l). apply in_or_app. left. exact H.
Qed.

Lemma skipn_In {A : Type} (n : nat) (l : list A) (y : A) : In y (skipn n l) -> In y l.
Proof.
  intros H. rewrite <- (firstn_skipn n l). apply in_or_app. right. exact H.
Qed.

(** The first [n] elements of a sorted list precede the others. *)
Lemma firstn_before_skipn {A : Type} (R : A -> A -> Prop) (n : nat) (l : list A) :
  StronglySorted R l ->
  forall x y, In x (firstn n l) -> In y (skipn n l) -> R x y.
Proof.
  intros Hs. revert n. induction Hs as [|a t Ht IH Hall]; intros n x y Hx Hy.
  - destruct n; contradiction.
  - destruct n as [|n]; [contradiction|]. simpl in Hx, Hy.
    destruct Hx as [<- | Hx].
    + rewrite Forall_forall in Hall. apply Hall. eapply skipn_In, Hy.
    + eapply IH; eassumption.
Qed.

Lemma firstn_strongly_sorted {A : Type} (R : A -> A -> Prop) (n : nat) (l : list A) :
  StronglySorted R l -> StronglySorted R (firstn n l).
Proof.
  intros Hs. revert n. induction Hs as [|a t Ht IH Hall]; intros [|n]; simpl;
    try constructor; auto.
  rewrite Forall_forall in *. intros x Hx. apply Hall. eapply firstn_In, Hx.
Qed.

Lemma int_descending_total {K : Type} (a b : K * Z) :
  int_descending a b = false -> int_descending b a = true.
Proof. unfold int_descending. rewrite Z.leb_gt, Z.leb_le. lia. Qed.

Lemma int_descending_trans {K : Type} (a b c : K * Z) :
  int_descending a b = true -> int_descending b c = true -> int_descending a c = true.
Proof. unfold int_descending. rewrite !Z.leb_le. lia. Qed.

Lemma int_ascending_total {K : Type} (a b : K * Z) :
  int_ascending a b = false -> int_ascending b a = true.
Proof. unfold int_ascending. rewrite Z.leb_gt, Z.leb_le. lia. Qed.

Lemma int_ascending_trans {K : Type} (a b c : K * Z) :
  int_ascending a b = true -> int_ascending b c = true -> int_ascending a c = true.
Proof. unfold int_ascending. rewrite !Z.leb_le. lia. Qed.

(** ** Totals per value of a text column *)

Lemma string_compare_eqb (a b : string) :
  match String.compare a b with Eq => true | _ => false end = String.eqb a b.
Proof.
  destruct (String.eqb_spec a b) as [-> | Hne].
  - rewrite string_compare_refl. reflexivity.
  - destruct (String.compare a b) eqn:E; try reflexivity.
    apply String.compare_eq_iff in E. contradiction.
Qed.

Lemma values_of_column (key : RegistrationRecord -> string) (k : string)
  (rows : list RegistrationRecord) :
  values_of String.compare k (map (fun r => (key r, registrations r)) rows)
  = map registrations (filter (fun r => String.eqb (key r) k) rows).
Proof.
  unfold values_of. induction rows as [|r t IH]; simpl; [reflexivity|].
  rewrite string_compare_eqb.
  destruct (String.eqb (key r) k); simpl; rewrite IH; reflexivity.
Qed.

(** The grouped totals of a text column: one entry per value present,
    carrying the total of the rows with that value. *)
Lemma totals_by_In (key : RegistrationRecord -> string) (rows : list RegistrationRecord)
  (k : string) (t : Z) :
  In (k, t) (totals_by key rows)
  <-> In k (map key rows) /\ t = total_where (fun r => String.eqb (key r) k) rows.
Proof.
  unfold totals_by, groupby_sum.
  rewrite (group_fold_In String.compare string_compare_order).
  rewrite map_map. cbn [fst]. rewrite values_of_column. reflexivity.
Qed.

Lemma totals_by_NoDup (key : RegistrationRecord -> string) (rows : list RegistrationRecord) :
  NoDup (map fst (totals_by key rows)).
Proof.
  apply (keys_increasing_NoDup String.compare string_compare_order).
  apply (group_fold_increasing String.compare string_compare_order).
Qed.

Lemma totals_by_find (key : RegistrationRecord -> string) (rows : list RegistrationRecord)
  (k : string) :
  find_key String.compare k (totals_by key rows)
  = if existsb (fun r => String.eqb (key r) k) rows
    then Some (total_where (fun r => String.eqb (key r) k) rows)
    else None.
Proof.
  unfold totals_by, groupby_sum.
  rewrite (find_group_fold String.compare string_compare_order), values_of_column.
  unfold total_where, sum64.
  induction rows as [|r t IH]; simpl; [reflexivity|].
  destruct (String.eqb (key r) k); simpl; [reflexivity | exact IH].
Qed.

Lemma zsum_perm (l l' : list Z) : Permutation l l' -> zsum l = zsum l'.
Proof. induction 1; simpl; lia. Qed.

Lemma sum64_perm (l l' : list Z) : Permutation l l' -> sum64 l = sum64 l'.
Proof. intros H. rewrite !sum64_wrap, (zsum_perm _ _ H). reflexivity. Qed.

Lemma totals_by_mass (key : RegistrationRecord -> string) (rows : list RegistrationRecord) :
  sum64 (map snd (totals_by key rows)) = sum64 (map registrations rows).
Proof. unfold totals_by. rewrite groupby_sum_mass, map_map. reflexivity. Qed.

(** ** [create_manufacturer_chart] *)

(** The bar chart shows at most ten manufacturers, each once with its
    total, in non-increasing order of total, and a manufacturer that is
    not shown has a total no larger than any total shown; the pie chart
    shows the first eight of these rows; any other chart type raises. *)
Theorem manufacturer_chart_top_ten (df : DataFrame) :
  exists bars,
    create_manufacturer_chart df "top_performers" = Ok bars /\
    (List.length bars <= 10)%nat /\
    NoDup (map fst bars) /\
    (forall m t, In (m, t) bars ->
                 In m (map manufacturer (records df)) /\
                 t = total_where (fun r => String.eqb (manufacturer r) m) (records df)) /\
    StronglySorted (fun a b => snd b <= snd a) bars /\
    (forall m, In m (map manufacturer (records df)) ->
               In m (map fst bars) \/
               (List.length bars = 10%nat /\
                forall b, In b bars ->
                          total_where (fun r => String.eqb (manufacturer r) m) (records df)
                          <= snd b)) /\
    create_manufacturer_chart df "market_share" = Ok (firstn 8 bars) /\
    (forall chart_type,
        chart_type <> "top_performers" -> chart_type <> "market_share" ->
        create_manufacturer_chart df chart_type = Err (UnboundLocalError "fig")).
Proof.
  set (totals := totals_by manufacturer (records df)).
  set (sorted := sort_by int_descending totals).
  assert (Hperm : Permutation sorted totals) by apply sort_by_perm.
  assert (Hss : StronglySorted (fun a b : string * Z => int_descending a b = true) sorted).
  { apply sort_by_strongly_sorted;
      [apply int_descending_total | apply int_descending_trans]. }
  exists (firstn 10 sorted).
  split; [reflexivity|]. split; [apply firstn_le_length|].
  assert (Hnd : NoDup (map fst sorted)).
  { apply (Permutation_NoDup (Permutation_map fst (Permutation_sym Hperm))).
    apply totals_by_NoDup. }
  split; [|split; [|split; [|split; [|split]]]].
  - rewrite <- (firstn_skipn 10 sorted), map_app in Hnd.
    apply NoDup_app_remove_r in Hnd. exact Hnd.
  - intros m t Hin. apply firstn_In in Hin.
    apply (Permutation_in _ Hperm), totals_by_In in Hin. exact Hin.
  - apply firstn_strongly_sorted.
    eapply StronglySorted_ind with (P := StronglySorted (fun a b => snd b <= snd a));
      [constructor| |exact Hss].
    intros a l _ IH Hall. constructor; [exact IH|].
    eapply Forall_impl; [|exact Hall].
    intros b Hb. unfold int_descending in Hb. apply Z.leb_le, Hb.
  - intros m Hm.
    assert (Hin : In (m, total_where (fun r => String.eqb (manufacturer r) m) (records df))
                     sorted).
    { apply (Permutation_in _ (Permutation_sym Hperm)), totals_by_In. auto. }
    rewrite <- (firstn_skipn 10 sorted) in Hin. apply in_app_or in Hin.
    destruct Hin as [Hin | Hin].
    + left. apply (in_map fst) in Hin. exact Hin.
    + right. split.
      * apply firstn_length_le.
        destruct (Nat.le_gt_cases 10 (List.length sorted)) as [Hle | Hgt]; [exact Hle|].
        rewrite skipn_all2 in Hin by lia. contradiction.
      * intros b Hb.
        pose proof (firstn_before_skipn _ 10 sorted Hss b _ Hb Hin) as H.
        unfold int_descending in H. cbn [snd] in H. apply Z.leb_le, H.
  - reflexivity.
  - intros chart_type H1 H2. unfold create_manufacturer_chart.
    apply String.eqb_neq in H1, H2. rewrite H1, H2. reflexivity.
Qed.

(** ** [create_state_wise_analysis] *)

(** The state chart has one bar for every state of the collection,
    carrying the state's total, in non-decreasing order of total, and the
    bars add up to the total of the collection. *)
Theorem state_wise_analysis_bars (df : DataFrame) :
  let bars := create_state_wise_analysis df in
  (forall s t, In (s, t) bars <->
               In s (map state (records df)) /\
               t = total_where (fun r => String.eqb (state r) s) (records df)) /\
  NoDup (map fst bars) /\
  StronglySorted (fun a b => snd a <= snd b) bars /\
  sum64 (map snd bars) = sum64 (map registrations (records df)).
Proof.
  cbv zeta. unfold create_state_wise_analysis.
  fold (totals_by state (records df)).
  set (totals := totals_by state (records df)).
  assert (Hperm : Permutation (sort_by int_ascending totals) totals) by apply sort_by_perm.
  split; [|split; [|split]].
  - intros s t. rewrite <- totals_by_In. fold totals. split; intros H.
    + apply (Permutation_in _ Hperm), H.
    + apply (Permutation_in _ (Permutation_sym Hperm)), H.
  - apply (Permutation_NoDup (Permutation_map fst (Permutation_sym Hperm))).
    apply totals_by_NoDup.
  - assert (Hss : StronglySorted (fun a b : string * Z => int_ascending a b = true)
                    (sort_by int_ascending totals)).
    { apply sort_by_strongly_sorted;
        [apply int_ascending_total | apply int_ascending_trans]. }
    eapply StronglySorted_ind with (P := StronglySorted (fun a b => snd a <= snd b));
      [constructor| |exact Hss].
    intros a l _ IH Hall. constructor; [exact IH|].
    eapply Forall_impl; [|exact Hall].
    intros b Hb. unfold int_ascending in Hb. apply Z.leb_le, Hb.
  - rewrite (sum64_perm _ _ (Permutation_map snd Hperm)). apply totals_by_mass.
Qed.

(** ** [create_growth_indicators] *)

Lemma latest_year_rows (rows : list RegistrationRecord) :
  rows <> [] -> rows_of_year (latest_year rows) rows <> [].
Proof.
  intros Hne. unfold latest_year, rows_of_year.
  destruct (max_of_spec (map (fun r => dt_year (date r)) rows)) as [m [Hm [Hin _]]].
  { destruct rows; [congruence | discriminate]. }
  rewrite Hm. apply in_map_iff in Hin. destruct Hin as [r [Hr Hin]].
  intros Hnil.
  assert (H : In r (filter (fun r => eq_opt (dt_year (date r)) (Some m)) rows)).
  { apply filter_In. split; [exact Hin|]. simpl. apply Z.eqb_eq, Hr. }
  rewrite Hnil in H. contradiction.
Qed.

Lemma totals_by_nonempty (key : RegistrationRecord -> string)
  (rows : list RegistrationRecord) :
  rows <> [] -> totals_by key rows <> [].
Proof.
  intros Hne Hnil. destruct rows as [|r t]; [congruence|].
  assert (H : In (key r, total_where (fun x => String.eqb (key x) (key r)) (r :: t))
                 (totals_by key (r :: t))).
  { apply totals_by_In. split; [left; reflexivity | reflexivity]. }
  rewrite Hnil in H. contradiction.
Qed.

Lemma total_where_absent (key : RegistrationRecord -> string) (k : string)
  (rows : list RegistrationRecord) :
  existsb (fun r => String.eqb (key r) k) rows = false ->
  total_where (fun r => String.eqb (key r) k) rows = 0.
Proof.
  intros H. unfold total_where. rewrite filter_none; [reflexivity|].
  intros r Hr. destruct (String.eqb (key r) k) eqn:E; [|reflexivity].
  assert (existsb (fun r => String.eqb (key r) k) rows = true).
  { apply existsb_exists. exists r. auto. }
  congruence.
Qed.

Lemma growth_indicators_cases (df : DataFrame) :
  let rows := records df in
  let current := rows_of_year (latest_year rows) rows in
  let previous := rows_of_year (opt_sub (latest_year rows) 1) rows in
  match create_growth_indicators df with
  | Err e => e = KeyError "growth" /\ rows = []
  | Ok bars =>
      rows <> [] /\ bars <> [] /\
      NoDup (map bar_category bars) /\
      (forall c, In c (map bar_category bars) <-> In c (map vehicle_category current)) /\
      (forall b, In b bars ->
         bar_current b = total_where (in_category (bar_category b)) current /\
         bar_previous b = total_where (in_category (bar_category b)) previous /\
         bar_growth b
         = (if 0 <? bar_previous b
            then calculate_percentage_change (Int (bar_current b)) (Int (bar_previous b))
            else Int 0) /\
         bar_color b = (if num_geb (bar_growth b) (Int 0) then "#10B981" else "#EF4444") /\
         bar_text b = format_fixed false 1 (to_float (bar_growth b)) ++ "%")
  end.
Proof.
  cbv zeta. unfold create_growth_indicators.
  fold (latest_year (records df)).
  fold (rows_of_year (latest_year (records df)) (records df)).
  fold (rows_of_year (opt_sub (latest_year (records df)) 1) (records df)).
  set (current := rows_of_year (latest_year (records df)) (records df)).
  set (previous := rows_of_year (opt_sub (latest_year (records df)) 1) (records df)).
  fold (totals_by vehicle_category current).
  fold (totals_by vehicle_category previous).
  set (entry := fun cur : string * Z => _).
  set (bar := fun g : string * number * Z * Z => _).
  destruct (records df) as [|r0 rest] eqn:Erows.
  { subst current. simpl. split; reflexivity. }
  assert (Hcur : totals_by vehicle_category current <> []).
  { apply totals_by_nonempty. subst current. apply latest_year_rows. discriminate. }
  destruct (map entry (totals_by vehicle_category current)) as [|g0 gs] eqn:Eg.
  { apply map_eq_nil in Eg. contradiction. }
  rewrite <- Eg. clear Eg g0 gs.
  split; [discriminate|].
  assert (Hcat : map bar_category (map bar (map entry (totals_by vehicle_category current)))
                 = map fst (totals_by vehicle_category current)).
  { rewrite !map_map. apply map_ext. intros [c t]. reflexivity. }
  split.
  { intros Hnil. apply map_eq_nil, map_eq_nil in Hnil. contradiction. }
  split; [rewrite Hcat; apply totals_by_NoDup|].
  split.
  - intros c. rewrite Hcat. split.
    + intros H. apply in_map_iff in H. destruct H as [[c' t] [<- H]].
      apply totals_by_In in H. apply H.
    + intros H. apply in_map_iff.
      exists (c, total_where (fun r => String.eqb (vehicle_category r) c) current).
      split; [reflexivity|]. apply totals_by_In. auto.
  - intros b Hb. rewrite map_map in Hb. apply in_map_iff in Hb.
    destruct Hb as [[c t] [<- Hin]]. apply totals_by_In in Hin. destruct Hin as [_ ->].
    subst bar entry. cbn [fst snd bar_category bar_current bar_previous bar_growth
                           bar_color bar_text].
    rewrite totals_by_find. unfold in_category.
    split; [reflexivity|].
    destruct (existsb (fun r => String.eqb (vehicle_category r) c) previous) eqn:Ex.
    + split; [reflexivity|]. split; [|split; reflexivity].
      destruct (0 <? total_where _ previous) eqn:Epos; [|reflexivity].
      unfold calculate_percentage_change.
      replace (num_eqb (Int (total_where (fun r => String.eqb (vehicle_category r) c) previous))
                       (Int 0)) with false; [reflexivity|].
      unfold num_eqb, num_compare. apply Z.ltb_lt in Epos.
      destruct (Z.compare_spec (total_where (fun r => String.eqb (vehicle_category r) c) previous) 0);
        try reflexivity; lia.
    + rewrite (total_where_absent vehicle_category c previous Ex).
      repeat split; reflexivity.
Qed.

(** The growth chart fails, with [KeyError 'growth'], exactly on a
    collection without records.  Otherwise it has one bar for every
    category with a record in the latest calendar year, each once; a bar
    carries the category's totals of the latest year and of the year
    before, and its growth is the value of [calculate_percentage_change]
    when the previous total is strictly positive and the integer 0
    otherwise, also where the category had no record the year before. *)
Theorem growth_indicators_bars (df : DataFrame) :
  let rows := records df in
  let current := rows_of_year (latest_year rows) rows in
  let previous := rows_of_year (opt_sub (latest_year rows) 1) rows in
  (rows = [] -> create_growth_indicators df = Err (KeyError "growth")) /\
  (rows <> [] ->
   exists bars,
     create_growth_indicators df = Ok bars /\
     bars <> [] /\
     NoDup (map bar_category bars) /\
     (forall c, In c (map bar_category bars) <-> In c (map vehicle_category current)) /\
     (forall b, In b bars ->
        bar_current b = total_where (in_category (bar_category b)) current /\
        bar_previous b = total_where (in_category (bar_category b)) previous /\
        bar_growth b
        = (if 0 <? bar_previous b
           then calculate_percentage_change (Int (bar_current b)) (Int (bar_previous b))
           else Int 0))).
Proof.
  cbv zeta. pose proof (growth_indicators_cases df) as H. cbv zeta in H.
  destruct (create_growth_indicators df) as [bars | e].
  - destruct H as [Hne [Hb [Hnd [Hc Hbar]]]]. split; [intros E; contradiction|].
    intros _. exists bars. split; [reflexivity|]. split; [exact Hb|].
    split; [exact Hnd|]. split; [exact Hc|].
    intros b Hin. destruct (Hbar b Hin) as [H1 [H2 [H3 _]]]. auto.
  - destruct H as [-> Hrows]. split; [reflexivity|]. intros Hne. contradiction.
Qed.

(** Year-over-year growth in the chart and in the ranking: when both are
    produced, every bar whose previous total is strictly positive appears
    in the ranking as a category entry with the same totals and the same
    growth rate, and every category entry of the ranking either has its
    bar or belongs to a category without records in the latest year. *)
Theorem growth_indicators_agree_with_leaders (df : DataFrame)
  (bars : list GrowthBar) (ranking : list GrowthLeader) :
  create_growth_indicators df = Ok bars ->
  identify_growth_leaders df "YoY" = Ok ranking ->
  (forall b, In b bars -> 0 < bar_previous b ->
     In (mkLeader "Category" (bar_category b) (bar_current b) (bar_previous b)
                  (bar_growth b)) ranking) /\
  (forall g, In g ranking -> Type_ g = "Category" ->
     In (mkBar (Name g) (Growth_Rate g) (Current g) (Previous g)
               (if num_geb (Growth_Rate g) (Int 0) then "#10B981" else "#EF4444")
               (format_fixed false 1 (to_float (Growth_Rate g)) ++ "%")) bars
     \/ (Current g = 0 /\
         ~ In (Name g) (map vehicle_category
                            (rows_of_year (latest_year (records df)) (records df))))).
Proof.
  intros Hbars Hrank.
  pose proof (growth_indicators_cases df) as Hspec. cbv zeta in Hspec.
  rewrite Hbars in Hspec. destruct Hspec as [_ [_ [_ [Hcats Hbar]]]].
  unfold identify_growth_leaders, growth_windows in Hrank. simpl String.eqb in Hrank.
  fold (latest_year (records df)) in Hrank.
  fold (rows_of_year (latest_year (records df)) (records df)) in Hrank.
  fold (rows_of_year (opt_sub (latest_year (records df)) 1) (records df)) in Hrank.
  set (current := rows_of_year (latest_year (records df)) (records df)) in *.
  set (previous := rows_of_year (opt_sub (latest_year (records df)) 1) (records df)) in *.
  cbv beta iota in Hrank.
  remember (leaders_of "Manufacturer" manufacturer (records df) current previous
            ++ leaders_of "Category" vehicle_category (records df) current previous)%list
    as leaders eqn:El.
  assert (Hr : ranking = sort_desc growth_rate_value leaders).
  { destruct leaders; [discriminate Hrank | congruence]. }
  clear Hrank.
  assert (Hmem : forall g, In g ranking <-> In g leaders).
  { intros g. rewrite Hr. split; intros H.
    - eapply Permutation_in; [apply sort_desc_perm | exact H].
    - eapply Permutation_in; [apply Permutation_sym, sort_desc_perm | exact H]. }
  assert (Hsub : forall c, In c (map vehicle_category current)
                           -> In c (map vehicle_category (records df))).
  { intros c Hc. apply in_map_iff in Hc. destruct Hc as [r [<- Hin]].
    apply filter_In in Hin. apply in_map, Hin. }
  split.
  - intros b Hb Hpos. apply Hmem. rewrite El. apply in_or_app. right.
    apply leaders_of_In. cbn [Name Previous].
    destruct (Hbar b Hb) as [Hc [Hp [Hg _]]].
    split; [apply Hsub, Hcats, in_map, Hb|]. split; [exact Hpos|].
    unfold leader_entry. fold (in_category (bar_category b)).
    rewrite <- Hc, <- Hp. f_equal. rewrite Hg.
    apply Z.ltb_lt in Hpos. rewrite Hpos. reflexivity.
  - intros g Hg Hkind. apply Hmem in Hg. rewrite El in Hg.
    apply in_app_or in Hg. destruct Hg as [Hg | Hg].
    { apply leaders_of_kind in Hg. rewrite Hg in Hkind. discriminate Hkind. }
    apply leaders_of_In in Hg. destruct Hg as [Hname [Hpos Hentry]].
    destruct (in_dec string_dec (Name g) (map vehicle_category current)) as [Hin | Hout].
    + left. apply Hcats in Hin. apply in_map_iff in Hin. destruct Hin as [b [Hb Hin]].
      destruct (Hbar b Hin) as [Hc [Hp [Hgr [Hcol Htxt]]]].
      rewrite Hb in Hc, Hp.
      assert (Hcur : Current g = bar_current b).
      { rewrite Hentry, Hc. reflexivity. }
      assert (Hprev : Previous g = bar_previous b).
      { rewrite Hentry, Hp. reflexivity. }
      assert (Hgrowth : Growth_Rate g = bar_growth b).
      { rewrite Hgr. rewrite <- Hprev. apply Z.ltb_lt in Hpos. rewrite Hpos.
        rewrite Hentry at 1. cbn [Growth_Rate leader_entry].
        rewrite <- Hcur, Hprev, Hp. rewrite Hentry. reflexivity. }
      rewrite Hgrowth, Hcur, Hprev, <- Hb, <- Hcol, <- Htxt.
      destruct b. exact Hin.
    + right. split; [|exact Hout]. rewrite Hentry. cbn [Current leader_entry].
      apply total_where_absent. apply not_true_is_false. intros Hex.
      apply existsb_exists in Hex. destruct Hex as [r [Hr1 Hr2]].
      apply Hout. apply in_map_iff. exists r. split; [apply String.eqb_eq, Hr2 | exact Hr1].
Qed.

Lemma growth_indicators_agree_with_leaders_witness :
  exists bars ranking,
    create_growth_indicators two_year_frame = Ok bars /\
    identify_growth_leaders two_year_frame "YoY" = Ok ranking /\
    (forall b, In b bars -> 0 < bar_previous b ->
       In (mkLeader "Category" (bar_category b) (bar_current b) (bar_previous b)
                    (bar_growth b)) ranking) /\
    (forall g, In g ranking -> Type_ g = "Category" ->
       In (mkBar (Name g) (Growth_Rate g) (Current g) (Previous g)
                 (if num_geb (Growth_Rate g) (Int 0) then "#10B981" else "#EF4444")
                 (format_fixed false 1 (to_float (Growth_Rate g)) ++ "%")) bars
       \/ (Current g = 0 /\
           ~ In (Name g)
                (map vehicle_category
                     (rows_of_year (latest_year (records two_year_frame))
                                   (records two_year_frame))))).
Proof.
  eexists. eexists. split; [vm_compute; reflexivity|]. split; [vm_compute; reflexivity|].
  apply (growth_indicators_agree_with_leaders two_year_frame); vm_compute; reflexivity.
Defined.

(** ** [get_date_range_options] and the sidebar filter of [main] *)

Lemma min_of_spec (l : list Z) :
  l <> [] ->
  exists m, min_of l = Some m /\ In m l /\ (forall x, In x l -> m <= x).
Proof.
  induction l as [|x t IH]; [congruence|]. intros _. simpl.
  destruct t as [|y t'].
  - exists x. simpl. repeat split; auto. intros z [<- | []]. lia.
  - destruct IH as [m [Hm [Hin Hle]]]; [discriminate|].
    rewrite Hm. exists (Z.min x m). split; [reflexivity|]. split.
    + destruct (Z.min_spec x m) as [[_ ->] | [_ ->]]; [left; reflexivity | right; exact Hin].
    + intros z [<- | Hz]; [lia|]. specialize (Hle z Hz). lia.
Qed.

(** On a collection with records the date options are dates of records:
    the earliest and the latest one, every record lying between them; the
    default range ends at the latest date and starts 365 days before it,
    which is before the earliest date exactly when the collection spans
    less than 365 days. *)
Theorem date_range_options_bounds (df : DataFrame) :
  records df <> [] ->
  exists lo hi,
    get_date_range_options df
    = mkDateRange (Some lo) (Some hi) (Some (hi - 365)) (Some hi) /\
    In lo (map date (records df)) /\
    In hi (map date (records df)) /\
    (forall r, In r (records df) -> lo <= date r <= hi) /\
    (match default_start (get_date_range_options df) with
     | Some s => s < lo <-> hi - lo < 365
     | None => False
     end).
Proof.
  intros Hne.
  assert (Hd : map date (records df) <> []).
  { destruct (records df); [congruence | discriminate]. }
  destruct (min_of_spec _ Hd) as [lo [Hlo [Hinlo Hlole]]].
  destruct (max_of_spec _ Hd) as [hi [Hhi [Hinhi Hhile]]].
  exists lo, hi. unfold get_date_range_options. rewrite Hlo, Hhi.
  split; [reflexivity|]. split; [exact Hinlo|]. split; [exact Hinhi|].
  split.
  - intros r Hr. split; [apply Hlole | apply Hhile]; apply in_map, Hr.
  - simpl. lia.
Qed.

Lemma date_range_options_bounds_witness :
  exists lo hi,
    get_date_range_options two_year_frame
    = mkDateRange (Some lo) (Some hi) (Some (hi - 365)) (Some hi) /\
    In lo (map date (records two_year_frame)) /\
    In hi (map date (records two_year_frame)) /\
    (forall r, In r (records two_year_frame) -> lo <= date r <= hi) /\
    (match default_start (get_date_range_options two_year_frame) with
     | Some s => s < lo <-> hi - lo < 365
     | None => False
     end).
Proof. apply (date_range_options_bounds two_year_frame). discriminate. Defined.

Lemma select_rows_map {A : Type} (f : A -> bool) (l : list A) :
  select_rows (map f l) l = filter f l.
Proof. induction l as [|x t IH]; simpl; [reflexivity|]. rewrite IH. reflexivity. Qed.

Lemma select_rows_length {A B : Type} (mask : list bool) (l : list A) (l' : list B) :
  List.length l = List.length l' ->
  List.length (select_rows mask l) = List.length (select_rows mask l').
Proof.
  revert l l'. induction mask as [|b m IH]; intros [|x t] [|y t'] H; simpl in *;
    try reflexivity; try discriminate.
  destruct b; simpl; [f_equal|]; apply IH; lia.
Qed.

Lemma isin_In (x : string) (values : list string) : isin x values = true <-> In x values.
Proof.
  unfold isin. rewrite existsb_exists. split.
  - intros [y [Hy E]]. apply String.eqb_eq in E. subst. exact Hy.
  - intros H. exists x. split; [exact H | apply String.eqb_refl].
Qed.

Lemma select_rows_combine {A B : Type} (mask : list bool) (l : list A) (l' : list B) :
  combine (select_rows mask l) (select_rows mask l') = select_rows mask (combine l l').
Proof.
  revert l l'. induction mask as [|b m IH]; intros [|x t] [|y t']; cbn [select_rows combine];
    try reflexivity.
  - destruct b; [reflexivity|]. destruct (select_rows m t); reflexivity.
  - destruct b; cbn [combine]; rewrite IH; reflexivity.
Qed.

Lemma select_rows_map_fst {A B : Type} (f : A -> bool) (l : list A) (l' : list B) :
  select_rows (map f l) (combine l l') = filter (fun p => f (fst p)) (combine l l').
Proof.
  revert l'. induction l as [|x t IH]; intros [|y t'];
    cbn [map combine select_rows filter fst]; try reflexivity.
  rewrite IH. destruct (f x); reflexivity.
Qed.

(** The frame the page shows keeps, in their order, exactly the records
    inside the date range whose category is selected and, when some
    manufacturer is selected, whose manufacturer is selected: an empty
    manufacturer selection restricts nothing, an empty category selection
    leaves no record.  The frame keeps its added columns, and every kept
    row keeps its own cell in each of them: the pairs of a record and its
    cell are the pairs of the rows kept. *)
Theorem filter_data_keeps (df : DataFrame) (start_date end_date : Timestamp)
  (selected_categories selected_manufacturers : list string) :
  let shown := filter_data df start_date end_date selected_categories selected_manufacturers in
  exists keep,
    (forall r, keep r = true <->
               start_date <= date r <= end_date /\
               In (vehicle_category r) selected_categories /\
               (selected_manufacturers = [] \/ In (manufacturer r) selected_manufacturers)) /\
    records shown = filter keep (records df) /\
    (selected_categories = [] -> records shown = []) /\
    map fst (derived shown) = map fst (derived df) /\
    Forall2 (fun before after =>
               fst after = fst before /\
               combine (records shown) (snd after)
               = filter (fun rc => keep (fst rc)) (combine (records df) (snd before)) /\
               (List.length (snd before) = List.length (records df) ->
                List.length (snd after) = List.length (records shown)))
            (derived df) (derived shown).
Proof.
  cbv zeta. unfold filter_data, getrows. cbn [records derived].
  set (keep := fun r : RegistrationRecord => _).
  exists keep.
  assert (Hkeep : forall r, keep r = true <->
                    start_date <= date r <= end_date /\
                    In (vehicle_category r) selected_categories /\
                    (selected_manufacturers = [] \/
                     In (manufacturer r) selected_manufacturers)).
  { intros r. subst keep. cbv beta. rewrite !andb_true_iff, !Z.leb_le, isin_In.
    destruct selected_manufacturers as [|m ms].
    - intuition.
    - rewrite isin_In. intuition discriminate. }
  split; [exact Hkeep|]. split; [apply select_rows_map|]. split; [|split].
  - intros ->. rewrite select_rows_map. apply filter_none. intros r _. subst keep. cbv beta.
    simpl isin. rewrite andb_false_r. reflexivity.
  - rewrite map_map. reflexivity.
  - induction (derived df) as [|[label column] rest IH]; cbn [map]; constructor;
      [|exact IH].
    cbn [fst snd]. split; [reflexivity|]. split.
    + rewrite select_rows_combine. apply select_rows_map_fst.
    + intros Hlen. symmetry. apply select_rows_length. symmetry. exact Hlen.
Qed.

(** ** [get_growth_metrics]: what the page can rely on *)

Lemma calculate_growth_zero_previous (current : number) :
  calculate_growth current (Int 0) = Int 0.
Proof. unfold calculate_growth. destruct current; reflexivity. Qed.

Lemma calculate_growth_not_nan (c p : Z) :
  - two63 <= p < two63 -> isna (calculate_growth (Int c) (Int p)) = false.
Proof.
  intros Hp. unfold calculate_growth.
  destruct (num_eqb (Int p) (Int 0)) eqn:E; [reflexivity|].
  assert (Hnz : p <> 0).
  { intros ->. discriminate E. }
  cbn [num_sub num_div num_mul to_float isna].
  apply fmul_not_nan.
  - apply fdiv_not_nan; [apply of_int_not_nan|].
    apply of_int_finite; [exact Hnz | unfold two63, two64 in *; lia].
  - apply of_int_finite; unfold two64; lia.
Qed.

Lemma total_where_range (p : RegistrationRecord -> bool) (rows : list RegistrationRecord) :
  - two63 <= total_where p rows < two63.
Proof. unfold total_where. apply sum64_range. Qed.

(** Whatever the collection, the result holds the eight figures under
    their eight keys, in this order, so that no lookup of [main] fails;
    and no figure is NaN. *)
Theorem growth_metrics_keys_and_values (df : DataFrame) :
  map fst (get_growth_metrics df)
  = ["2w_yoy_growth"; "2w_qoq_growth"; "3w_yoy_growth"; "3w_qoq_growth";
     "4w_yoy_growth"; "4w_qoq_growth"; "total_yoy_growth"; "total_qoq_growth"] /\
  (forall key, In key (map fst (get_growth_metrics df)) ->
               exists v, metric key (get_growth_metrics df) = Ok v /\ isna v = false) /\
  Forall (fun kv => isna (snd kv) = false) (get_growth_metrics df).
Proof.
  unfold get_growth_metrics.
  set (cur := filter _ (records df)).
  set (py := filter _ (records df)).
  set (pq := filter _ (records df)).
  cbn [flat_map List.app lower lower_char map fst].
  assert (Hc : forall p rows c, isna (calculate_growth (Int c) (Int (total_where p rows))) = false).
  { intros p rows c. apply calculate_growth_not_nan, total_where_range. }
  assert (Hs : forall rows c,
             isna (calculate_growth (Int c) (Int (sum64 (map registrations rows)))) = false).
  { intros rows c. apply calculate_growth_not_nan, sum64_range. }
  split; [reflexivity|]. split.
  - intros key Hkey. unfold metric.
    repeat (destruct Hkey as [<- | Hkey];
            [eexists; split; [reflexivity | first [apply Hc | apply Hs]]|]).
    contradiction.
  - repeat constructor; cbn [snd]; first [apply Hc | apply Hs].
Qed.

(** Short histories: when no record is older than 365 days before the
    latest date, the four year-over-year figures are the integer 0; when
    none is older than 90 days, all eight figures are. *)
Theorem growth_metrics_short_history (df : DataFrame) (D : Timestamp) :
  max_of (map date (records df)) = Some D ->
  ((forall r, In r (records df) -> D - 365 <= date r) ->
   forall key,
     In key ["2w_yoy_growth"; "3w_yoy_growth"; "4w_yoy_growth"; "total_yoy_growth"] ->
     metric key (get_growth_metrics df) = Ok (Int 0)) /\
  ((forall r, In r (records df) -> D - 90 <= date r) ->
   Forall (fun kv => snd kv = Int 0) (get_growth_metrics df)).
Proof.
  intros Hmax. unfold get_growth_metrics. rewrite Hmax. cbn [minus_days opt_sub].
  set (cur := filter _ (records df)).
  assert (Hyear : (forall r, In r (records df) -> D - 365 <= date r) ->
            filter (fun r => ts_geb (date r) (Some (D - 365 - 90))
                             && ts_ltb (date r) (Some (D - 365))) (records df) = []).
  { intros H. apply filter_none. intros r Hr. specialize (H r Hr). cbn [ts_geb ts_ltb].
    apply andb_false_iff. right. apply Z.ltb_ge. exact H. }
  assert (Hquarter : (forall r, In r (records df) -> D - 90 <= date r) ->
            filter (fun r => ts_geb (date r) (Some (D - 90 - 90))
                             && ts_ltb (date r) (Some (D - 90))) (records df) = []).
  { intros H. apply filter_none. intros r Hr. specialize (H r Hr). cbn [ts_geb ts_ltb].
    apply andb_false_iff. right. apply Z.ltb_ge. exact H. }
  split.
  - intros H. rewrite (Hyear H).
    cbn [flat_map List.app lower lower_char].
    change (total_where _ []) with 0. change (sum64 (map registrations [])) with 0.
    rewrite !calculate_growth_zero_previous.
    intros key Hkey. unfold metric.
    repeat (destruct Hkey as [<- | Hkey]; [reflexivity|]). contradiction.
  - intros H. rewrite (Hquarter H).
    rewrite Hyear by (intros r Hr; specialize (H r Hr); lia).
    cbn [flat_map List.app lower lower_char].
    change (total_where _ []) with 0. change (sum64 (map registrations [])) with 0.
    rewrite !calculate_growth_zero_previous.
    repeat constructor.
Qed.

Lemma growth_metrics_short_history_witness :
  max_of (map date (records january_frame)) = Some (days_from_civil 2024 1 1) /\
  (forall key,
     In key ["2w_yoy_growth"; "3w_yoy_growth"; "4w_yoy_growth"; "total_yoy_growth"] ->
     metric key (get_growth_metrics january_frame) = Ok (Int 0)) /\
  Forall (fun kv => snd kv = Int 0) (get_growth_metrics january_frame).
Proof.
  assert (Hmax : max_of (map date (records january_frame)) = Some (days_from_civil 2024 1 1))
    by reflexivity.
  assert (Hall : forall r, In r (records january_frame) ->
                           date r = days_from_civil 2024 1 1).
  { intros r [<- | [<- | []]]; reflexivity. }
  split; [exact Hmax|].
  destruct (growth_metrics_short_history january_frame _ Hmax) as [H1 H2].
  split; [apply H1 | apply H2]; intros r Hr; rewrite (Hall r Hr); lia.
Defined.

(** ** [identify_growth_leaders]: when it fails *)

Lemma leaders_of_nil_iff kind field rows cur prev :
  leaders_of kind field rows cur prev = []
  <-> forall r, In r rows ->
                total_where (fun x => String.eqb (field x) (field r)) prev <= 0.
Proof.
  split.
  - intros Hnil r Hr.
    destruct (Z.le_gt_cases
                (total_where (fun x => String.eqb (field x) (field r)) prev) 0)
      as [Hle | Hgt]; [exact Hle|].
    assert (Hin : In (leader_entry kind field cur prev (field r))
                     (leaders_of kind field rows cur prev)).
    { apply leaders_of_In. cbn [Name Previous leader_entry].
      split; [apply in_map, Hr|]. split; [lia | reflexivity]. }
    rewrite Hnil in Hin. contradiction.
  - intros H. destruct (leaders_of kind field rows cur prev) as [|g gs] eqn:E;
      [reflexivity|].
    assert (Hin : In g (leaders_of kind field rows cur prev)) by (rewrite E; left; reflexivity).
    apply leaders_of_In in Hin. destruct Hin as [Hname [Hpos Hg]].
    apply in_map_iff in Hname. destruct Hname as [r [Hr Hin]].
    specialize (H r Hin). rewrite Hr in H. rewrite Hg in Hpos. cbn [Previous leader_entry] in Hpos.
    lia.
Qed.

(** The call fails in three ways.  With a period other than "YoY" and
    "QoQ" it raises [UnboundLocalError], or [KeyError 'Growth_Rate'] on a
    collection without records.  With a valid period it raises
    [KeyError 'Growth_Rate'] exactly when no manufacturer and no category
    has a strictly positive total in the previous window, and returns a
    ranking otherwise.  In particular the year-over-year ranking of a
    collection whose records all lie in one calendar year is an error. *)
Theorem growth_leaders_failures (df : DataFrame) (period : string) :
  (period <> "YoY" -> period <> "QoQ" ->
   identify_growth_leaders df period
   = Err (match records df with
          | [] => KeyError "Growth_Rate"
          | _ :: _ => UnboundLocalError "current_data"
          end)) /\
  (forall current_data previous_data,
      growth_windows (records df) period = Some (current_data, previous_data) ->
      (identify_growth_leaders df period = Err (KeyError "Growth_Rate")
       <-> forall r, In r (records df) ->
             total_where (fun x => String.eqb (manufacturer x) (manufacturer r)) previous_data
             <= 0 /\
             total_where (in_category (vehicle_category r)) previous_data <= 0) /\
      (identify_growth_leaders df period <> Err (KeyError "Growth_Rate") ->
       exists ranking, identify_growth_leaders df period = Ok ranking /\ ranking <> [])) /\
  ((forall r r', In r (records df) -> In r' (records df) ->
                 dt_year (date r) = dt_year (date r')) ->
   identify_growth_leaders df "YoY" = Err (KeyError "Growth_Rate")).
Proof.
  split; [|split].
  - intros H1 H2. unfold identify_growth_leaders, growth_windows.
    apply String.eqb_neq in H1, H2. rewrite H1, H2.
    destruct (records df); reflexivity.
  - intros cur prev Hw. unfold identify_growth_leaders. rewrite Hw.
    set (leaders := (leaders_of "Manufacturer" manufacturer (records df) cur prev
                     ++ leaders_of "Category" vehicle_category (records df) cur prev)%list).
    assert (Hnil : leaders = [] <->
              forall r, In r (records df) ->
                total_where (fun x => String.eqb (manufacturer x) (manufacturer r)) prev <= 0 /\
                total_where (in_category (vehicle_category r)) prev <= 0).
    { subst leaders. split.
      - intros H. apply app_eq_nil in H. destruct H as [Hm Hc].
        intros r Hr. split.
        + apply (proj1 (leaders_of_nil_iff _ _ _ _ _) Hm r Hr).
        + apply (proj1 (leaders_of_nil_iff _ _ _ _ _) Hc r Hr).
      - intros H.
        rewrite (proj2 (leaders_of_nil_iff "Manufacturer" manufacturer (records df) cur prev))
          by (intros r Hr; apply (H r Hr)).
        rewrite (proj2 (leaders_of_nil_iff "Category" vehicle_category (records df) cur prev))
          by (intros r Hr; apply (H r Hr)).
        reflexivity. }
    rewrite <- Hnil.
    destruct leaders as [|g gs] eqn:E.
    + split; [split; reflexivity|]. intros H. congruence.
    + split; [split; discriminate|]. intros _. eexists. split; [reflexivity|].
      intros Hs.
      assert (Hp := sort_desc_perm growth_rate_value (g :: gs)).
      rewrite Hs in Hp. apply Permutation_nil in Hp. discriminate.
  - intros Hsame. unfold identify_growth_leaders, growth_windows. simpl String.eqb.
    cbv beta iota.
    set (y := max_of (map (fun r => dt_year (date r)) (records df))).
    assert (Hprev : filter (fun r => eq_opt (dt_year (date r)) (opt_sub y 1)) (records df)
                    = []).
    { apply filter_none. intros r Hr. subst y.
      destruct (max_of_spec (map (fun r => dt_year (date r)) (records df)))
        as [m [Hm [Hin _]]].
      { destruct (records df); [contradiction | discriminate]. }
      rewrite Hm. simpl. apply in_map_iff in Hin. destruct Hin as [r' [<- Hr']].
      rewrite (Hsame r r' Hr Hr'). apply Z.eqb_neq. lia. }
    rewrite Hprev, !leaders_of_no_previous. reflexivity.
Qed.

Lemma growth_leaders_failures_witness :
  identify_growth_leaders two_year_frame "monthly" = Err (UnboundLocalError "current_data") /\
  identify_growth_leaders empty_frame "monthly" = Err (KeyError "Growth_Rate") /\
  identify_growth_leaders uniform_year_frame "YoY" = Err (KeyError "Growth_Rate").
Proof.
  split; [|split].
  - apply (proj1 (growth_leaders_failures two_year_frame "monthly")); discriminate.
  - apply (proj1 (growth_leaders_failures empty_frame "monthly")); discriminate.
  - apply (proj2 (proj2 (growth_leaders_failures uniform_year_frame "YoY"))).
    intros r r' Hr Hr'. cbn [records uniform_year_frame map] in Hr, Hr'.
    assert (H : forall x, In x (records uniform_year_frame) -> dt_year (date x) = 2024).
    { intros x Hx. cbn [records uniform_year_frame map] in Hx.
      repeat (destruct Hx as [<- | Hx]; [reflexivity|]). contradiction. }
    rewrite (H r), (H r'); [reflexivity | |]; assumption.
Defined.

(** ** [get_seasonal_patterns] on a collection that covers the year *)

Lemma increasing_keys_unique {K A B : Type} (cmp : K -> K -> comparison)
  (O : total_order cmp) (l : list (K * A)) (l' : list (K * B)) :
  keys_increasing cmp l -> keys_increasing cmp l' ->
  (forall k, In k (map fst l) <-> In k (map fst l')) ->
  map fst l = map fst l'.
Proof.
  assert (Hrefl : forall k, cmp k k = Eq) by (intros k; apply (cmp_eq cmp O); reflexivity).
  unfold keys_increasing. intros Hl. revert l'.
  induction Hl as [|[k a] t Ht IH Hall]; intros l' Hl' Hsame.
  - destruct l' as [|[k' b] t']; [reflexivity|].
    exfalso. apply (proj2 (Hsame k')). left. reflexivity.
  - destruct Hl' as [|[k' b] t' Ht' Hall'].
    + exfalso. apply (proj1 (Hsame k)). left. reflexivity.
    + rewrite Forall_forall in Hall, Hall'. cbn [map fst] in *.
      assert (Hk : k = k').
      { destruct (proj1 (Hsame k) (or_introl eq_refl)) as [E | Hin]; [congruence|].
        destruct (proj2 (Hsame k') (or_introl eq_refl)) as [E | Hin']; [congruence|].
        apply in_map_iff in Hin. destruct Hin as [[k1 b1] [E1 Hin]].
        apply in_map_iff in Hin'. destruct Hin' as [[k2 a2] [E2 Hin']].
        specialize (Hall' _ Hin). specialize (Hall _ Hin'). cbn [fst] in *. subst k1 k2.
        pose proof (cmp_lt_trans cmp O _ _ _ Hall Hall') as Habs.
        rewrite Hrefl in Habs. discriminate. }
      subst k'. f_equal. apply IH; [exact Ht'|].
      intros x. split; intros Hx.
      * destruct (proj1 (Hsame x) (or_intror Hx)) as [E | Hin]; [|exact Hin].
        subst x. apply in_map_iff in Hx. destruct Hx as [[k1 a1] [E1 Hin]].
        specialize (Hall _ Hin). cbn [fst] in *. subst k1.
        rewrite Hrefl in Hall. discriminate.
      * destruct (proj2 (Hsame x) (or_intror Hx)) as [E | Hin]; [|exact Hin].
        subst x. apply in_map_iff in Hx. destruct Hx as [[k1 b1] [E1 Hin]].
        specialize (Hall' _ Hin). cbn [fst] in *. subst k1.
        rewrite Hrefl in Hall'. discriminate.
Qed.

Lemma keyed_list_eq {K A : Type} (f : K -> A) (l : list (K * A)) :
  (forall k a, In (k, a) l -> a = f k) -> l = map (fun k => (k, f k)) (map fst l).
Proof.
  induction l as [|[k a] t IH]; intros H; simpl; [reflexivity|].
  rewrite (H k a) by (left; reflexivity). f_equal.
  apply IH. intros k' a' Hin. apply H. right. exact Hin.
Qed.

Lemma mean_step_fold (vs : list Z) (s c : float64) (n : Z) :
  fst (fst (fold_left kahan_step vs (s, c, n))) = compensated_sum vs s c /\
  snd (fold_left kahan_step vs (s, c, n)) = n + Z.of_nat (List.length vs).
Proof.
  revert s c n. induction vs as [|v t IH]; intros s c n.
  - cbn [fold_left compensated_sum fst snd List.length]. split; [reflexivity | lia].
  - cbn [fold_left compensated_sum].
    change (kahan_step (s, c, n) v)
      with (fadd s (fsub (of_int v) c),
            (if is_nan (fsub (fsub (fadd s (fsub (of_int v) c)) s) (fsub (of_int v) c))
             then S754_zero false
             else fsub (fsub (fadd s (fsub (of_int v) c)) s) (fsub (of_int v) c)),
            n + 1).
    destruct (IH (fadd s (fsub (of_int v) c))
                 (if is_nan (fsub (fsub (fadd s (fsub (of_int v) c)) s) (fsub (of_int v) c))
                  then S754_zero false
                  else fsub (fsub (fadd s (fsub (of_int v) c)) s) (fsub (of_int v) c))
                 (n + 1)) as [H1 H2].
    split; [exact H1|].
    etransitivity; [exact H2|]. simpl List.length. lia.
Qed.

Lemma mean_of_fold (vs : list Z) :
  fdiv (fst (fst (fold_left kahan_step vs (S754_zero false, S754_zero false, 0))))
       (of_int (snd (fold_left kahan_step vs (S754_zero false, S754_zero false, 0))))
  = float_mean vs.
Proof.
  destruct (mean_step_fold vs (S754_zero false) (S754_zero false) 0) as [H1 H2].
  unfold float_mean. f_equal; [exact H1 | f_equal; exact H2].
Qed.

Lemma values_of_month (m : Z) (rows : list RegistrationRecord) :
  values_of cell_compare (CInt m)
            (map (fun r => (CInt (dt_month (date r)), registrations r)) rows)
  = month_values m rows.
Proof.
  unfold values_of, month_values. induction rows as [|r t IH]; simpl; [reflexivity|].
  rewrite Z.eqb_compare.
  destruct (dt_month (date r) ?= m); simpl; rewrite IH; reflexivity.
Qed.

(** The monthly means of a collection that has a record in every
    calendar month. *)
Lemma monthly_means_full_coverage (rows : list RegistrationRecord) :
  (forall m, In m calendar_months -> exists r, In r rows /\ dt_month (date r) = m) ->
  groupby_mean cell_compare (map (fun r => (CInt (dt_month (date r)), registrations r)) rows)
  = map (fun m => (CInt m, float_mean (month_values m rows))) calendar_months.
Proof.
  intros Hcover. unfold groupby_mean.
  set (step := kahan_step).
  set (init := (S754_zero false, S754_zero false, 0)).
  set (data := map (fun r => (CInt (dt_month (date r)), registrations r)) rows).
  set (acc := group_fold cell_compare step init data).
  assert (Hinc : keys_increasing cell_compare acc)
    by apply (group_fold_increasing cell_compare cell_compare_order).
  assert (Hkeys : map fst acc = map CInt calendar_months).
  { replace (map CInt calendar_months)
      with (map fst (map (fun m => (CInt m, tt)) calendar_months))
      by (rewrite map_map; reflexivity).
    apply (increasing_keys_unique cell_compare cell_compare_order); [exact Hinc| |].
    - unfold keys_increasing, calendar_months. cbn [map].
      repeat (constructor; [|repeat constructor]). constructor.
    - intros k. rewrite map_map. cbn [fst]. split; intros Hk.
      + apply (group_fold_keys cell_compare cell_compare_order) in Hk.
        subst data. rewrite map_map in Hk. cbn [fst] in Hk.
        apply in_map_iff in Hk. destruct Hk as [r [<- Hr]].
        apply in_map, in_calendar_months, dt_month_range.
      + apply in_map_iff in Hk. destruct Hk as [m [<- Hm]].
        destruct (Hcover m Hm) as [r [Hr Hmr]].
        apply in_map_iff.
        exists (CInt m, fold_left step (values_of cell_compare (CInt m) data) init).
        split; [reflexivity|].
        apply (group_fold_In cell_compare cell_compare_order). split; [|reflexivity].
        subst data. rewrite map_map. cbn [fst]. apply in_map_iff.
        exists r. split; [rewrite Hmr; reflexivity | exact Hr]. }
  rewrite (keyed_list_eq
             (fun k => fold_left step (values_of cell_compare k data) init)
             acc).
  2: { intros k a Hin. apply (group_fold_In cell_compare cell_compare_order) in Hin.
       apply Hin. }
  rewrite Hkeys, !map_map. apply map_ext. intros m. cbn [fst snd].
  subst data. rewrite values_of_month. subst step init. rewrite mean_of_fold.
  reflexivity.
Qed.

(** On a collection with a record in every calendar month the call
    returns twelve rows, January to December; a row carries the mean of
    the registrations of the records of its month and, as seasonal index,
    that mean over the mean of the twelve monthly means, times 100,
    rounded to one decimal. *)
Theorem seasonal_patterns_full_coverage (df : DataFrame) :
  (forall m, In m calendar_months ->
             exists r, In r (records df) /\ dt_month (date r) = m) ->
  let mean_of m := float_mean (month_values m (records df)) in
  let overall := mean_float (map mean_of calendar_months) in
  snd (get_seasonal_patterns df)
  = Ok (map (fun nm =>
               mkSeasonal (fst nm) (mean_of (snd nm))
                 (round_float 1 (fmul (fdiv (mean_of (snd nm)) overall) (of_int 100))))
            (combine month_names calendar_months)).
Proof.
  intros Hcover. cbv zeta. unfold get_seasonal_patterns.
  rewrite getitem_month_assigned.
  replace (records (setitem "month" (month_column df) df)) with (records df) by reflexivity.
  unfold month_column. rewrite combine_map.
  rewrite (monthly_means_full_coverage (records df) Hcover).
  reflexivity.
Qed.

Lemma seasonal_patterns_full_coverage_witness :
  let mean_of m := float_mean (month_values m (records uniform_year_frame)) in
  let overall := mean_float (map mean_of calendar_months) in
  snd (get_seasonal_patterns uniform_year_frame)
  = Ok (map (fun nm =>
               mkSeasonal (fst nm) (mean_of (snd nm))
                 (round_float 1 (fmul (fdiv (mean_of (snd nm)) overall) (of_int 100))))
            (combine month_names calendar_months)).
Proof.
  apply (seasonal_patterns_full_coverage uniform_year_frame).
  intros m Hm. exists (sample 2024 m 1 "2W" "Honda" 7).
  unfold calendar_months in Hm. simpl in Hm.
  repeat (destruct Hm as [<- | Hm];
          [split; [cbn [records uniform_year_frame map In];
                   repeat first [left; reflexivity | right]
                 | vm_compute; reflexivity]|]).
  contradiction.
Defined.

(** ** [create_heatmap_analysis] *)

Lemma zip_with_map_l {A B C : Type} (f : B -> A -> C) (g : A -> B) (l : list A) :
  zip_with f (map g l) l = map (fun x => f (g x) x) l.
Proof. induction l; simpl; congruence. Qed.

Lemma lookup_key_find (k : list cell) (l : list (list cell * Z)) :
  lookup_key k l = find_key key_compare k l.
Proof. induction l as [|[k' v] t IH]; simpl; [reflexivity|]. rewrite IH. reflexivity. Qed.

Lemma StronglySorted_filter {A : Type} (R : A -> A -> Prop) (f : A -> bool) (l : list A) :
  StronglySorted R l -> StronglySorted R (filter f l).
Proof.
  induction 1 as [|a l Hl IH Hall]; simpl; [constructor|].
  destruct (f a); [|exact IH]. constructor; [exact IH|].
  rewrite Forall_forall in *. intros x Hx. apply filter_In in Hx. apply Hall, Hx.
Qed.

Lemma sorted_keys_spec {K : Type} (cmp : K -> K -> comparison) (O : total_order cmp)
  (l : list K) :
  StronglySorted (fun a b => cmp a b = Lt) (sorted_keys cmp l) /\
  (forall k, In k (sorted_keys cmp l) <-> In k l).
Proof.
  unfold sorted_keys.
  set (acc := group_fold cmp _ tt _).
  assert (Hinc : keys_increasing cmp acc) by apply (group_fold_increasing cmp O).
  split.
  - unfold keys_increasing in Hinc.
    induction Hinc as [|a t Ht IH Hall]; simpl; constructor; [exact IH|].
    rewrite Forall_forall in *. intros x Hx. apply in_map_iff in Hx.
    destruct Hx as [y [<- Hy]]. apply Hall, Hy.
  - intros k. split; intros Hk.
    + apply (group_fold_keys cmp O) in Hk. rewrite map_map, map_id in Hk. exact Hk.
    + apply in_map_iff. exists (k, tt). split; [reflexivity|].
      apply (group_fold_In cmp O). split.
      * rewrite map_map, map_id. exact Hk.
      * destruct (fold_left _ _ tt). reflexivity.
Qed.

Lemma months_present_keys (rows : list RegistrationRecord) :
  sorted_keys cell_compare (map (fun r => CInt (dt_month (date r))) rows)
  = map CInt (filter (fun m => existsb (fun r => dt_month (date r) =? m) rows)
                     calendar_months).
Proof.
  set (present := filter _ calendar_months).
  destruct (sorted_keys_spec cell_compare cell_compare_order
              (map (fun r => CInt (dt_month (date r))) rows)) as [Hs Hin].
  set (keys := sorted_keys cell_compare _) in *.
  replace keys with (map fst (map (fun k => (k, tt)) keys))
    by (rewrite map_map; apply map_id).
  replace (map CInt present) with (map fst (map (fun m => (CInt m, tt)) present))
    by (rewrite map_map; reflexivity).
  apply (increasing_keys_unique cell_compare cell_compare_order).
  - unfold keys_increasing. clear Hin.
    induction Hs as [|a t Ht IH Hall]; simpl; constructor; [exact IH|].
    rewrite Forall_forall in *. intros x Hx. apply in_map_iff in Hx.
    destruct Hx as [y [<- Hy]]. apply Hall, Hy.
  - assert (Hp : StronglySorted Z.lt present).
    { apply StronglySorted_filter. unfold calendar_months.
      repeat (constructor; [|repeat constructor; lia]). constructor. }
    unfold keys_increasing.
    induction Hp as [|a t Ht IH Hall]; simpl; constructor; [exact IH|].
    rewrite Forall_forall in *. intros x Hx. apply in_map_iff in Hx.
    destruct Hx as [y [<- Hy]]. cbn [fst cell_compare]. apply Z.compare_lt_iff, Hall, Hy.
  - intros k. rewrite !map_map. cbn [fst]. rewrite map_id, Hin. split; intros Hk.
    + apply in_map_iff in Hk. destruct Hk as [r [<- Hr]]. apply in_map.
      apply filter_In. split; [apply in_calendar_months, dt_month_range|].
      apply existsb_exists. exists r. split; [exact Hr | apply Z.eqb_refl].
    + apply in_map_iff in Hk. destruct Hk as [m [<- Hm]].
      apply filter_In in Hm. destruct Hm as [_ Hm].
      apply existsb_exists in Hm. destruct Hm as [r [Hr E]].
      apply Z.eqb_eq in E. subst m. apply in_map_iff. exists r. auto.
Qed.

Lemma values_of_month_category (m : Z) (c : string) (rows : list RegistrationRecord) :
  values_of key_compare [CInt m; CStr c]
    (map (fun r => ([CInt (dt_month (date r)); CStr (vehicle_category r)], registrations r))
         rows)
  = map registrations (filter (in_month_category m c) rows).
Proof.
  unfold values_of, in_month_category.
  induction rows as [|r t IH]; [reflexivity|].
  cbn [map filter fst snd key_compare cell_compare].
  rewrite Z.eqb_compare, <- (string_compare_eqb (vehicle_category r) c).
  destruct (dt_month (date r) ?= m); cbn [andb];
    [destruct (String.compare (vehicle_category r) c)| |];
    cbn [map]; rewrite IH; reflexivity.
Qed.

(** The heatmap has one row for every calendar month with a record, in
    calendar order and under the month's name, and in each row one cell
    for every category of the collection, in alphabetical order; the cell
    of a month and a category is empty when no record has both, and holds
    their total otherwise. *)
Theorem heatmap_cells (df : DataFrame) :
  let rows := records df in
  let months_present :=
    filter (fun m => existsb (fun r => dt_month (date r) =? m) rows) calendar_months in
  let categories := sorted_keys String.compare (map vehicle_category rows) in
  snd (create_heatmap_analysis df)
  = map (fun m =>
           (month_name m,
            map (fun c => (c, if existsb (in_month_category m c) rows
                              then Some (total_where (in_month_category m c) rows)
                              else None))
                categories))
        months_present /\
  StronglySorted (fun a b => String.compare a b = Lt) categories /\
  (forall c, In c categories <-> In c (map vehicle_category rows)).
Proof.
  cbv zeta. split; [|apply (sorted_keys_spec String.compare string_compare_order)].
  unfold create_heatmap_analysis. cbn [snd].
  rewrite getitem_month_assigned.
  replace (records (setitem "month" (month_column df) df)) with (records df) by reflexivity.
  unfold month_column.
  rewrite months_present_keys, map_map.
  apply map_ext. intros m. f_equal.
  apply map_ext. intros c. f_equal.
  rewrite lookup_key_find, zip_with_map_l, combine_map.
  unfold groupby_sum.
  rewrite (find_group_fold key_compare key_compare_order), values_of_month_category.
  unfold total_where, sum64.
  induction (records df) as [|r t IH]; simpl; [reflexivity|].
  destruct (in_month_category m c r); simpl; [reflexivity | exact IH].
Qed.

(** ** The footprint of the calls that assign columns *)

Lemma assoc_get_set_other {V : Type} (k k' : string) (v : V) (l : list (string * V)) :
  k' <> k -> assoc_get k' (assoc_set k v l) = assoc_get k' l.
Proof.
  intros Hne. apply String.eqb_neq in Hne.
  induction l as [|[k0 v0] t IH]; simpl.
  - rewrite Hne. reflexivity.
  - destruct (String.eqb k k0) eqn:E; simpl.
    + apply String.eqb_eq in E. subst k0. rewrite Hne. reflexivity.
    + rewrite IH. reflexivity.
Qed.

Lemma assoc_set_twice {V : Type} (k : string) (v w : V) (l : list (string * V)) :
  assoc_set k w (assoc_set k v l) = assoc_set k w l.
Proof.
  induction l as [|[k0 v0] t IH]; simpl.
  - rewrite String.eqb_refl. reflexivity.
  - destruct (String.eqb k k0) eqn:E; simpl.
    + rewrite String.eqb_refl. reflexivity.
    + rewrite E, IH. reflexivity.
Qed.

Lemma getitem_setitem_month (df : DataFrame) (column : list cell) (label : string) :
  label <> "month" -> getitem label (setitem "month" column df) = getitem label df.
Proof.
  intros Hne. unfold setitem, getitem. cbn [String.eqb Ascii.eqb Bool.eqb records derived].
  rewrite (assoc_get_set_other "month" label column (derived df) Hne). reflexivity.
Qed.

Lemma setitem_month_twice (df : DataFrame) (column column' : list cell) :
  setitem "month" column' (setitem "month" column df) = setitem "month" column' df.
Proof.
  unfold setitem. cbn [String.eqb Ascii.eqb Bool.eqb records derived].
  rewrite assoc_set_twice. reflexivity.
Qed.

Lemma zip_with_map2 {A B C D : Type} (f : B -> C -> D) (g : A -> B) (h : A -> C)
  (l : list A) :
  zip_with f (map g l) (map h l) = map (fun x => f (g x) (h x)) l.
Proof. induction l; simpl; congruence. Qed.

Lemma quarterly_comparison_closed (df : DataFrame) :
  create_quarterly_comparison df
  = (mkFrame (map (fun r => set_quarter r (CInt (dt_quarter (date r)))) (records df))
             (assoc_set "year_quarter"
                (map (fun r => CStr (str_of_Z (dt_year (date r)) ++ "-Q"
                                     ++ str_of_Z (dt_quarter (date r))))
                     (records df))
                (derived df)),
     groupby_sum key_compare
       (map (fun r => ([CStr (str_of_Z (dt_year (date r)) ++ "-Q"
                             ++ str_of_Z (dt_quarter (date r)));
                        CStr (vehicle_category r)], registrations r))
            (records df))).
Proof.
  unfold create_quarterly_comparison, setitem.
  cbn [String.eqb Ascii.eqb Bool.eqb records derived].
  unfold getitem. cbn [String.eqb Ascii.eqb Bool.eqb records derived].
  rewrite assoc_get_set.
  rewrite !zip_with_map, !map_map.
  cbn [date vehicle_category registrations quarter set_quarter str_of_cell].
  f_equal. f_equal. rewrite zip_with_map2, combine_map. reflexivity.
Qed.

(** What the three calls never touch: [get_seasonal_patterns] and
    [create_heatmap_analysis] leave every column but [month] as it was,
    [create_quarterly_comparison] every column but [quarter] and
    [year_quarter], and none changes the number of rows.  Calling one of
    them again on the frame it left changes nothing more and gives the
    same result. *)
Theorem analysis_calls_footprint (df : DataFrame) :
  (forall label, label <> "month" ->
     getitem label (fst (get_seasonal_patterns df)) = getitem label df /\
     getitem label (fst (create_heatmap_analysis df)) = getitem label df) /\
  (forall label, label <> "quarter" -> label <> "year_quarter" ->
     getitem label (fst (create_quarterly_comparison df)) = getitem label df) /\
  (List.length (records (fst (get_seasonal_patterns df))) = List.length (records df) /\
   List.length (records (fst (create_heatmap_analysis df))) = List.length (records df) /\
   List.length (records (fst (create_quarterly_comparison df))) = List.length (records df)) /\
  get_seasonal_patterns (fst (get_seasonal_patterns df)) = get_seasonal_patterns df /\
  create_heatmap_analysis (fst (create_heatmap_analysis df)) = create_heatmap_analysis df /\
  create_quarterly_comparison (fst (create_quarterly_comparison df))
  = create_quarterly_comparison df.
Proof.
  split; [|split; [|split; [|split; [|split]]]].
  - intros label Hne. rewrite seasonal_patterns_frame, heatmap_analysis_frame.
    split; apply getitem_setitem_month, Hne.
  - intros label H1 H2.
    apply String.eqb_neq in H1. unfold getitem.
    rewrite quarterly_comparison_closed. cbn [fst records derived]. rewrite !map_map.
    rewrite H1. cbn [date vehicle_category vehicle_class manufacturer state rto
                          registrations year set_quarter].
    rewrite (assoc_get_set_other "year_quarter" label _ (derived df) H2). reflexivity.
  - rewrite seasonal_patterns_frame, heatmap_analysis_frame, quarterly_comparison_closed.
    cbn [fst records]. rewrite length_map. repeat split; reflexivity.
  - rewrite seasonal_patterns_frame. unfold get_seasonal_patterns.
    replace (month_column (setitem "month" (month_column df) df)) with (month_column df)
      by reflexivity.
    rewrite setitem_month_twice. reflexivity.
  - rewrite heatmap_analysis_frame. unfold create_heatmap_analysis.
    replace (month_column (setitem "month" (month_column df) df)) with (month_column df)
      by reflexivity.
    rewrite setitem_month_twice. reflexivity.
  - rewrite (quarterly_comparison_closed df). cbn [fst].
    rewrite quarterly_comparison_closed. cbn [records derived].
    rewrite !map_map, assoc_set_twice.
    cbn [date vehicle_category registrations set_quarter]. reflexivity.
Qed.

(** ** Grouped totals over a composite key *)

Lemma grouped_totals_In {K : Type} (cmp : K -> K -> comparison) (O : total_order cmp)
  (key : RegistrationRecord -> K) (rows : list RegistrationRecord) (k : K) (t : Z) :
  In (k, t) (groupby_sum cmp (map (fun r => (key r, registrations r)) rows))
  <-> In k (map key rows) /\
      t = total_where (fun r => match cmp (key r) k with Eq => true | _ => false end) rows.
Proof.
  unfold groupby_sum. rewrite (group_fold_In cmp O), map_map. cbn [fst].
  assert (Hv : values_of cmp k (map (fun r => (key r, registrations r)) rows)
               = map registrations
                     (filter (fun r => match cmp (key r) k with Eq => true | _ => false end)
                             rows)).
  { unfold values_of. induction rows as [|r rest IH]; [reflexivity|].
    cbn [map filter fst]. destruct (cmp (key r) k); cbn [map snd]; rewrite IH; reflexivity. }
  rewrite Hv. reflexivity.
Qed.

Lemma grouped_totals_NoDup {K : Type} (cmp : K -> K -> comparison) (O : total_order cmp)
  (rows : list (K * Z)) :
  NoDup (map fst (groupby_sum cmp rows)).
Proof.
  apply (keys_increasing_NoDup cmp O), (group_fold_increasing cmp O).
Qed.

Lemma total_where_ext (p q : RegistrationRecord -> bool) (rows : list RegistrationRecord) :
  (forall r, In r rows -> p r = q r) -> total_where p rows = total_where q rows.
Proof. intros H. unfold total_where. rewrite (filter_ext_in p q rows H). reflexivity. Qed.

(** ** [create_quarterly_comparison] *)

(** The quarterly chart has one bar for every pair of a quarter label
    "<year>-Q<quarter number>" and a category that some record has, in
    increasing order of label and category, carrying the total of the
    records of that label and category; the bars add up to the total of
    the collection.  The labels come from the dates alone, whatever the
    [quarter] column held before the call. *)
Theorem quarterly_comparison_bars (df : DataFrame) :
  let rows := records df in
  let bars := snd (create_quarterly_comparison df) in
  (forall k t,
      In (k, t) bars <->
      exists r, In r rows /\
                k = [CStr (quarter_label r); CStr (vehicle_category r)] /\
                t = total_where (same_quarter_category r) rows) /\
  keys_increasing key_compare bars /\
  sum64 (map snd bars) = sum64 (map registrations rows).
Proof.
  cbv zeta. rewrite quarterly_comparison_closed. cbn [snd].
  fold quarter_label.
  change (map (fun r => ([CStr (str_of_Z (dt_year (date r)) ++ "-Q"
                                ++ str_of_Z (dt_quarter (date r)));
                          CStr (vehicle_category r)], registrations r)) (records df))
    with (map (fun r => ([CStr (quarter_label r); CStr (vehicle_category r)],
                         registrations r)) (records df)).
  split; [|split].
  - intros k t.
    rewrite (grouped_totals_In key_compare key_compare_order
               (fun r => [CStr (quarter_label r); CStr (vehicle_category r)])).
    split.
    + intros [Hk Ht]. apply in_map_iff in Hk. destruct Hk as [r [<- Hr]].
      exists r. split; [exact Hr|]. split; [reflexivity|]. rewrite Ht.
      apply total_where_ext. intros x _. unfold same_quarter_category.
      cbn [key_compare cell_compare].
      rewrite <- (string_compare_eqb (quarter_label x) (quarter_label r)).
      rewrite <- (string_compare_eqb (vehicle_category x) (vehicle_category r)).
      destruct (String.compare (quarter_label x) (quarter_label r)); try reflexivity.
      destruct (String.compare (vehicle_category x) (vehicle_category r)); reflexivity.
    + intros [r [Hr [-> ->]]]. split.
      * apply in_map_iff. exists r. split; [reflexivity | exact Hr].
      * apply total_where_ext. intros x _. unfold same_quarter_category.
        cbn [key_compare cell_compare].
        rewrite <- (string_compare_eqb (quarter_label x) (quarter_label r)).
        rewrite <- (string_compare_eqb (vehicle_category x) (vehicle_category r)).
        destruct (String.compare (quarter_label x) (quarter_label r)); try reflexivity.
        destruct (String.compare (vehicle_category x) (vehicle_category r)); reflexivity.
  - apply (group_fold_increasing key_compare key_compare_order).
  - rewrite groupby_sum_mass, map_map. reflexivity.
Qed.

(** ** [create_trend_chart] *)

Lemma first_day_round_trip_400 :
  forallb (fun yoe => forallb (first_day_round_trip yoe) calendar_months)
          (map Z.of_nat (seq 0 400)) = true.
Proof. vm_compute. reflexivity. Qed.

Lemma first_day_round_trip_ok (yoe m : Z) :
  0 <= yoe < 400 -> 1 <= m <= 12 -> first_day_round_trip yoe m = true.
Proof.
  intros Hy Hm. pose proof first_day_round_trip_400 as H.
  rewrite forallb_forall in H.
  specialize (H yoe). rewrite forallb_forall in H. apply H.
  - apply in_map_iff. exists (Z.to_nat yoe). split; [lia|]. apply in_seq. lia.
  - apply in_calendar_months, Hm.
Qed.

(** The calendar round trip on the first day of a month. *)
Lemma civil_from_days_first (y m : Z) :
  1 <= m <= 12 -> civil_from_days (days_from_civil y m 1) = (y, m, 1).
Proof.
  intros Hm. unfold days_from_civil.
  set (y' := if m <=? 2 then y - 1 else y).
  set (era := y' / 400).
  set (yoe := y' - era * 400).
  assert (Hyoe : 0 <= yoe < 400) by (subst yoe era; Z.div_mod_to_equations; lia).
  pose proof (first_day_round_trip_ok yoe m Hyoe Hm) as Hc.
  unfold first_day_round_trip in Hc.
  set (doy := (153 * (if 2 <? m then m - 3 else m + 9) + 2) / 5 + 1 - 1) in *.
  set (doe := yoe * 365 + yoe / 4 - yoe / 100 + doy) in *.
  cbv zeta in Hc. rewrite !andb_true_iff in Hc.
  destruct Hc as [[[[H0 H1] H2] H3] H4].
  apply Z.leb_le in H0. apply Z.ltb_lt in H1.
  apply Z.eqb_eq in H2, H3, H4.
  unfold civil_from_days.
  replace (era * 146097 + doe - 719468 + 719468) with (doe + era * 146097) by ring.
  rewrite Z.div_add by lia. rewrite (Z.div_small doe 146097) by lia.
  replace (doe + era * 146097 - (0 + era) * 146097) with doe by ring.
  cbv zeta. rewrite H4, H3, H2.
  f_equal. f_equal. subst yoe y'.
  destruct (m <=? 2); ring.
Qed.

Lemma month_start_civil (t : Timestamp) :
  civil_from_days (month_start t) = (dt_year t, dt_month t, 1).
Proof. apply civil_from_days_first, dt_month_range. Qed.

Lemma period_month_start (t : Timestamp) :
  period_to_timestamp (to_period_M t) = month_start t.
Proof.
  unfold period_to_timestamp, to_period_M, month_start.
  pose proof (dt_month_range t) as Hm.
  replace ((dt_year t - 1970) * 12 + (dt_month t - 1))
    with ((dt_month t - 1) + (dt_year t - 1970) * 12) by ring.
  rewrite Z.div_add, Z.mod_add by lia.
  rewrite Z.div_small, Z.mod_small by lia.
  f_equal; ring.
Qed.

Lemma to_period_M_eqb (t t' : Timestamp) :
  (to_period_M t ?= to_period_M t') = Eq
  <-> dt_year t = dt_year t' /\ dt_month t = dt_month t'.
Proof.
  rewrite Z.compare_eq_iff. unfold to_period_M.
  pose proof (dt_month_range t). pose proof (dt_month_range t'). lia.
Qed.

(** The trend chart has one point for every pair of a calendar month and
    a category that some record has.  The point is dated the first day of
    that month (its year and month are those of the records, its day is
    1) and carries the total of the records of that month and category;
    no two points share date and category, and the points add up to the
    total of the collection. *)
Theorem trend_chart_points (df : DataFrame) :
  let rows := records df in
  let points := create_trend_chart df in
  (forall k t,
      In (k, t) points <->
      exists r, In r rows /\
                k = [CDate (month_start (date r)); CStr (vehicle_category r)] /\
                t = total_where (same_month_category r) rows) /\
  (forall r, civil_from_days (month_start (date r))
             = (dt_year (date r), dt_month (date r), 1)) /\
  NoDup (map fst points) /\
  sum64 (map snd points) = sum64 (map registrations rows).
Proof.
  cbv zeta.
  set (key := fun r => [CInt (to_period_M (date r)); CStr (vehicle_category r)]).
  assert (Hgroups : forall k t,
             In (k, t) (monthly_groups df) <->
             exists r, In r (records df) /\ k = key r /\
                       t = total_where (same_month_category r) (records df)).
  { intros k t.
    change (monthly_groups df)
      with (groupby_sum key_compare (map (fun r => (key r, registrations r)) (records df))).
    rewrite (grouped_totals_In key_compare key_compare_order key).
    assert (Hp : forall r x,
               match key_compare (key x) (key r) with Eq => true | _ => false end
               = same_month_category r x).
    { intros r x. unfold key, same_month_category. cbn [key_compare cell_compare].
      rewrite <- (string_compare_eqb (vehicle_category x) (vehicle_category r)).
      destruct (to_period_M (date x) ?= to_period_M (date r)) eqn:E.
      - apply to_period_M_eqb in E. destruct E as [-> ->].
        rewrite !Z.eqb_refl. cbn [andb].
        destruct (String.compare (vehicle_category x) (vehicle_category r)); reflexivity.
      - replace ((dt_year (date x) =? dt_year (date r))
                 && (dt_month (date x) =? dt_month (date r))) with false; [reflexivity|].
        symmetry. apply not_true_is_false. intros Hb. apply andb_true_iff in Hb.
        destruct Hb as [Hy Hmo]. apply Z.eqb_eq in Hy, Hmo.
        assert (Heq : (to_period_M (date x) ?= to_period_M (date r)) = Eq)
          by (apply to_period_M_eqb; auto).
        congruence.
      - replace ((dt_year (date x) =? dt_year (date r))
                 && (dt_month (date x) =? dt_month (date r))) with false; [reflexivity|].
        symmetry. apply not_true_is_false. intros Hb. apply andb_true_iff in Hb.
        destruct Hb as [Hy Hmo]. apply Z.eqb_eq in Hy, Hmo.
        assert (Heq : (to_period_M (date x) ?= to_period_M (date r)) = Eq)
          by (apply to_period_M_eqb; auto).
        congruence. }
    split.
    - intros [Hk Ht]. apply in_map_iff in Hk. destruct Hk as [r [<- Hr]].
      exists r. split; [exact Hr|]. split; [reflexivity|]. rewrite Ht.
      apply total_where_ext. intros x _. apply Hp.
    - intros [r [Hr [-> ->]]]. split; [apply in_map, Hr|].
      apply total_where_ext. intros x _. symmetry. apply Hp. }
  assert (Hshape : forall g, In g (monthly_groups df) ->
             exists r, In r (records df) /\ fst g = key r).
  { intros [k t] Hin. apply Hgroups in Hin. destruct Hin as [r [Hr [-> _]]].
    exists r. split; [exact Hr | reflexivity]. }
  split; [|split; [|split]].
  - intros k t. unfold create_trend_chart. rewrite in_map_iff. split.
    + intros [[k0 t0] [E Hin]]. apply Hgroups in Hin.
      destruct Hin as [r [Hr [-> ->]]]. exists r. split; [exact Hr|].
      unfold key in E. cbn [fst snd] in E. rewrite period_month_start in E.
      inversion E. split; reflexivity.
    + intros [r [Hr [-> ->]]].
      exists (key r, total_where (same_month_category r) (records df)). split.
      * unfold key. cbn [fst snd]. rewrite period_month_start. reflexivity.
      * apply Hgroups. exists r. auto.
  - intros r. apply month_start_civil.
  - unfold create_trend_chart. rewrite map_map. cbn [fst].
    assert (Hnd : NoDup (map fst (monthly_groups df)))
      by apply (grouped_totals_NoDup key_compare key_compare_order).
    revert Hnd Hshape. generalize (monthly_groups df). intros l.
    induction l as [|g rest IH]; intros Hnd Hshape; [constructor|].
    cbn [map]. inversion Hnd as [|? ? Hnot Hnd']; subst. constructor.
    + intros Hin. apply Hnot. apply in_map_iff in Hin. destruct Hin as [g' [E Hg']].
      apply in_map_iff. exists g'. split; [|exact Hg'].
      destruct (Hshape g (or_introl eq_refl)) as [r [_ Hr]].
      destruct (Hshape g' (or_intror Hg')) as [r' [_ Hr']].
      rewrite Hr, Hr' in *. unfold key in *. rewrite !period_month_start in E.
      inversion E as [[Hd Hc]].
      assert (Hciv : civil_from_days (month_start (date r'))
                     = civil_from_days (month_start (date r))) by (rewrite Hd; reflexivity).
      rewrite !month_start_civil in Hciv. inversion Hciv as [[Hy Hmo]].
      unfold to_period_M. rewrite Hy, Hmo. reflexivity.
    + apply IH; [exact Hnd'|]. intros g' Hg'. apply Hshape. right. exact Hg'.
  - unfold create_trend_chart. rewrite map_map. cbn [snd].
    unfold monthly_groups. rewrite groupby_sum_mass, map_map. reflexivity.
Qed.

(** ** [export_insights_summary] *)

Lemma growth_leaders_need_previous_year (df : DataFrame) (ranking : list GrowthLeader) :
  identify_growth_leaders df "YoY" = Ok ranking ->
  ranking <> [] /\
  exists r r', In r (records df) /\ In r' (records df) /\
               dt_year (date r') + 1 = dt_year (date r).
Proof.
  unfold identify_growth_leaders, growth_windows. simpl String.eqb. cbv beta iota.
  set (y := max_of (map (fun r => dt_year (date r)) (records df))).
  set (cur := filter _ (records df)).
  destruct (filter (fun r => eq_opt (dt_year (date r)) (opt_sub y 1)) (records df))
    as [|r' rest] eqn:Eprev.
  { rewrite !leaders_of_no_previous. discriminate. }
  rewrite <- Eprev.
  set (leaders := (_ ++ _)%list).
  destruct leaders as [|g gs] eqn:El; [discriminate|].
  intros H. split.
  - intros Hnil. assert (Hp := sort_desc_perm growth_rate_value (g :: gs)).
    replace ranking with (sort_desc growth_rate_value (g :: gs)) in Hnil by congruence.
    rewrite Hnil in Hp. apply Permutation_nil in Hp. discriminate.
  - assert (Hin : In r' (filter (fun r => eq_opt (dt_year (date r)) (opt_sub y 1))
                                (records df))) by (rewrite Eprev; left; reflexivity).
    apply filter_In in Hin. destruct Hin as [Hr' Hy].
    destruct (max_of_spec (map (fun r => dt_year (date r)) (records df)))
      as [m [Hm [Hinm _]]].
    { intros Hnil. apply map_eq_nil in Hnil. rewrite Hnil in Hr'. contradiction. }
    subst y. rewrite Hm in Hy. simpl in Hy. apply Z.eqb_eq in Hy.
    apply in_map_iff in Hinm. destruct Hinm as [r [Hr Hinr]].
    exists r, r'. split; [exact Hinr|]. split; [exact Hr'|]. lia.
Qed.

Lemma seasonal_patterns_need_coverage (df : DataFrame) (rows : list SeasonalRow) :
  snd (get_seasonal_patterns df) = Ok rows ->
  forall m, In m calendar_months -> exists r, In r (records df) /\ dt_month (date r) = m.
Proof.
  intros Hok m Hm.
  destruct (existsb (fun r => dt_month (date r) =? m) (records df)) eqn:E.
  - apply existsb_exists in E. destruct E as [r [Hr E]]. apply Z.eqb_eq in E. eauto.
  - exfalso.
    rewrite (seasonal_patterns_missing_month df m Hm) in Hok; [discriminate|].
    intros r Hr Heq.
    assert (existsb (fun r => dt_month (date r) =? m) (records df) = true).
    { apply existsb_exists. exists r. split; [exact Hr | apply Z.eqb_eq, Heq]. }
    congruence.
Qed.

(** The summary file is written exactly when the call returns.  The call
    returns four insights, and leaves the [month] column on the frame; it
    can return only on a collection that has a record in every calendar
    month and records in two consecutive calendar years.  When it fails
    nothing is written. *)
Theorem export_insights_outcome (df : DataFrame) (now : string) :
  let frame := fst (fst (export_insights_summary df now)) in
  let file := snd (fst (export_insights_summary df now)) in
  let result := snd (export_insights_summary df now) in
  (forall insights,
      result = Returned insights ->
      List.length insights = 4%nat /\
      file = Some (summary_text insights now) /\
      frame = setitem "month" (month_column df) df /\
      (forall m, In m calendar_months ->
                 exists r, In r (records df) /\ dt_month (date r) = m) /\
      (exists r r', In r (records df) /\ In r' (records df) /\
                    dt_year (date r') + 1 = dt_year (date r))) /\
  (forall f, result = Failed f ->
             file = None /\ (frame = df \/ frame = setitem "month" (month_column df) df)).
Proof.
  cbv zeta. unfold export_insights_summary.
  destruct (calculate_market_share df "manufacturer") as [market_share | e];
    cbn [lift]; [|split; [discriminate | auto]].
  destruct market_share as [|[top_manufacturer top_share] ms];
    cbn [first_entry]; [split; [discriminate | auto]|].
  destruct (identify_growth_leaders df "YoY") as [growth_leaders | e] eqn:Eg;
    cbn [lift]; [|split; [discriminate | auto]].
  destruct growth_leaders as [|fastest gl];
    cbn [first_entry]; [split; [discriminate | auto]|].
  pose proof (seasonal_patterns_frame df) as Hframe.
  pose proof (seasonal_patterns_need_coverage df) as Hcov.
  destruct (get_seasonal_patterns df) as [df' seasonal]. cbn [fst snd] in Hframe, Hcov.
  subst df'.
  destruct seasonal as [seasonal_data | e]; cbn [lift]; [|split; [discriminate | auto]].
  destruct (argmax_float _) as [[position v]|]; [|split; [discriminate | auto]].
  destruct (nth_error seasonal_data position) as [peak|]; [|split; [discriminate | auto]].
  destruct (calculate_market_share _ "category") as [category_share | e];
    cbn [lift]; [|split; [discriminate | auto]].
  destruct category_share as [|[dominant_category dominant_share] cs];
    cbn [first_entry]; [split; [discriminate | auto]|].
  cbn [fst snd]. split; [|discriminate].
  intros insights H. injection H as <-.
  split; [reflexivity|]. split; [reflexivity|]. split; [reflexivity|].
  split; [apply (Hcov seasonal_data eq_refl)|].
  apply (growth_leaders_need_previous_year df _ Eg).
Qed.

(** A collection whose records all lie in one calendar year cannot be
    summarised: the call raises, [IndexError] when there is no record and
    [KeyError 'Growth_Rate'] otherwise, before the frame is touched and
    without writing the file. *)
Theorem export_insights_single_year (df : DataFrame) (now : string) :
  (forall r r', In r (records df) -> In r' (records df) ->
                dt_year (date r) = dt_year (date r')) ->
  export_insights_summary df now
  = (df, None,
     Failed (match records df with
             | [] => IndexError "index 0 is out of bounds for axis 0 with size 0"
             | _ :: _ => Raised (KeyError "Growth_Rate")
             end)).
Proof.
  intros Hsame. unfold export_insights_summary.
  assert (Hms : exists market_share,
             calculate_market_share df "manufacturer" = Ok market_share /\
             (market_share = [] <-> records df = [])).
  { unfold calculate_market_share, market_share_groups, getitem.
    cbn [String.eqb Ascii.eqb Bool.eqb]. eexists. split; [reflexivity|].
    rewrite combine_map.
    set (groups := groupby_sum cell_compare _).
    split.
    - intros Hnil.
      assert (Hp := sort_desc_perm snd
                      (map (share_of (sum64 (map registrations (records df)))) groups)).
      rewrite Hnil in Hp. apply Permutation_nil in Hp.
      apply map_eq_nil in Hp.
      destruct (records df) as [|r rest] eqn:Er; [reflexivity|]. exfalso.
      assert (Hin : In (CStr (manufacturer r),
                        total_where (fun x => match cell_compare (CStr (manufacturer x))
                                                                 (CStr (manufacturer r))
                                              with Eq => true | _ => false end)
                                    (r :: rest)) groups).
      { subst groups.
        apply (grouped_totals_In cell_compare cell_compare_order
                 (fun x => CStr (manufacturer x))).
        split; [left; reflexivity | reflexivity]. }
      rewrite Hp in Hin. contradiction.
    - intros Hnil. subst groups. rewrite Hnil. reflexivity. }
  destruct Hms as [market_share [-> Hempty]]. cbn [lift].
  destruct market_share as [|[top_manufacturer top_share] ms]; cbn [first_entry].
  - rewrite (proj1 Hempty eq_refl). reflexivity.
  - assert (Hne : records df <> []).
    { intros Hnil. apply Hempty in Hnil. discriminate. }
    assert (Hg : identify_growth_leaders df "YoY" = Err (KeyError "Growth_Rate")).
    { unfold identify_growth_leaders, growth_windows. simpl String.eqb. cbv beta iota.
      set (y := max_of (map (fun r => dt_year (date r)) (records df))).
      assert (Hprev : filter (fun r => eq_opt (dt_year (date r)) (opt_sub y 1)) (records df)
                      = []).
      { apply filter_none. intros r Hr. subst y.
        destruct (max_of_spec (map (fun r => dt_year (date r)) (records df)))
          as [m [Hm [Hin _]]].
        { destruct (records df); [contradiction | discriminate]. }
        rewrite Hm. simpl. apply in_map_iff in Hin. destruct Hin as [r' [<- Hr']].
        rewrite (Hsame r r' Hr Hr'). apply Z.eqb_neq. lia. }
      rewrite Hprev, !leaders_of_no_previous. reflexivity. }
    rewrite Hg. cbn [lift]. destruct (records df); [contradiction | reflexivity].
Qed.

Lemma export_insights_single_year_witness :
  export_insights_summary uniform_year_frame "2024-12-31 00:00:00"
  = (uniform_year_frame, None, Failed (Raised (KeyError "Growth_Rate"))).
Proof.
  apply (export_insights_single_year uniform_year_frame).
  assert (H : forall x, In x (records uniform_year_frame) -> dt_year (date x) = 2024).
  { intros x Hx. cbn [records uniform_year_frame map] in Hx.
    repeat (destruct Hx as [<- | Hx]; [reflexivity|]). contradiction. }
  intros r r' Hr Hr'. rewrite (H r Hr), (H r' Hr'). reflexivity.
Defined.

(** ** The order of floats *)

Lemma SFleb_rank (x y : float64) :
  is_nan x = false -> is_nan y = false ->
  (SFleb x y = true <-> rank_le (float_rank x) (float_rank y)).
Proof.
  intros Hx Hy. unfold SFleb, rank_le.
  destruct x as [[]|[]| |[] mx ex]; try discriminate;
    destruct y as [[]|[]| |[] my ey]; try discriminate;
      cbn [SFcompare float_rank fst snd];
      try (split; [intros _; lia | reflexivity]);
      try (split; [discriminate | intros H; exfalso; lia]).
  - change (Pos.compare_cont Eq mx my) with (Pos.compare mx my).
    destruct (Z.compare_spec ex ey); cbn [CompOpp].
    + destruct (Pos.compare_spec mx my); cbn [CompOpp];
        (split; [try discriminate; intros _; lia | try reflexivity; intros; exfalso; lia]).
    + split; [discriminate | intros; exfalso; lia].
    + split; [intros _; lia | reflexivity].
  - change (Pos.compare_cont Eq mx my) with (Pos.compare mx my).
    destruct (Z.compare_spec ex ey).
    + destruct (Pos.compare_spec mx my);
        (split; [try discriminate; intros _; lia | try reflexivity; intros; exfalso; lia]).
    + split; [intros _; lia | reflexivity].
    + split; [discriminate | intros; exfalso; lia].
Qed.

Lemma SFleb_trans (x y z : float64) :
  is_nan x = false -> is_nan y = false -> is_nan z = false ->
  SFleb x y = true -> SFleb y z = true -> SFleb x z = true.
Proof.
  intros Hx Hy Hz. rewrite !SFleb_rank by assumption. unfold rank_le. lia.
Qed.

Lemma SFleb_total (x y : float64) :
  is_nan x = false -> is_nan y = false -> SFleb x y = true \/ SFleb y x = true.
Proof.
  intros Hx Hy. rewrite !SFleb_rank by assumption. unfold rank_le. lia.
Qed.

Lemma SFleb_refl (x : float64) : is_nan x = false -> SFleb x x = true.
Proof. intros Hx. rewrite SFleb_rank by assumption. unfold rank_le. lia. Qed.

(** ** [idxmax] *)

Lemma argmax_int_spec {K : Type} (l : list (K * Z)) :
  l <> [] ->
  exists k v, argmax_int l = Some (k, v) /\ In (k, v) l /\
              forall k' v', In (k', v') l -> v' <= v.
Proof.
  induction l as [|[k v] t IH]; [congruence|]. intros _. cbn [argmax_int].
  destruct t as [|p t'].
  - exists k, v. cbn [argmax_int]. split; [reflexivity|]. split; [left; reflexivity|].
    intros k' v' [E | []]. inversion E. lia.
  - destruct IH as [k0 [v0 [E [Hin Hmax]]]]; [discriminate|].
    rewrite E. destruct (Z.leb_spec v0 v).
    + exists k, v. split; [reflexivity|]. split; [left; reflexivity|].
      intros k' v' [Heq | Hin']; [inversion Heq; lia|].
      specialize (Hmax k' v' Hin'). lia.
    + exists k0, v0. split; [reflexivity|]. split; [right; exact Hin|].
      intros k' v' [Heq | Hin']; [inversion Heq; lia|].
      apply (Hmax k' v' Hin').
Qed.

Lemma argmax_float_spec {K : Type} (l : list (K * float64)) (k0 : K) (v0 : float64) :
  In (k0, v0) l -> is_nan v0 = false ->
  exists k v, argmax_float l = Some (k, v) /\ In (k, v) l /\ is_nan v = false /\
              forall k' v', In (k', v') l -> is_nan v' = false -> SFleb v' v = true.
Proof.
  revert k0 v0. induction l as [|[k1 v1] t IH]; intros k0 v0 Hin Hv0; [contradiction|].
  cbn [argmax_float].
  assert (Htail : (exists k' v', In (k', v') t /\ is_nan v' = false)
                  \/ forall k' v', In (k', v') t -> is_nan v' = true).
  { clear. induction t as [|[k v] t IH].
    - right. intros k' v' [].
    - destruct (is_nan v) eqn:E.
      + destruct IH as [[k' [v' [Hin Hv]]] | Hall].
        * left. exists k', v'. split; [right; exact Hin | exact Hv].
        * right. intros k' v' [Heq | Hin]; [inversion Heq; subst; exact E|].
          apply (Hall k' v' Hin).
      + left. exists k, v. split; [left; reflexivity | exact E]. }
  destruct (is_nan v1) eqn:E1.
  - destruct Hin as [Heq | Hin]; [inversion Heq; subst; congruence|].
    destruct (IH k0 v0 Hin Hv0) as [k [v [Ea [Hi [Hn Hmax]]]]].
    exists k, v. split; [exact Ea|]. split; [right; exact Hi|]. split; [exact Hn|].
    intros k' v' [Heq | Hin'] Hn'; [inversion Heq; subst; congruence|].
    apply (Hmax k' v' Hin' Hn').
  - destruct Htail as [[k' [v' [Hin' Hv']]] | Hall].
    + destruct (IH k' v' Hin' Hv') as [k [v [Ea [Hi [Hn Hmax]]]]].
      rewrite Ea. destruct (SFleb v v1) eqn:Ele.
      * exists k1, v1. split; [reflexivity|]. split; [left; reflexivity|].
        split; [exact E1|].
        intros k2 v2 [Heq | Hin2] Hn2; [inversion Heq; subst; apply SFleb_refl, E1|].
        apply (SFleb_trans v2 v v1 Hn2 Hn E1); [apply (Hmax k2 v2 Hin2 Hn2) | exact Ele].
      * exists k, v. split; [reflexivity|]. split; [right; exact Hi|]. split; [exact Hn|].
        intros k2 v2 [Heq | Hin2] Hn2.
        -- inversion Heq; subst.
           destruct (SFleb_total v2 v Hn2 Hn) as [H | H]; [exact H | congruence].
        -- apply (Hmax k2 v2 Hin2 Hn2).
    + assert (Ea : argmax_float t = None).
      { clear -Hall. induction t as [|[k v] t IH]; [reflexivity|].
        cbn [argmax_float]. rewrite (Hall k v) by (left; reflexivity).
        apply IH. intros k' v' Hin. apply (Hall k' v'). right. exact Hin. }
      rewrite Ea. exists k1, v1. split; [reflexivity|]. split; [left; reflexivity|].
      split; [exact E1|].
      intros k2 v2 [Heq | Hin2] Hn2; [inversion Heq; subst; apply SFleb_refl, E1|].
      rewrite (Hall k2 v2 Hin2) in Hn2. discriminate.
Qed.

Lemma argmax_int_first {K : Type} (R : K -> K -> Prop) (l : list (K * Z)) (k : K) (v : Z) :
  StronglySorted (fun a b => R (fst a) (fst b)) l ->
  argmax_int l = Some (k, v) ->
  forall k', In (k', v) l -> k' = k \/ R k k'.
Proof.
  intros Hs. revert k v.
  induction Hs as [|[k1 v1] t Ht IH Hall]; intros k v E k' Hin; [contradiction|].
  cbn [argmax_int] in E. rewrite Forall_forall in Hall.
  destruct (argmax_int t) as [[k0 v0]|] eqn:Et.
  - destruct (Z.leb_spec v0 v1).
    + inversion E; subst. destruct Hin as [Heq | Hin]; [inversion Heq; auto|].
      right. apply (Hall (k', v) Hin).
    + inversion E; subst. destruct Hin as [Heq | Hin].
      * inversion Heq; subst. lia.
      * apply (IH k v eq_refl k' Hin).
  - inversion E; subst. destruct Hin as [Heq | Hin]; [inversion Heq; auto|].
    right. apply (Hall (k', v) Hin).
Qed.

(** ** The figures of the page *)

Lemma calculate_growth_value (c p : Z) :
  - two63 <= p < two63 -> growth_value (calculate_growth (Int c) (Int p)).
Proof.
  intros Hp. pose proof (calculate_growth_not_nan c p Hp) as Hn.
  unfold calculate_growth in *.
  destruct (num_eqb (Int p) (Int 0)); [reflexivity|].
  cbn [num_sub num_div num_mul to_float isna growth_value] in *. exact Hn.
Qed.

Lemma yoy_metrics (df : DataFrame) :
  exists g2 g3 g4,
    metric "2w_yoy_growth" (get_growth_metrics df) = Ok g2 /\
    metric "3w_yoy_growth" (get_growth_metrics df) = Ok g3 /\
    metric "4w_yoy_growth" (get_growth_metrics df) = Ok g4 /\
    growth_value g2 /\ growth_value g3 /\ growth_value g4.
Proof.
  unfold get_growth_metrics.
  set (cur := filter _ (records df)).
  set (py := filter _ (records df)).
  set (pq := filter _ (records df)).
  cbn [flat_map List.app lower lower_char].
  do 3 eexists. unfold metric.
  split; [reflexivity|]. split; [reflexivity|]. split; [reflexivity|].
  repeat split; apply calculate_growth_value, total_where_range.
Qed.

Lemma growth_value_compare (a b : number) :
  growth_value a -> growth_value b ->
  num_compare a b = SFcompare (to_float a) (to_float b)
  /\ is_nan (to_float a) = false /\ is_nan (to_float b) = false.
Proof.
  intros Ha Hb.
  destruct a as [x|f], b as [y|g]; cbn [growth_value] in *; subst;
    cbn [num_compare to_float]; repeat split; try reflexivity; assumption.
Qed.

Lemma num_gtb_leb (a b : number) :
  growth_value a -> growth_value b ->
  num_gtb a b = negb (SFleb (to_float a) (to_float b)).
Proof.
  intros Ha Hb. destruct (growth_value_compare a b Ha Hb) as [E [Hna Hnb]].
  unfold num_gtb, SFleb. rewrite E.
  destruct (SFcompare_defined (to_float a) (to_float b) Hna Hnb) as [c ->].
  destruct c; reflexivity.
Qed.

Lemma num_geb_leb (a b : number) :
  growth_value a -> growth_value b ->
  num_geb a b = SFleb (to_float b) (to_float a).
Proof.
  intros Ha Hb. destruct (growth_value_compare a b Ha Hb) as [E [Hna Hnb]].
  unfold num_geb. rewrite E. symmetry. unfold SFleb.
  destruct (SFcompare_defined (to_float a) (to_float b) Hna Hnb) as [c Hc].
  rewrite Hc. rewrite (SFcompare_flip _ _ _ Hc). destruct c; reflexivity.
Qed.

Lemma max3_spec (a b c : number) :
  growth_value a -> growth_value b -> growth_value c ->
  In (max3 a b c) [a; b; c] /\
  num_geb (max3 a b c) a = true /\
  num_geb (max3 a b c) b = true /\
  num_geb (max3 a b c) c = true.
Proof.
  intros Ha Hb Hc.
  destruct (growth_value_compare a b Ha Hb) as [_ [Hna Hnb]].
  destruct (growth_value_compare c c Hc Hc) as [_ [Hnc _]].
  unfold max3. rewrite (num_gtb_leb b a Hb Ha).
  destruct (SFleb (to_float b) (to_float a)) eqn:Eba; cbn [negb].
  - rewrite (num_gtb_leb c a Hc Ha).
    destruct (SFleb (to_float c) (to_float a)) eqn:Eca; cbn [negb].
    + split; [left; reflexivity|].
      rewrite !num_geb_leb by assumption. rewrite Eba, Eca, SFleb_refl by assumption. auto.
    + split; [right; right; left; reflexivity|].
      rewrite !num_geb_leb by assumption.
      destruct (SFleb_total (to_float c) (to_float a) Hnc Hna) as [H | H]; [congruence|].
      rewrite H, SFleb_refl by assumption.
      rewrite (SFleb_trans _ _ _ Hnb Hna Hnc Eba H). auto.
  - destruct (SFleb_total (to_float b) (to_float a) Hnb Hna) as [H | Hab]; [congruence|].
    rewrite (num_gtb_leb c b Hc Hb).
    destruct (SFleb (to_float c) (to_float b)) eqn:Ecb; cbn [negb].
    + split; [right; left; reflexivity|].
      rewrite !num_geb_leb by assumption. rewrite Hab, Ecb, SFleb_refl by assumption. auto.
    + split; [right; right; left; reflexivity|].
      rewrite !num_geb_leb by assumption.
      destruct (SFleb_total (to_float c) (to_float b) Hnc Hnb) as [H | H]; [congruence|].
      rewrite H, SFleb_refl by assumption.
      rewrite (SFleb_trans _ _ _ Hna Hnb Hnc Hab H). auto.
Qed.

Lemma of_int_unsigned (z : Z) : 0 <= z -> unsigned_float (of_int z).
Proof.
  intros Hz. destruct (Z.eq_dec z 0) as [-> | Hne]; [exact I|].
  apply of_int_opp. lia.
Qed.





Lemma values_of_month_Z (m : Z) (rows : list RegistrationRecord) :
  values_of Z.compare m (map (fun r => (dt_month (date r), registrations r)) rows)
  = month_values m rows.
Proof.
  unfold values_of, month_values. induction rows as [|r t IH]; simpl; [reflexivity|].
  rewrite Z.eqb_compare.
  destruct (dt_month (date r) ?= m); simpl; rewrite IH; reflexivity.
Qed.

Lemma monthly_means_In (rows : list RegistrationRecord) (m : Z) (v : float64) :
  In (m, v) (groupby_mean Z.compare
               (map (fun r => (dt_month (date r), registrations r)) rows))
  <-> In m (map (fun r => dt_month (date r)) rows) /\ v = float_mean (month_values m rows).
Proof.
  unfold groupby_mean. rewrite in_map_iff. split.
  - intros [[k a] [E Hin]]. cbn [fst snd] in E. inversion E; subst. clear E.
    apply (group_fold_In Z.compare Z_compare_order) in Hin. destruct Hin as [Hk Ha].
    rewrite map_map in Hk. cbn [fst] in Hk. split; [exact Hk|].
    rewrite values_of_month_Z in Ha. subst a. apply mean_of_fold.
  - intros [Hm ->].
    exists (m, fold_left kahan_step (month_values m rows)
                         (S754_zero false, S754_zero false, 0)).
    split; [cbn [fst snd]; rewrite mean_of_fold; reflexivity|].
    apply (group_fold_In Z.compare Z_compare_order). split.
    + rewrite map_map. exact Hm.
    + rewrite values_of_month_Z. reflexivity.
Qed.


Lemma month_names_index (m : Z) :
  1 <= m <= 12 -> python_index month_names (m - 1) = Returned (month_name m).
Proof.
  intros Hm. apply in_calendar_months in Hm. unfold calendar_months in Hm. simpl in Hm.
  repeat (destruct Hm as [<- | Hm]; [reflexivity|]). contradiction.
Qed.

(** On a frame with records of which some month has a mean that is a
    number, [main] obtains all its figures: no lookup and no [idxmax]
    fails.  The top manufacturer has the largest total, the
    alphabetically first one among equals; the peak month is a month
    with records whose mean is a number and at least every monthly mean
    that is a number. *)
Theorem key_figures_returned (df : DataFrame) :
  (exists r0, In r0 (records df) /\
              is_nan (float_mean (month_values (dt_month (date r0)) (records df))) = false) ->
  exists k,
    key_figures df = Returned k /\
    total_registrations k = sum64 (map registrations (records df)) /\
    In (top_manufacturer k) (map manufacturer (records df)) /\
    (forall r, In r (records df) ->
       let total m := total_where (fun x => String.eqb (manufacturer x) m) (records df) in
       total (manufacturer r) <= total (top_manufacturer k) /\
       (total (manufacturer r) = total (top_manufacturer k) ->
        manufacturer r = top_manufacturer k
        \/ String.compare (top_manufacturer k) (manufacturer r) = Lt)) /\
    (exists r, In r (records df) /\
       peak_month_name k = month_name (dt_month (date r)) /\
       is_nan (float_mean (month_values (dt_month (date r)) (records df))) = false /\
       forall r', In r' (records df) ->
         is_nan (float_mean (month_values (dt_month (date r')) (records df))) = false ->
         SFleb (float_mean (month_values (dt_month (date r')) (records df)))
               (float_mean (month_values (dt_month (date r)) (records df))) = true).
Proof.
  intros [r0 [Hr0 Hn0]]. unfold key_figures.
  assert (Hne : records df <> []).
  { intros Hnil. rewrite Hnil in Hr0. contradiction. }
  destruct (yoy_metrics df) as [g2 [g3 [g4 [E2 [E3 [E4 _]]]]]].
  rewrite E2, E3, E4. cbn [lift bind].
  fold (totals_by manufacturer (records df)).
  destruct (argmax_int_spec (totals_by manufacturer (records df)))
    as [top [v [Etop [Hin Hmax]]]]; [apply totals_by_nonempty, Hne|].
  unfold idxmax_int. rewrite Etop. cbn [lift bind].
  set (means := groupby_mean Z.compare
                  (map (fun r => (dt_month (date r), registrations r)) (records df))).
  destruct (argmax_float_spec means (dt_month (date r0))
              (float_mean (month_values (dt_month (date r0)) (records df))))
    as [peak [pv [Epeak [Hpin [Hpn Hpmax]]]]].
  { apply monthly_means_In. split; [apply in_map_iff; eauto | reflexivity]. }
  { exact Hn0. }
  unfold idxmax_float. rewrite Epeak. cbn [lift bind].
  apply monthly_means_In in Hpin. destruct Hpin as [Hpm Hpv]. subst pv.
  apply in_map_iff in Hpm. destruct Hpm as [rp [Hrp Hrpin]].
  rewrite month_names_index by (rewrite <- Hrp; apply dt_month_range).
  cbn [bind]. eexists. split; [reflexivity|].
  cbn [total_registrations top_manufacturer peak_month_name].
  apply totals_by_In in Hin. destruct Hin as [Htopin Hv].
  split; [reflexivity|]. split; [exact Htopin|]. split.
  - intros r Hr. cbv zeta. rewrite <- Hv. split.
    + apply (Hmax (manufacturer r)). apply totals_by_In. split; [apply in_map, Hr | reflexivity].
    + intros Heq.
      apply (argmax_int_first (fun a b => String.compare a b = Lt)
               (totals_by manufacturer (records df)) top v);
        [apply (group_fold_increasing String.compare string_compare_order) | exact Etop |].
      apply totals_by_In. split; [apply in_map, Hr | congruence].
  - exists rp. split; [exact Hrpin|]. split; [rewrite Hrp; reflexivity|].
    rewrite Hrp. split; [exact Hpn|].
    intros r' Hr' Hn'. apply (Hpmax (dt_month (date r'))); [|exact Hn'].
    apply monthly_means_In. split; [apply in_map_iff; eauto | reflexivity].
Qed.

Lemma num_eqb_refl (a : number) : growth_value a -> num_eqb a a = true.
Proof.
  intros Ha. destruct (growth_value_compare a a Ha Ha) as [E [Hn _]].
  unfold num_eqb. rewrite E.
  destruct (to_float a) as [s|s| |s m e]; try discriminate; cbn [SFcompare].
  - reflexivity.
  - destruct s; reflexivity.
  - rewrite Z.compare_refl. change (Pos.compare_cont Eq m m) with (Pos.compare m m).
    rewrite Pos.compare_refl. destruct s; reflexivity.
Qed.

(** The fastest growing segment of the insight box: the figure shown is
    one of the three year-over-year figures and at least each of them,
    and the category named with it is the first of 2W, 3W and 4W whose
    figure equals it. *)
Theorem key_figures_fastest (df : DataFrame) (k : KeyFigures) :
  key_figures df = Returned k ->
  exists g2 g3 g4,
    metric "2w_yoy_growth" (get_growth_metrics df) = Ok g2 /\
    metric "3w_yoy_growth" (get_growth_metrics df) = Ok g3 /\
    metric "4w_yoy_growth" (get_growth_metrics df) = Ok g4 /\
    In (fastest_growing k) [g2; g3; g4] /\
    num_geb (fastest_growing k) g2 = true /\
    num_geb (fastest_growing k) g3 = true /\
    num_geb (fastest_growing k) g4 = true /\
    ((fastest_category k = "2W" /\ num_eqb (fastest_growing k) g2 = true)
     \/ (fastest_category k = "3W" /\ num_eqb (fastest_growing k) g2 = false /\
         num_eqb (fastest_growing k) g3 = true)
     \/ (fastest_category k = "4W" /\ num_eqb (fastest_growing k) g2 = false /\
         num_eqb (fastest_growing k) g3 = false /\
         num_eqb (fastest_growing k) g4 = true)).
Proof.
  intros H. unfold key_figures in H.
  destruct (yoy_metrics df) as [g2 [g3 [g4 [E2 [E3 [E4 [H2 [H3 H4]]]]]]]].
  rewrite E2, E3, E4 in H. cbn [lift bind] in H.
  destruct (idxmax_int _) as [top | e]; cbn [lift bind] in H; [|discriminate H].
  destruct (idxmax_float _) as [peak | e]; cbn [lift bind] in H; [|discriminate H].
  destruct (python_index month_names (peak - 1)) as [name | f]; cbn [bind] in H;
    [|discriminate H].
  assert (Hk : k = mkFigures (sum64 (map registrations (records df)))
                     (total_where (in_category "2W") (records df))
                     (total_where (in_category "4W") (records df))
                     (total_where (in_category "3W") (records df))
                     (max3 g2 g3 g4)
                     (if num_eqb (max3 g2 g3 g4) g2 then "2W"
                      else if num_eqb (max3 g2 g3 g4) g3 then "3W" else "4W")
                     top
                     (fmul (fdiv (of_int (total_where
                                            (fun r => String.eqb (manufacturer r) top)
                                            (records df)))
                                 (of_int (sum64 (map registrations (records df)))))
                           (of_int 100))
                     name) by congruence.
  clear H. subst k. cbn [fastest_growing fastest_category].
  exists g2, g3, g4.
  destruct (max3_spec g2 g3 g4 H2 H3 H4) as [Hin [Hg2 [Hg3 Hg4]]].
  repeat (split; [assumption|]).
  destruct (num_eqb (max3 g2 g3 g4) g2) eqn:Q2; [left; auto|].
  destruct (num_eqb (max3 g2 g3 g4) g3) eqn:Q3; [right; left; auto|].
  right. right. repeat split; try reflexivity.
  destruct Hin as [Hm | [Hm | [Hm | []]]]; rewrite <- Hm in *.
  - rewrite (num_eqb_refl g2 H2) in Q2. discriminate.
  - rewrite (num_eqb_refl g3 H3) in Q3. discriminate.
  - apply (num_eqb_refl g4 H4).
Qed.

Lemma key_figures_fastest_witness :
  exists k,
    key_figures two_year_frame = Returned k /\
    fastest_category k = "2W" /\
    exists g2 g3 g4,
      metric "2w_yoy_growth" (get_growth_metrics two_year_frame) = Ok g2 /\
      metric "3w_yoy_growth" (get_growth_metrics two_year_frame) = Ok g3 /\
      metric "4w_yoy_growth" (get_growth_metrics two_year_frame) = Ok g4 /\
      In (fastest_growing k) [g2; g3; g4] /\
      num_geb (fastest_growing k) g2 = true /\
      num_geb (fastest_growing k) g3 = true /\
      num_geb (fastest_growing k) g4 = true /\
      ((fastest_category k = "2W" /\ num_eqb (fastest_growing k) g2 = true)
       \/ (fastest_category k = "3W" /\ num_eqb (fastest_growing k) g2 = false /\
           num_eqb (fastest_growing k) g3 = true)
       \/ (fastest_category k = "4W" /\ num_eqb (fastest_growing k) g2 = false /\
           num_eqb (fastest_growing k) g3 = false /\
           num_eqb (fastest_growing k) g4 = true)).
Proof.
  eexists. split; [vm_compute; reflexivity|]. split; [reflexivity|].
  apply (key_figures_fastest two_year_frame). vm_compute. reflexivity.
Defined.

Lemma key_figures_returned_witness :
  exists k,
    key_figures two_year_frame = Returned k /\
    total_registrations k = sum64 (map registrations (records two_year_frame)) /\
    In (top_manufacturer k) (map manufacturer (records two_year_frame)) /\
    (forall r, In r (records two_year_frame) ->
       let total m :=
         total_where (fun x => String.eqb (manufacturer x) m) (records two_year_frame) in
       total (manufacturer r) <= total (top_manufacturer k) /\
       (total (manufacturer r) = total (top_manufacturer k) ->
        manufacturer r = top_manufacturer k
        \/ String.compare (top_manufacturer k) (manufacturer r) = Lt)) /\
    (exists r, In r (records two_year_frame) /\
       peak_month_name k = month_name (dt_month (date r)) /\
       is_nan (float_mean (month_values (dt_month (date r)) (records two_year_frame)))
       = false /\
       forall r', In r' (records two_year_frame) ->
         is_nan (float_mean (month_values (dt_month (date r')) (records two_year_frame)))
         = false ->
         SFleb (float_mean (month_values (dt_month (date r')) (records two_year_frame)))
               (float_mean (month_values (dt_month (date r)) (records two_year_frame)))
         = true).
Proof.
  apply (key_figures_returned two_year_frame).
  exists (sample 2023 3 1 "2W" "Honda" 100). split; [left; reflexivity|].
  vm_compute. reflexivity.
Defined.

Lemma export_insights_outcome_witness :
  exists insights,
    snd (export_insights_summary two_full_years_frame "2025-01-01 00:00:00")
    = Returned insights /\
    List.length insights = 4%nat /\
    snd (fst (export_insights_summary two_full_years_frame "2025-01-01 00:00:00"))
    = Some (summary_text insights "2025-01-01 00:00:00") /\
    fst (fst (export_insights_summary two_full_years_frame "2025-01-01 00:00:00"))
    = setitem "month" (month_column two_full_years_frame) two_full_years_frame /\
    (forall m, In m calendar_months ->
               exists r, In r (records two_full_years_frame) /\ dt_month (date r) = m) /\
    (exists r r', In r (records two_full_years_frame) /\
                  In r' (records two_full_years_frame) /\
                  dt_year (date r') + 1 = dt_year (date r)).
Proof.
  eexists. split; [vm_compute; reflexivity|].
  apply (proj1 (export_insights_outcome two_full_years_frame "2025-01-01 00:00:00")).
  vm_compute. reflexivity.
Defined.

(** ** The top manufacturer in the insight box and in the chart *)

Lemma sort_by_descending_hd {K : Type} (l : list (K * Z)) :
  hd_error (sort_by int_descending l) = argmax_int l.
Proof.
  induction l as [|[k v] t IH]; [reflexivity|].
  cbn [sort_by fold_right argmax_int]. fold (sort_by (@int_descending K) t).
  rewrite <- IH.
  destruct (sort_by int_descending t) as [|[k' v'] s]; [reflexivity|].
  cbn [insert_by hd_error]. unfold int_descending. cbn [snd].
  destruct (v' <=? v); reflexivity.
Qed.

(** The first bar of the manufacturer chart carries the total of the top
    manufacturer named in the insight box, which no other manufacturer
    exceeds. *)
Theorem top_manufacturer_first_bar (df : DataFrame) (k : KeyFigures)
  (bars : list (string * Z)) :
  key_figures df = Returned k ->
  create_manufacturer_chart df "top_performers" = Ok bars ->
  exists m t rest,
    bars = (m, t) :: rest /\
    t = total_where (fun r => String.eqb (manufacturer r) (top_manufacturer k)) (records df) /\
    t = total_where (fun r => String.eqb (manufacturer r) m) (records df) /\
    (forall r, In r (records df) ->
               total_where (fun x => String.eqb (manufacturer x) (manufacturer r)) (records df)
               <= t).
Proof.
  intros Hk Hbars. unfold key_figures in Hk.
  destruct (yoy_metrics df) as [g2 [g3 [g4 [E2 [E3 [E4 _]]]]]].
  rewrite E2, E3, E4 in Hk. cbn [lift bind] in Hk.
  fold (totals_by manufacturer (records df)) in Hk.
  unfold idxmax_int in Hk.
  destruct (argmax_int (totals_by manufacturer (records df))) as [[top v]|] eqn:Etop;
    cbn [lift bind] in Hk; [|discriminate Hk].
  destruct (idxmax_float _) as [peak | e]; cbn [lift bind] in Hk; [|discriminate Hk].
  destruct (python_index month_names (peak - 1)) as [name | f]; cbn [bind] in Hk;
    [|discriminate Hk].
  assert (Htopk : top_manufacturer k = top).
  { injection Hk as <-. reflexivity. }
  clear Hk. rewrite Htopk.
  unfold create_manufacturer_chart in Hbars. cbn [String.eqb Ascii.eqb Bool.eqb] in Hbars.
  fold (totals_by manufacturer (records df)) in Hbars.
  pose proof (sort_by_descending_hd (totals_by manufacturer (records df))) as Hhd.
  rewrite Etop in Hhd.
  destruct (sort_by int_descending (totals_by manufacturer (records df))) as [|first s];
    [discriminate Hhd|].
  cbn [hd_error] in Hhd. injection Hhd as ->.
  cbn [firstn] in Hbars. injection Hbars as <-.
  assert (Hne : totals_by manufacturer (records df) <> []).
  { intros Hnil. rewrite Hnil in Etop. discriminate. }
  destruct (argmax_int_spec (totals_by manufacturer (records df)) Hne)
    as [k0 [v0 [E0 [Hin Hmax]]]].
  rewrite Etop in E0. injection E0 as <- <-.
  apply totals_by_In in Hin. destruct Hin as [_ Hv].
  exists top, v, (firstn 9 s). split; [reflexivity|]. split; [exact Hv|].
  split; [exact Hv|].
  intros r Hr. apply (Hmax (manufacturer r)). apply totals_by_In.
  split; [apply in_map, Hr | reflexivity].
Qed.

Lemma top_manufacturer_first_bar_witness :
  exists k bars,
    key_figures two_year_frame = Returned k /\
    create_manufacturer_chart two_year_frame "top_performers" = Ok bars /\
    exists m t rest,
      bars = (m, t) :: rest /\
      t = total_where (fun r => String.eqb (manufacturer r) (top_manufacturer k))
                      (records two_year_frame) /\
      t = total_where (fun r => String.eqb (manufacturer r) m) (records two_year_frame) /\
      (forall r, In r (records two_year_frame) ->
                 total_where (fun x => String.eqb (manufacturer x) (manufacturer r))
                             (records two_year_frame)
                 <= t).
Proof.
  eexists. eexists. split; [vm_compute; reflexivity|]. split; [vm_compute; reflexivity|].
  apply (top_manufacturer_first_bar two_year_frame); vm_compute; reflexivity.
Defined.

(** ** [calculate_market_share] and the columns of the frame *)

(** The call fails only for want of the grouping column, with a
    [KeyError] that names it; ["category"] stands for the
    [vehicle_category] column.  So grouping by ["month"] raises on a frame
    without that column and succeeds on the frame that
    [get_seasonal_patterns] or [create_heatmap_analysis] has left. *)
Theorem market_share_column_lookup (df : DataFrame) (group_by : string) :
  (calculate_market_share df group_by = Err (KeyError (group_label group_by))
   <-> getitem (group_label group_by) df = None) /\
  (forall e, calculate_market_share df group_by = Err e ->
             e = KeyError (group_label group_by)) /\
  calculate_market_share df "category" = calculate_market_share df "vehicle_category" /\
  (getitem "month" df = None ->
   calculate_market_share df "month" = Err (KeyError "month")) /\
  (exists shares,
      calculate_market_share (fst (get_seasonal_patterns df)) "month" = Ok shares) /\
  (exists shares,
      calculate_market_share (fst (create_heatmap_analysis df)) "month" = Ok shares).
Proof.
  assert (Hmonth : forall frame column,
             getitem "month" frame = Some column ->
             exists shares, calculate_market_share frame "month" = Ok shares).
  { intros frame column H. unfold calculate_market_share.
    rewrite market_share_groups_label. change (group_label "month") with "month".
    rewrite H. eexists. reflexivity. }
  split; [|split; [|split; [|split; [|split]]]].
  - unfold calculate_market_share. rewrite market_share_groups_label.
    destruct (getitem (group_label group_by) df); split; intros H;
      try reflexivity; discriminate H.
  - intros e. unfold calculate_market_share. rewrite market_share_groups_label.
    destruct (getitem (group_label group_by) df); intros H; [discriminate H|].
    injection H as <-. reflexivity.
  - unfold calculate_market_share. rewrite !market_share_groups_label. reflexivity.
  - intros H. unfold calculate_market_share. rewrite market_share_groups_label.
    change (group_label "month") with "month". rewrite H. reflexivity.
  - apply (Hmonth _ (month_column df)).
    rewrite seasonal_patterns_frame. apply getitem_month_assigned.
  - apply (Hmonth _ (month_column df)).
    rewrite heatmap_analysis_frame. apply getitem_month_assigned.
Qed.

Lemma market_share_column_lookup_witness :
  getitem "month" january_frame = None /\
  calculate_market_share january_frame "month" = Err (KeyError "month") /\
  exists shares,
    calculate_market_share (fst (get_seasonal_patterns january_frame)) "month" = Ok shares.
Proof.
  assert (H : getitem "month" january_frame = None) by reflexivity.
  split; [exact H|]. split.
  - apply (proj1 (proj2 (proj2 (proj2 (market_share_column_lookup january_frame "month"))))).
    exact H.
  - apply (market_share_column_lookup january_frame "month").
Defined.

(** ** The colours of the growth chart *)

Lemma fmul_unsigned (x : float64) (my : positive) (ey : Z) :
  unsigned_float x -> unsigned_float (fmul x (S754_finite false my ey)).
Proof.
  unfold fmul.
  destruct x as [[]|[]| |[] mx ex]; try contradiction; intros _; try exact I.
  cbn [SFmul xorb]. apply binary_round_aux_sign. lia.
Qed.

Lemma unsigned_geb_zero (x : float64) :
  unsigned_float x -> num_geb (Float x) (Int 0) = true.
Proof.
  destruct x as [[]|[]| |[] m e]; try contradiction; intros _; reflexivity.
Qed.

(** A bar is never red for a category that held its level or grew: when
    the previous total is not positive, or the current total is at least
    the previous one, the bar is green. *)
Theorem growth_indicators_green (df : DataFrame) (bars : list GrowthBar) :
  create_growth_indicators df = Ok bars ->
  forall b, In b bars ->
    bar_previous b <= 0 \/ bar_previous b <= bar_current b ->
    bar_color b = "#10B981".
Proof.
  intros Hbars b Hb Hcase.
  pose proof (growth_indicators_cases df) as Hspec. cbv zeta in Hspec.
  rewrite Hbars in Hspec. destruct Hspec as [_ [_ [_ [_ Hbar]]]].
  destruct (Hbar b Hb) as [Hc [Hp [Hg [Hcol _]]]].
  rewrite Hcol, Hg.
  destruct (Z.ltb_spec 0 (bar_previous b)) as [Hpos | Hle]; [|reflexivity].
  destruct Hcase as [Habs | Hge]; [lia|].
  assert (Hrc : - two63 <= bar_current b < two63) by (rewrite Hc; apply total_where_range).
  assert (Hrp : - two63 <= bar_previous b < two63) by (rewrite Hp; apply total_where_range).
  unfold calculate_percentage_change.
  replace (num_eqb (Int (bar_previous b)) (Int 0)) with false.
  2: { unfold num_eqb. cbn [num_compare].
       destruct (Z.compare_spec (bar_previous b) 0); try reflexivity; lia. }
  cbn [num_sub num_div num_mul to_float].
  rewrite unsigned_geb_zero; [reflexivity|].
  destruct (positive_unit 100) as [m100 [e100 H100]]; [unfold two63; lia|].
  destruct (positive_unit (bar_previous b)) as [mp [ep Hfp]]; [lia|].
  rewrite H100, Hfp. apply fmul_unsigned, fdiv_opp.
  apply of_int_unsigned. unfold sub64. rewrite wrap64_small; unfold two63 in *; lia.
Qed.

Lemma growth_indicators_green_witness :
  exists bars,
    create_growth_indicators two_year_frame = Ok bars /\
    exists b, In b bars /\ bar_category b = "2W" /\ bar_color b = "#10B981".
Proof.
  eexists. split; [vm_compute; reflexivity|].
  eexists. split; [left; reflexivity|]. split; [reflexivity|].
  eapply (growth_indicators_green two_year_frame).
  - vm_compute. reflexivity.
  - left. reflexivity.
  - right. vm_compute. discriminate.
Defined.
